(** * WAjic coroutines ([wajic_coro.h]): a shallow embedding

    The header declares a JavaScript library [CORO] (the dispatcher
    [CoroHandler], the switch primitive [CoroCtxSwitch] and the imports
    [WaCoroInitNew], [WaCoroFree], [WaCoroSwitch], [WaCoroWaitAnimFrame],
    [WaCoroYield], [WaCoroSleep]) and the C function [nanosleep].

    The JavaScript side is embedded as state transformers on a record
    holding the library's variables and the [Uint32Array] view [MU32] of
    the linear memory.  Everything the library calls but does not define
    (the allocator, Binaryen's asyncify entry points, the browser's wake
    sources, the exports of the WebAssembly module) is part of the
    environment: each call is appended to a trace, and the answers come
    from an oracle or from the section variables. *)

From Stdlib Require Import ZArith List Lia Bool String.
From stdpp Require Import base option list gmap.
Import ListNotations.
Local Open Scope Z_scope.

(** ** JavaScript numbers and values *)

Module JS.

(** A variable or an array read is a number or [undefined]. *)
Definition val := option Z.
Definition undefined : val := None.

Definition ToUint32 (x : Z) : Z := x mod 2 ^ 32.
Definition ToInt32 (x : Z) : Z := (x + 2 ^ 31) mod 2 ^ 32 - 2 ^ 31.

(** [ToNumber(undefined)] is NaN, which the integer conversions map to 0. *)
Definition num (v : val) : Z := match v with Some z => z | None => 0 end.

(** [v >> k] *)
Definition sar (v : val) (k : Z) : Z := Z.shiftr (ToInt32 (num v)) k.

(** Truthiness: [undefined] and [0] are falsy. *)
Definition truthy (v : val) : bool :=
  match v with
  | Some z => negb (z =? 0)
  | None => false
  end.

(** [v == k], [v > k] for a literal [k]: false on [undefined]. *)
Definition eqn (v : val) (k : Z) : bool :=
  match v with Some z => z =? k | None => false end.
Definition gtn (v : val) (k : Z) : bool :=
  match v with Some z => k <? z | None => false end.

(** [a || b] *)
Definition or (a b : val) : val := if truthy a then a else b.

End JS.

(** ** The linear memory seen through [MU32] *)

(** Reading outside the array gives [undefined]; a store converts with
    [ToUint32] and is dropped when the index is outside the array. *)
Definition MU32_get (m : list Z) (i : Z) : JS.val :=
  if i <? 0 then None else m !! Z.to_nat i.

Definition MU32_set (m : list Z) (i : Z) (v : Z) : list Z :=
  if i <? 0 then m else <[Z.to_nat i := JS.ToUint32 v]> m.

(** ** What the WebAssembly code does

    The imports of [wajic_coro.h], with their arguments as the JavaScript
    side receives them ([i32] values). *)
Inductive Import : Type :=
| InitNew (fn_wa_export user_data stack_size : Z)
| Free (coro : Z)
| Switch (to : Z)
| WaitAnimFrame
| Yield
| Sleep (ms : Z).

(** A run of an exported function, as far as the library can see it: the
    imports it calls, each followed by what the code does with the result
    (0 for the [void] imports).  [Print] stands for any output of the
    program and is only used to tell runs apart. *)
Inductive Prog : Type :=
| Return
| Print (msg : string) (k : Prog)
| Call (i : Import) (k : Z -> Prog).

(** ** Calls that leave the library *)
Inductive Event : Type :=
| EvMalloc (size : Z)                 (* ASM.malloc(size) *)
| EvFree (p : Z)                      (* ASM.free(p) *)
| EvStartUnwind (data : Z)            (* ASM.asyncify_start_unwind(data) *)
| EvStopUnwind                        (* ASM.asyncify_stop_unwind() *)
| EvStartRewind (data : Z)            (* ASM.asyncify_start_rewind(data) *)
| EvStopRewind                        (* ASM.asyncify_stop_rewind() *)
| EvRequestAnimationFrame             (* window.requestAnimationFrame(CoroHandler) *)
| EvPostMessage                       (* window.postMessage(9, "*") *)
| EvSetTimeout (ms : Z)               (* setTimeout(CoroHandler, ms) *)
| EvCallExport (fn : Z) (arg : Z)     (* coro_asms[fn](arg) *)
| EvCallMain                          (* org_main() *)
| EvPrint (msg : string).

(** Binaryen's asyncify state of the module instance. *)
Inductive Asyncify : Type :=
| Normal
| Unwinding (data : Z)
| Rewinding (data : Z).

(** An element of the array [coro_asms]: the initial [0], or the export
    looked up with [ASM[MStrGet(fn_wa_export)]], named here by the pointer
    to its name. *)
Inductive AsmEntry : Type :=
| AsmZero
| AsmExport (fn_wa_export : Z).

(** ** The state: the variables of the [CORO] library and its environment *)
Record State : Type := mkState {
  MU32 : list Z;
  main_data : JS.val;
  coro_current : JS.val;
  coro_count : Z;
  coro_nums : gmap Z Z;
  coro_asms : gmap Z AsmEntry;
  org_main : option Prog;
  (* environment *)
  asyncify : Asyncify;              (* asyncify state of the instance *)
  saved : gmap Z Prog;              (* call chains captured by an unwind, by data pointer *)
  malloc_oracle : list Z;           (* what the next calls of ASM.malloc return *)
  trace : list Event                (* calls that left the library, oldest first *)
}.

(** [var main_data, coro_current, coro_count = 0, coro_nums = {},
    coro_asms = [0], ..., org_main;] *)
Definition init (mem : list Z) (mallocs : list Z) : State :=
  {| MU32 := mem; main_data := JS.undefined; coro_current := JS.undefined;
     coro_count := 0; coro_nums := ∅; coro_asms := {[ 0 := AsmZero ]};
     org_main := None; asyncify := Normal; saved := ∅;
     malloc_oracle := mallocs; trace := [] |}.

Definition log (e : Event) (s : State) : State :=
  {| MU32 := MU32 s; main_data := main_data s; coro_current := coro_current s;
     coro_count := coro_count s; coro_nums := coro_nums s; coro_asms := coro_asms s;
     org_main := org_main s; asyncify := asyncify s; saved := saved s;
     malloc_oracle := malloc_oracle s; trace := trace s ++ [e] |}.

Definition store (i v : Z) (s : State) : State :=
  {| MU32 := MU32_set (MU32 s) i v; main_data := main_data s;
     coro_current := coro_current s;
     coro_count := coro_count s; coro_nums := coro_nums s; coro_asms := coro_asms s;
     org_main := org_main s; asyncify := asyncify s; saved := saved s;
     malloc_oracle := malloc_oracle s; trace := trace s |}.

Definition set_coro_current (v : JS.val) (s : State) : State :=
  {| MU32 := MU32 s; main_data := main_data s; coro_current := v;
     coro_count := coro_count s; coro_nums := coro_nums s; coro_asms := coro_asms s;
     org_main := org_main s; asyncify := asyncify s; saved := saved s;
     malloc_oracle := malloc_oracle s; trace := trace s |}.

Definition set_asyncify (a : Asyncify) (s : State) : State :=
  {| MU32 := MU32 s; main_data := main_data s; coro_current := coro_current s;
     coro_count := coro_count s; coro_nums := coro_nums s; coro_asms := coro_asms s;
     org_main := org_main s; asyncify := a; saved := saved s;
     malloc_oracle := malloc_oracle s; trace := trace s |}.

(** *** The environment's entry points *)

(** [ASM.malloc(size)]: the oracle's next answer, 0 once it is exhausted.
    The allocator's own bookkeeping in the linear memory is not modelled. *)
Definition ASM_malloc (size : Z) (s : State) : Z * State :=
  let s := log (EvMalloc size) s in
  match malloc_oracle s with
  | [] => (0, s)
  | p :: rest =>
      (p, {| MU32 := MU32 s; main_data := main_data s; coro_current := coro_current s;
             coro_count := coro_count s; coro_nums := coro_nums s;
             coro_asms := coro_asms s; org_main := org_main s;
             asyncify := asyncify s; saved := saved s;
             malloc_oracle := rest; trace := trace s |})
  end.

Definition ASM_free (p : Z) (s : State) : State := log (EvFree p) s.

(** A pointer handed to an export is converted to an [i32]. *)
Definition ASM_asyncify_start_unwind (data : JS.val) (s : State) : State :=
  let d := JS.ToInt32 (JS.num data) in
  set_asyncify (Unwinding d) (log (EvStartUnwind d) s).
Definition ASM_asyncify_stop_unwind (s : State) : State :=
  set_asyncify Normal (log EvStopUnwind s).
Definition ASM_asyncify_start_rewind (data : JS.val) (s : State) : State :=
  let d := JS.ToInt32 (JS.num data) in
  set_asyncify (Rewinding d) (log (EvStartRewind d) s).
Definition ASM_asyncify_stop_rewind (s : State) : State :=
  set_asyncify Normal (log EvStopRewind s).

Definition set_org_main (om : option Prog) (s : State) : State :=
  {| MU32 := MU32 s; main_data := main_data s; coro_current := coro_current s;
     coro_count := coro_count s; coro_nums := coro_nums s; coro_asms := coro_asms s;
     org_main := om; asyncify := asyncify s; saved := saved s;
     malloc_oracle := malloc_oracle s; trace := trace s |}.

(** [main_data = coro_current = p] *)
Definition set_main_data (p : JS.val) (s : State) : State :=
  {| MU32 := MU32 s; main_data := p; coro_current := p;
     coro_count := coro_count s; coro_nums := coro_nums s; coro_asms := coro_asms s;
     org_main := org_main s; asyncify := asyncify s; saved := saved s;
     malloc_oracle := malloc_oracle s; trace := trace s |}.

Definition register (fn_wa_export : Z) (s : State) : State :=
  let c := coro_count s + 1 in
  {| MU32 := MU32 s; main_data := main_data s; coro_current := coro_current s;
     coro_count := c; coro_nums := <[ fn_wa_export := c ]> (coro_nums s);
     coro_asms := <[ c := AsmExport fn_wa_export ]> (coro_asms s);
     org_main := org_main s; asyncify := asyncify s; saved := saved s;
     malloc_oracle := malloc_oracle s; trace := trace s |}.

Definition save (d : Z) (p : Prog) (s : State) : State :=
  {| MU32 := MU32 s; main_data := main_data s; coro_current := coro_current s;
     coro_count := coro_count s; coro_nums := coro_nums s; coro_asms := coro_asms s;
     org_main := org_main s; asyncify := asyncify s; saved := <[ d := p ]> (saved s);
     malloc_oracle := malloc_oracle s; trace := trace s |}.

(** Index in [MU32] of the wake state of the scheduler cursor:
    [(coro_current>>2)+4]. *)
Definition nptr (s : State) : Z := JS.sar (coro_current s) 2 + 4.

(** Wake state of the control block at [h]. *)
Definition wake_state (h : Z) (s : State) : JS.val :=
  MU32_get (MU32 s) (JS.sar (Some h) 2 + 4).

(** ** [nanosleep] (compiled with [WA_CORO_IMPLEMENT_NANOSLEEP])

    The C function sees [WaCoroSleep] and [WaCoroYield] as calls that come
    back later, and the clock as what [clock_gettime] answers: [clock k] is
    the answer to the call number [k]. *)
Record timespec : Type := { tv_sec : Z; tv_nsec : Z }.

Definition uint64 (x : Z) : Z := x mod 2 ^ 64.

(** Conversion of the [uint64_t] quotient to the [int] parameter. *)
Definition to_int (x : Z) : Z := (x + 2 ^ 31) mod 2 ^ 32 - 2 ^ 31.

(** [((uint64_t)t.tv_sec * 1000000000 + t.tv_nsec)] *)
Definition nanoseconds (t : timespec) : Z :=
  uint64 (uint64 (uint64 (tv_sec t) * 1000000000) + uint64 (tv_nsec t)).

(** The body of the [while] loop up to the next [clock_gettime]. *)
Definition nanosleep_wait (cur til : Z) : Import :=
  let remain := uint64 (til - cur) in
  if 4500000 <? remain
  then Sleep (to_int (uint64 (remain - 500000) / 1000000))
  else Yield.

(** [while (cur < til) { ... }]: the number of clock readings made so far
    and the calls made so far go in, and come out when the loop ends. *)
Fixpoint nanosleep_loop (fuel : nat) (clock : nat -> timespec)
    (reads : nat) (cur til : Z) (calls : list Import) : option (nat * list Import) :=
  match fuel with
  | O => None
  | S fuel =>
      if cur <? til then
        let calls := calls ++ [nanosleep_wait cur til] in
        let t := clock reads in
        nanosleep_loop fuel clock (S reads) (nanoseconds t) til calls
      else Some (reads, calls)
  end.

(** [rem] is [None] for a null pointer and the pointed-to value otherwise;
    the result is the return value, what [rem] points to afterwards, the
    number of clock readings and the calls made. *)
Definition nanosleep (fuel : nat) (clock : nat -> timespec)
    (req : timespec) (rem : option timespec)
  : option (Z * option timespec * nat * list Import) :=
  let t := clock O in
  let cur := nanoseconds t in
  let til := uint64 (cur + nanoseconds req) in
  match nanosleep_loop fuel clock 1%nat cur til [] with
  | None => None
  | Some (reads, calls) =>
      let rem := match rem with
                 | Some _ => Some {| tv_sec := 0; tv_nsec := 0 |}
                 | None => None
                 end in
      Some (0, rem, reads, calls)
  end.

(** ** Vocabulary of the specification *)

(** The wake states ([// States:] in [CoroHandler]). *)
Definition Ended : Z := 0.
Definition Entering : Z := 1.
Definition ResumingAfterSwitch : Z := 2.
Definition WaitingForFrame : Z := 3.
Definition WaitingForImmediateYield : Z := 4.
Definition SleepingFor (ms : Z) : Z := 5 + ms.

(** The wake source that belongs to a pending wait: the next animation
    frame, a posted message, or a timer for the milliseconds above 5. *)
Definition wake_source (n : Z) : Event :=
  if n =? WaitingForFrame then EvRequestAnimationFrame
  else if n =? WaitingForImmediateYield then EvPostMessage
  else EvSetTimeout (n - 5).

(** What the helper is to call with [remain] nanoseconds left: a sleep
    of [(remain - 500000) / 1000000] milliseconds above the guard
    threshold of 4.5 ms, a yield otherwise. *)
Definition wait_for (remain : Z) : Import :=
  if 4500000 <? remain then Sleep (to_int ((remain - 500000) / 1000000)) else Yield.

(** The imports that are suspension points. *)
Definition suspends (i : Import) : bool :=
  match i with
  | Switch _ | WaitAnimFrame | Yield | Sleep _ => true
  | InitNew _ _ _ | Free _ => false
  end.

(** Code that runs to its return without a suspension point. *)
Fixpoint quiet (p : Prog) : Prop :=
  match p with
  | Return => True
  | Print _ k => quiet k
  | Call i k => suspends i = false /\ forall res, quiet (k res)
  end.

(** The allocator hands out no memory that overlaps the word [idx] of
    [MU32]: none of its remaining answers, nor the null it answers once
    exhausted, is the address of a control block that contains this word. *)
Definition allocator_avoids (idx : Z) (s : State) : Prop :=
  forall p, p = 0 \/ In p (malloc_oracle s) ->
    idx < JS.sar (Some p) 2 \/ JS.sar (Some p) 2 + 4 < idx.

(** The scheduler cursor names MainContext or one of the handles [G]. *)
Definition cursor_known (G : list Z) (s : State) : Prop :=
  coro_current s = main_data s \/ exists h, In h G /\ coro_current s = Some h.

(** The handles that [WaCoroInitNew] has returned, latest first: what a
    call with result [res] adds to them, and whether a call passes to
    [WaCoroSwitch] null or one of them. *)
Definition learn (i : Import) (res : Z) (G : list Z) : list Z :=
  match i with
  | InitNew _ _ _ => res :: G
  | _ => G
  end.
Definition target_known (G : list Z) (i : Import) : bool :=
  match i with
  | Switch to => (to =? 0) || existsb (Z.eqb to) G
  | _ => true
  end.

(** [coro_nums] and [coro_asms] agree: a registered name has an index in
    [1 .. coro_count] under which [coro_asms] holds its export. *)
Definition registry_ok (s : State) : Prop :=
  0 <= coro_count s /\
  forall p v, coro_nums s !! p = Some v ->
    0 < v <= coro_count s /\ coro_asms s !! v = Some (AsmExport p).

(** ** The sample [Coroutine.c] *)

Definition FuncCoro (data : Z) : Prog :=
  Print "[CORO] One" (Call (Switch 0) (fun _ =>
  Print "[CORO] Two Sleep ..." (Call (Sleep 1000) (fun _ =>
  Print "[CORO] Two Done Sleeping" (Call (Switch 0) (fun _ =>
  Print "[CORO] Three" (Call (Switch 0) (fun _ =>
  Print "[CORO] Should never arrive here" Return)))))))).

(** [main] up to the first [clock_gettime]; the name ["FuncCoro"] is taken
    to lie at address 1024. *)
Definition sample_main : Prog :=
  Call (InitNew 1024 0 0) (fun coroSub =>
  Print "[MAIN] One" (Call (Switch coroSub) (fun _ =>
  Print "[MAIN] Two" (Call (Switch coroSub) (fun _ =>
  Print "[MAIN] Three Sleep ..." (Call (Sleep 1000) (fun _ =>
  Print "[MAIN] Three Done Sleeping" (Call (Switch coroSub) (fun _ =>
  Print "[MAIN] Four" (Call (Free coroSub) (fun _ => Return))))))))))).

Definition sample_export (p : Z) : option (Z -> Prog) :=
  if p =? 1024 then Some FuncCoro else None.

(** The lines a run printed. *)
Definition output (t : list Event) : list string :=
  omap (fun e => match e with EvPrint msg => Some msg | _ => None end) t.

(** The timers a run asked for. *)
Definition timers (t : list Event) : list Z :=
  omap (fun e => match e with EvSetTimeout ms => Some ms | _ => None end) t.

(** A state of the sample as it is while the program runs: the control
    block of [coroSub] at address 32, MainContext at address 128, in a
    memory of 64 words; the arguments are the cursor, the two wake states
    and the asyncify state. *)
Definition sample_memory (main_wake coro_wake : Z) : list Z :=
  replicate 8 0 ++ [52; 65588; 1; 0; coro_wake] ++
  replicate 19 0 ++ [148; 65684; 0; 0; main_wake] ++ replicate 27 0.

Definition sample_state (cur main_wake coro_wake : Z) (a : Asyncify) : State :=
  {| MU32 := sample_memory main_wake coro_wake;
     main_data := Some 128; coro_current := Some cur;
     coro_count := 1; coro_nums := {[ 1024 := 1 ]};
     coro_asms := <[ 1 := AsmExport 1024 ]> {[ 0 := AsmZero ]};
     org_main := Some sample_main; asyncify := a; saved := ∅;
     malloc_oracle := []; trace := [] |}.

(** The sample before anything ran (the allocator will answer 32, then
    128), and four moments of its run: the coroutine asleep for a second,
    the coroutine running, the coroutine being resumed, MainContext being
    resumed. *)
Definition sample_start : State := init (replicate 64 0) [32; 128].
Definition sample_asleep : State := sample_state 32 2 1005 (Unwinding 32).
Definition sample_in_coro : State := sample_state 32 2 0 Normal.
Definition sample_resuming_coro : State := sample_state 32 2 2 (Rewinding 32).
Definition sample_resuming_main : State := sample_state 128 2 2 (Rewinding 128).

(** The coroutine has returned from its entry function after a resume: the
    cursor is still on it and its wake state is 0, as while it was running.
    Code that the host calls from outside the dispatcher then switches to
    it. *)
Definition sample_coro_returned : State := sample_state 32 2 0 Normal.
Definition sample_callback : Prog :=
  Call (Switch 32) (fun _ => Print "callback goes on" Return).

(** A small memory full of sevens and an allocator that has nothing
    left. *)
Definition sample_exhausted : State := init (replicate 8 7) [].

(** A clock that advances 6 ms between two readings, and a request for
    10 ms. *)
Definition sample_clock (k : nat) : timespec :=
  {| tv_sec := 0; tv_nsec := 6000000 * Z.of_nat k |}.
Definition sample_request : timespec := {| tv_sec := 0; tv_nsec := 10000000 |}.

(** An entry function that returns without suspending, and a main function
    that switches to it. *)
Definition returns_at_once (data : Z) : Prog := Print "once" Return.
Definition returns_at_once_export (p : Z) : option (Z -> Prog) := Some returns_at_once.
Definition returns_at_once_main : Prog :=
  Call (InitNew 1024 0 0) (fun coro => Call (Switch coro) (fun _ => Print "back" Return)).

(** Scenario C of the specification: main switches to A, A switches to B
    (whose handle it got as user data), B switches to null.  The names of
    the exports are taken to lie at 1024 and 2048. *)
Definition coro_A (data : Z) : Prog :=
  Print "[A] One" (Call (Switch data) (fun _ => Print "[A] Two" Return)).
Definition coro_B (data : Z) : Prog :=
  Print "[B] One" (Call (Switch 0) (fun _ => Print "[B] Two" Return)).
Definition two_coroutines_main : Prog :=
  Call (InitNew 2048 0 0) (fun b =>
  Call (InitNew 1024 b 0) (fun a =>
  Print "[MAIN] One" (Call (Switch a) (fun _ => Print "[MAIN] Two" Return)))).
Definition two_coroutines_export (p : Z) : option (Z -> Prog) :=
  if p =? 1024 then Some coro_A else if p =? 2048 then Some coro_B else None.

(** How often the dispatcher called the main export. *)
Definition main_calls (t : list Event) : nat :=
  length (omap (fun e => match e with EvCallMain => Some tt | _ => None end) t).

(** The coroutine of the sample parked at its first switch, with the call
    chain the unwind captured, and the request of the sample's own call of
    [nanosleep] (1 ms). *)
Definition sample_chain : Prog :=
  Call (Switch 0) (fun _ => Print "[CORO] Two Sleep ..." Return).
Definition sample_parked : State :=
  save 32 sample_chain (sample_state 32 2 2 (Unwinding 32)).
Definition sample_short_request : timespec := {| tv_sec := 0; tv_nsec := 1000000 |}.

(** A request for 18446744074 seconds, whose nanoseconds do not fit 64
    bits, and a clock that advances 0.3 s between two readings. *)
Definition long_request : timespec := {| tv_sec := 18446744074; tv_nsec := 0 |}.
Definition slow_clock (k : nat) : timespec :=
  {| tv_sec := 0; tv_nsec := 300000000 * Z.of_nat k |}.

(** Code that prints some lines before it goes on with [p], and the state
    after some calls have been recorded. *)
Definition printing (msgs : list string) (p : Prog) : Prog :=
  fold_right Print p msgs.
Definition log_all (evs : list Event) (s : State) : State :=
  fold_left (fun s e => log e s) evs s.

(** The registry of [s'] is in order and keeps what [s] had registered:
    [coro_count] has not gone down and every name keeps its index and its
    export. *)
Definition registry_extends (s s' : State) : Prop :=
  registry_ok s' /\ coro_count s <= coro_count s' /\
  forall p v, coro_nums s !! p = Some v ->
    coro_nums s' !! p = Some v /\ coro_asms s' !! v = Some (AsmExport p).

(** The argument that a suspension point hands to [CoroCtxSwitch], which
    becomes the wake state of the coroutine it suspends. *)
Definition wake_code (i : Import) : Z :=
  match i with
  | Switch _ => ResumingAfterSwitch
  | WaitAnimFrame => WaitingForFrame
  | Yield => WaitingForImmediateYield
  | Sleep ms => SleepingFor (Z.max ms 0)
  | InitNew _ _ _ | Free _ => Ended
  end.

(** Where a suspension point leaves the cursor: [WaCoroSwitch] on its
    target (MainContext for null), the others where it was. *)
Definition cursor_after (i : Import) (s : State) : JS.val :=
  match i with
  | Switch to => JS.or (Some to) (main_data s)
  | _ => coro_current s
  end.

(** ** The host's event loop

    The wake sources are tasks of the browser's event loop: a timer is due
    its delay after [setTimeout] was called and is not run before,
    animation-frame callbacks and message events run when the browser gets
    to them.  A host holds the time, the tasks that are queued and the
    state of the page. *)
Inductive Task : Type :=
| TimerTask (due : Z)             (* a callback set with [setTimeout] *)
| FrameTask                       (* a callback passed to [requestAnimationFrame] *)
| MessageTask (data : JS.val).    (* a message event on the window, with [evt.data] *)

Record Host : Type := mkHost { now : Z; tasks : list Task; page : State }.

(** The task that a call of the library queues when it is made at time
    [t] ([setTimeout] takes a negative delay as 0), and the tasks queued
    between the states [s] and [s'] of the page. *)
Definition task_of (t : Z) (e : Event) : option Task :=
  match e with
  | EvSetTimeout ms => Some (TimerTask (t + Z.max ms 0))
  | EvRequestAnimationFrame => Some FrameTask
  | EvPostMessage => Some (MessageTask (Some 9))
  | _ => None
  end.
Definition posted (t : Z) (s s' : State) : list Task :=
  omap (task_of t) (drop (length (trace s)) (trace s')).

(** A timer never fires early. *)
Definition ready (t : Z) (task : Task) : bool :=
  match task with
  | TimerTask due => due <=? t
  | _ => true
  end.

(** The tasks that end in a call of [CoroHandler]: timers, animation
    frames and the messages that the listener lets through; how many of
    them a queue holds. *)
Definition calls_dispatcher (task : Task) : bool :=
  match task with
  | MessageTask data => JS.eqn data 9
  | _ => true
  end.
Definition wakes (q : list Task) : nat := length (List.filter calls_dispatcher q).

(** Another script, or another window, posts a message to the window. *)
Definition host_post (data : JS.val) (h : Host) : Host :=
  {| now := now h; tasks := tasks h ++ [MessageTask data]; page := page h |}.

(** The page is in state [s], and of the queued tasks only a timer due at
    [due] calls the dispatcher. *)
Definition waits_for_timer (s : State) (due : Z) (h : Host) : Prop :=
  page h = s /\
  exists Q, tasks h = Q ++ [TimerTask due] /\
            Forall (fun task => calls_dispatcher task = false) Q.

(** [s'] comes after [s], and the library has called no wake source in
    between. *)
Definition arms_nothing (s s' : State) : Prop :=
  exists evs, trace s' = trace s ++ evs /\ forall t, omap (task_of t) evs = [].

(** ** The library *)

Section Coro.

(** The constant the build substitutes for [WASM_STACK_SIZE], the export
    [ASM.main||ASM.__main_argc_argv||...||ASM.WajicMain] and the exports
    [ASM[MStrGet(p)]] (each [None] when the module has no such export). *)
Variable WASM_STACK_SIZE : Z.
Variable ASM_main : option Prog.
Variable ASM_export : Z -> option (Z -> Prog).

(** The block [if (!main_data) { ... }] of [CoroCtxSwitch]. *)
Definition materialize (s : State) : State :=
  if negb (JS.truthy (main_data s)) then
    let s := set_org_main ASM_main s in
    let '(p, s) := ASM_malloc (20 + WASM_STACK_SIZE) s in
    let s := set_main_data (Some p) s in
    let ptr := JS.sar (main_data s) 2 in
    let s := store (ptr + 0) (p + 20) s in
    let s := store (ptr + 1) (p + 20 + WASM_STACK_SIZE) s in
    let s := store (ptr + 2) 0 s in
    let s := store (ptr + 3) 0 s in
    store (ptr + 4) 0 s
  else s.

Definition CoroCtxSwitch (n : Z) (s : State) : bool * State :=
  let s := materialize s in
  if JS.eqn (MU32_get (MU32 s) (nptr s)) 2 then
    let s := store (nptr s) 0 s in
    (false, ASM_asyncify_stop_rewind s)
  else
    let s := store (nptr s) n s in
    (true, ASM_asyncify_start_unwind (coro_current s) s).

(** The size that [WaCoroInitNew] asks of [malloc] and the index it stores
    as [fn], as functions of its arguments (used to state what it does). *)
Definition stack_size_of (sz : Z) : Z := if sz =? 0 then WASM_STACK_SIZE else sz.
Definition fn_index_of (e : Z) (s : State) : Z :=
  if JS.truthy (coro_nums s !! e) then JS.num (coro_nums s !! e) else coro_count s + 1.

(** [WaCoroInitNew(fn, fn_wa_export, user_data, stack_size)]; the C
    function pointer [fn] is overwritten before it is read. *)
Definition WaCoroInitNew (fn_wa_export user_data stack_size : Z) (s : State)
  : Z * State :=
  let stack_size := if stack_size =? 0 then WASM_STACK_SIZE else stack_size in
  let '(fn, s) :=
    if JS.truthy (coro_nums s !! fn_wa_export)
    then (JS.num (coro_nums s !! fn_wa_export), s)
    else (coro_count s + 1, register fn_wa_export s) in
  let '(res, s) := ASM_malloc (20 + stack_size) s in
  let ptr := JS.sar (Some res) 2 in
  let s := store (ptr + 0) (res + 20) s in
  let s := store (ptr + 1) (res + 20 + stack_size) s in
  let s := store (ptr + 2) fn s in
  let s := store (ptr + 3) user_data s in
  let s := store (ptr + 4) 1 s in
  (res, s).

Definition WaCoroFree (coro : Z) (s : State) : State := ASM_free coro s.

Definition WaCoroSwitch (to : Z) (s : State) : State :=
  let '(unwind, s) := CoroCtxSwitch 2 s in
  if unwind then set_coro_current (JS.or (Some to) (main_data s)) s else s.

Definition WaCoroWaitAnimFrame (s : State) : State := snd (CoroCtxSwitch 3 s).

Definition WaCoroYield (s : State) : State := snd (CoroCtxSwitch 4 s).

Definition WaCoroSleep (ms : Z) (s : State) : State :=
  snd (CoroCtxSwitch (5 + (if ms <? 0 then 0 else ms)) s).

(** *** Running WebAssembly code

    After an import returns, instrumented code looks at the asyncify
    state: when an unwind was started the call chain is captured under the
    data pointer and the export returns to its caller; otherwise the code
    goes on. *)
Definition after (call : Prog) (go_on : State -> State) (s : State) : State :=
  match asyncify s with
  | Unwinding d => save d call s
  | _ => go_on s
  end.

Definition import (i : Import) (s : State) : Z * State :=
  match i with
  | InitNew e u sz => WaCoroInitNew e u sz s
  | Free c => (0, WaCoroFree c s)
  | Switch to => (0, WaCoroSwitch to s)
  | WaitAnimFrame => (0, WaCoroWaitAnimFrame s)
  | Yield => (0, WaCoroYield s)
  | Sleep ms => (0, WaCoroSleep ms s)
  end.

Fixpoint run (p : Prog) (s : State) : State :=
  match p with
  | Return => s
  | Print msg k => run k (log (EvPrint msg) s)
  | Call i k => let '(res, s') := import i s in after p (run (k res)) s'
  end.

(** Calling an export: a fresh run of its body, or, when a rewind was
    started, the replay of the call chain captured under that data pointer,
    which arrives at the import that unwound and calls it again.  With
    nothing captured there the export is taken to return at once. *)
Definition call_wasm (body : Prog) (s : State) : State :=
  match asyncify s with
  | Rewinding d =>
      match saved s !! d with
      | Some p => run p s
      | None => s
      end
  | _ => run body s
  end.

(** *** The dispatcher *)

(** One turn of the [for (;;)] loop of [CoroHandler]. *)
Inductive Turn : Type :=
| Returns (s : State)        (* a [return] statement *)
| Throws (s : State)         (* calling something that is not a function *)
| Loops (s : State).         (* end of the loop body *)

Definition CoroHandler_turn (s : State) : Turn :=
  let nptr := nptr s in
  let n := MU32_get (MU32 s) nptr in
  if negb (JS.truthy n) then Returns s else
  let s := if JS.eqn n 3 then log EvRequestAnimationFrame s else s in
  let s := if JS.eqn n 4 then log EvPostMessage s else s in
  let s := if JS.gtn n 4 then log (EvSetTimeout (JS.num n - 5)) s else s in
  if JS.gtn n 2 then Returns (store nptr 2 s) else
  let s := ASM_asyncify_stop_unwind s in
  let s := if JS.eqn n 2 then ASM_asyncify_start_rewind (coro_current s) s else s in
  let fn := MU32_get (MU32 s) (nptr - 2) in
  if JS.truthy fn then
    match coro_asms s !! JS.num fn with
    | Some (AsmExport e) =>
        match ASM_export e with
        | Some body =>
            let arg := JS.ToInt32 (JS.num (MU32_get (MU32 s) (nptr - 1))) in
            Loops (call_wasm (body arg) (log (EvCallExport (JS.num fn) arg) s))
        | None => Throws s
        end
    | _ => Throws s
    end
  else
    match org_main s with
    | Some body => Loops (call_wasm body (log EvCallMain s))
    | None => Throws s
    end.

Inductive Outcome : Type := Returned | Threw | OutOfFuel.

Fixpoint CoroHandler (fuel : nat) (s : State) : Outcome * State :=
  match fuel with
  | O => (OutOfFuel, s)
  | S fuel =>
      match CoroHandler_turn s with
      | Returns s' => (Returned, s')
      | Throws s' => (Threw, s')
      | Loops s' => CoroHandler fuel s'
      end
  end.

(** [WA.started = ()=>{ (org_started && org_started()); WA.started =
    org_started; CoroHandler(); }]; the embedder's own [org_started] is left
    out. *)
Definition WA_started (fuel : nat) (s : State) : Outcome * State :=
  CoroHandler fuel s.

(** [window.addEventListener("message", (evt) => { if (evt.data===9)
    CoroHandler(); })] *)
Definition on_message (data : JS.val) (fuel : nat) (s : State) : Outcome * State :=
  if JS.eqn data 9 then CoroHandler fuel s else (Returned, s).

(** What the last statement of a turn of [CoroHandler] calls, read off the
    control block under the cursor: the code of [coro_asms[fn]] with its
    argument, or of [org_main] when the [fn] word is falsy, together with
    the call as it is recorded; nothing when that is not a function. *)
Definition dispatch_target (s : State) : option (Prog * Event) :=
  let fn := MU32_get (MU32 s) (nptr s - 2) in
  if JS.truthy fn then
    match coro_asms s !! JS.num fn with
    | Some (AsmExport e) =>
        match ASM_export e with
        | Some body =>
            let arg := JS.ToInt32 (JS.num (MU32_get (MU32 s) (nptr s - 1))) in
            Some (body arg, EvCallExport (JS.num fn) arg)
        | None => None
        end
    | _ => None
    end
  else
    match org_main s with
    | Some body => Some (body, EvCallMain)
    | None => None
    end.

(** The state in which a coroutine goes on after the dispatcher has resumed
    it with the call [ev]: unwind stopped, rewind started on the cursor,
    export called, wake state 0 written and rewind stopped by the replayed
    suspension point. *)
Definition resumed (ev : Event) (s : State) : State :=
  let pre := log ev (ASM_asyncify_start_rewind (coro_current s) (ASM_asyncify_stop_unwind s)) in
  ASM_asyncify_stop_rewind (store (nptr pre) 0 pre).

(** *** The handles a run has got

    [run_known G p s] goes along [run p s] with the handles that
    [WaCoroInitNew] has returned, [G] at the start.  It is [None] when the
    run passes to [WaCoroSwitch] something that is neither null nor one of
    them, and the handles at the end of the run otherwise. *)
Fixpoint run_known (G : list Z) (p : Prog) (s : State) : option (list Z) :=
  match p with
  | Return => Some G
  | Print msg k => run_known G k (log (EvPrint msg) s)
  | Call i k =>
      if target_known G i then
        let '(res, s') := import i s in
        match asyncify s' with
        | Unwinding _ => Some (learn i res G)
        | _ => run_known (learn i res G) (k res) s'
        end
      else None
  end.

(** The same along [call_wasm]. *)
Definition call_known (G : list Z) (body : Prog) (s : State) : option (list Z) :=
  match asyncify s with
  | Rewinding d =>
      match saved s !! d with
      | Some p => run_known G p s
      | None => Some G
      end
  | _ => run_known G body s
  end.

(** The call that a turn of [CoroHandler] ends with, and the state it is
    made in: unwind stopped, rewind started on wake state 2, the call
    recorded. *)
Definition turn_call (s : State) : option (Prog * State) :=
  let pre := ASM_asyncify_stop_unwind s in
  let pre :=
    if JS.eqn (MU32_get (MU32 s) (nptr s)) 2
    then ASM_asyncify_start_rewind (coro_current pre) pre else pre in
  match dispatch_target s with
  | Some (body, ev) => Some (body, log ev pre)
  | None => None
  end.

(** The same along [CoroHandler], over all the exports it calls. *)
Fixpoint CoroHandler_known (fuel : nat) (G : list Z) (s : State) : option (list Z) :=
  match fuel with
  | O => Some G
  | S fuel =>
      match CoroHandler_turn s with
      | Loops s' =>
          match turn_call s with
          | Some (body, pre) =>
              match call_known G body pre with
              | Some G' => CoroHandler_known fuel G' s'
              | None => None
              end
          | None => None
          end
      | _ => Some G
      end
  end.

(** *** The event loop

    What a task runs, and one step of the event loop: the task number [n]
    of the queue is taken at time [t], not before the time of the host and
    not before it is due, and runs to its end; what the library has called
    meanwhile is queued. *)
Definition listener (fuel : nat) (task : Task) (s : State) : Outcome * State :=
  match task with
  | MessageTask data => on_message data fuel s
  | _ => CoroHandler fuel s
  end.

Definition host_run (fuel : nat) (t : Z) (n : nat) (h : Host) : option Host :=
  match tasks h !! n with
  | Some task =>
      if (now h <=? t) && ready t task then
        let s' := snd (listener fuel task (page h)) in
        Some {| now := t; tasks := delete n (tasks h) ++ posted t (page h) s'; page := s' |}
      else None
  | None => None
  end.

(** Some steps of the event loop, each with its time and the number of
    the task that runs. *)
Fixpoint host_runs (fuel : nat) (steps : list (Z * nat)) (h : Host) : option Host :=
  match steps with
  | [] => Some h
  | (t, n) :: steps =>
      match host_run fuel t n h with
      | Some h' => host_runs fuel steps h'
      | None => None
      end
  end.

(** ** Facts about the memory and the conversions *)

Lemma ToUint32_small x : 0 <= x < 2 ^ 32 -> JS.ToUint32 x = x.
Proof. intros Hx. unfold JS.ToUint32. apply Z.mod_small. exact Hx. Qed.

Lemma ToInt32_small x : - 2 ^ 31 <= x < 2 ^ 31 -> JS.ToInt32 x = x.
Proof. intros Hx. unfold JS.ToInt32. rewrite Z.mod_small; lia. Qed.

Lemma MU32_get_is_Some (m : list Z) i :
  is_Some (MU32_get m i) <-> 0 <= i < Z.of_nat (length m).
Proof.
  unfold MU32_get. destruct (Z.ltb_spec i 0) as [Hneg | Hpos].
  - split; [intros [x Hx]; discriminate | lia].
  - rewrite lookup_lt_is_Some. lia.
Qed.

Lemma MU32_set_length (m : list Z) i v : length (MU32_set m i v) = length m.
Proof. unfold MU32_set. destruct (i <? 0); [reflexivity | apply length_insert]. Qed.

Lemma MU32_get_set_eq (m : list Z) i v :
  is_Some (MU32_get m i) -> MU32_get (MU32_set m i v) i = Some (JS.ToUint32 v).
Proof.
  intros Hi. apply MU32_get_is_Some in Hi. unfold MU32_get, MU32_set.
  destruct (Z.ltb_spec i 0); [lia |]. apply list_lookup_insert_eq. lia.
Qed.

Lemma MU32_get_set_ne (m : list Z) i j v :
  i <> j -> MU32_get (MU32_set m i v) j = MU32_get m j.
Proof.
  intros Hij. unfold MU32_get, MU32_set.
  destruct (Z.ltb_spec j 0); [reflexivity |].
  destruct (Z.ltb_spec i 0); [reflexivity |].
  apply list_lookup_insert_ne. lia.
Qed.

(** ** The dispatcher on a pending wait *)

Lemma CoroHandler_turn_pending s n :
  MU32_get (MU32 s) (nptr s) = Some n -> 2 < n ->
  CoroHandler_turn s = Returns (store (nptr s) 2 (log (wake_source n) s)).
Proof.
  intros Hn Hgt. unfold CoroHandler_turn. rewrite Hn. cbn [JS.truthy JS.eqn JS.gtn JS.num].
  assert (Hnz : (n =? 0) = false) by lia. rewrite Hnz. cbn [negb].
  assert (H2 : (2 <? n) = true) by lia.
  unfold wake_source, WaitingForFrame, WaitingForImmediateYield.
  destruct (Z.eqb_spec n 3) as [-> | N3].
  - reflexivity.
  - destruct (Z.eqb_spec n 4) as [-> | N4]; [reflexivity |].
    assert (H4 : (4 <? n) = true) by lia. rewrite H4.
    cbn [nptr coro_current log MU32]. rewrite H2. reflexivity.
Qed.

(** C2. Whenever the dispatcher is invoked while the wake state of the
    current coroutine is a pending wait (3, 4, or 5 + ms), it arms exactly
    the wake source of that wait (one call: [requestAnimationFrame] for 3,
    [postMessage] for 4, [setTimeout] with [n - 5] milliseconds above 4),
    marks the coroutine as resuming and returns: no asyncify entry point
    is called, no export is invoked, the cursor stays where it is. *)
Theorem dispatcher_pending_wait (fuel : nat) (s : State) (n : Z) :
  MU32_get (MU32 s) (nptr s) = Some n ->
  n = WaitingForFrame \/ n = WaitingForImmediateYield \/
    (exists ms, 0 <= ms /\ n = SleepingFor ms) ->
  exists s',
    CoroHandler (S fuel) s = (Returned, s') /\
    trace s' = trace s ++ [wake_source n] /\
    (n = 3 -> wake_source n = EvRequestAnimationFrame) /\
    (n = 4 -> wake_source n = EvPostMessage) /\
    (4 < n -> wake_source n = EvSetTimeout (n - 5)) /\
    asyncify s' = asyncify s /\ saved s' = saved s /\
    coro_current s' = coro_current s /\ main_data s' = main_data s /\
    MU32 s' = MU32_set (MU32 s) (nptr s) 2.
Proof.
  intros Hn Hwait.
  assert (Hgt : 2 < n).
  { unfold WaitingForFrame, WaitingForImmediateYield, SleepingFor in Hwait.
    destruct Hwait as [-> | [-> | (ms & Hms & ->)]]; lia. }
  exists (store (nptr s) 2 (log (wake_source n) s)).
  cbn [CoroHandler]. rewrite (CoroHandler_turn_pending s n Hn Hgt).
  repeat split; try reflexivity.
  - intros ->. reflexivity.
  - intros ->. reflexivity.
  - intros H4. unfold wake_source, WaitingForFrame, WaitingForImmediateYield.
    destruct (Z.eqb_spec n 3); [lia |]. destruct (Z.eqb_spec n 4); [lia | reflexivity].
Qed.


(** ** The switch primitive *)

Lemma CoroCtxSwitch_rewind n s :
  MU32_get (MU32 (materialize s)) (nptr (materialize s)) = Some 2 ->
  CoroCtxSwitch n s =
    (false, ASM_asyncify_stop_rewind (store (nptr (materialize s)) 0 (materialize s))).
Proof. intros H2. unfold CoroCtxSwitch. rewrite H2. reflexivity. Qed.

Lemma CoroCtxSwitch_unwind n s :
  MU32_get (MU32 (materialize s)) (nptr (materialize s)) <> Some 2 ->
  CoroCtxSwitch n s =
    (true, ASM_asyncify_start_unwind (coro_current (materialize s))
             (store (nptr (materialize s)) n (materialize s))).
Proof.
  intros H2. unfold CoroCtxSwitch.
  destruct (MU32_get (MU32 (materialize s)) (nptr (materialize s))) as [w |] eqn:Hw;
    cbn [JS.eqn]; [| reflexivity].
  destruct (Z.eqb_spec w 2) as [-> | Hne]; [congruence | reflexivity].
Qed.

Lemma materialize_done s : JS.truthy (main_data s) = true -> materialize s = s.
Proof. intros Hm. unfold materialize. rewrite Hm. reflexivity. Qed.

(** C10. [WaCoroFree] hands the handle to [free] and does nothing else: the
    result does not depend on what the control block holds, so whatever
    wake state [w] is written there (suspended, entering or ended), the call
    proceeds in the same way, with one call of [free] and no error. *)
Theorem free_ignores_wake_state (coro : Z) (s : State) (w : Z) :
  WaCoroFree coro s = log (EvFree coro) s /\
  trace (WaCoroFree coro s) = trace s ++ [EvFree coro] /\
  MU32 (WaCoroFree coro s) = MU32 s /\
  WaCoroFree coro (store (JS.sar (Some coro) 2 + 4) w s)
    = store (JS.sar (Some coro) 2 + 4) w (WaCoroFree coro s) /\
  trace (WaCoroFree coro (store (JS.sar (Some coro) 2 + 4) w s))
    = trace (WaCoroFree coro s).
Proof. repeat split; reflexivity. Qed.

(** ** [WaCoroSleep] *)

Lemma clamp_max ms : (if ms <? 0 then 0 else ms) = Z.max ms 0.
Proof. destruct (Z.ltb_spec ms 0); lia. Qed.

(** For an [int ms], a call of [WaCoroSleep] that suspends (the wake
    state it finds is not 2, so it is not the replay that ends a rewind)
    leaves wake state [5 + max(ms,0)] and starts the unwind; the dispatcher
    that runs next arms one timer of exactly [max(ms,0)] milliseconds and
    returns without resuming anything; a negative [ms] gives the same
    state as 0. *)
Lemma WaCoroSleep_suspends (ms : Z) (s : State) (fuel : nat) :
  - 2 ^ 31 <= ms < 2 ^ 31 ->
  is_Some (MU32_get (MU32 (materialize s)) (nptr (materialize s))) ->
  MU32_get (MU32 (materialize s)) (nptr (materialize s)) <> Some ResumingAfterSwitch ->
  MU32_get (MU32 (WaCoroSleep ms s)) (nptr (WaCoroSleep ms s))
    = Some (SleepingFor (Z.max ms 0)) /\
  coro_current (WaCoroSleep ms s) = coro_current (materialize s) /\
  asyncify (WaCoroSleep ms s)
    = Unwinding (JS.ToInt32 (JS.num (coro_current (materialize s)))) /\
  (exists s',
     CoroHandler (S fuel) (WaCoroSleep ms s) = (Returned, s') /\
     trace s' = trace (WaCoroSleep ms s) ++ [EvSetTimeout (Z.max ms 0)] /\
     asyncify s' = asyncify (WaCoroSleep ms s) /\
     coro_current s' = coro_current (WaCoroSleep ms s)) /\
  (ms < 0 -> WaCoroSleep ms s = WaCoroSleep 0 s).
Proof.
  intros Hint Hmem Hne. set (s0 := materialize s) in *.
  assert (Hs : WaCoroSleep ms s =
    ASM_asyncify_start_unwind (coro_current s0) (store (nptr s0) (5 + Z.max ms 0) s0)).
  { unfold WaCoroSleep. rewrite (CoroCtxSwitch_unwind _ s Hne), clamp_max. reflexivity. }
  assert (Hw : MU32_get (MU32 (WaCoroSleep ms s)) (nptr (WaCoroSleep ms s))
               = Some (SleepingFor (Z.max ms 0))).
  { rewrite Hs. unfold nptr in *.
    cbn [ASM_asyncify_start_unwind set_asyncify log store MU32 coro_current].
    rewrite MU32_get_set_eq by exact Hmem. unfold SleepingFor.
    rewrite ToUint32_small by lia. reflexivity. }
  split; [exact Hw |]. split; [rewrite Hs; reflexivity |].
  split; [rewrite Hs; reflexivity |]. split.
  - exists (store (nptr (WaCoroSleep ms s)) 2
              (log (wake_source (SleepingFor (Z.max ms 0))) (WaCoroSleep ms s))).
    cbn [CoroHandler]. rewrite (CoroHandler_turn_pending _ _ Hw) by (unfold SleepingFor; lia).
    repeat split. cbn [trace store log]. f_equal. f_equal.
    unfold wake_source, SleepingFor, WaitingForFrame, WaitingForImmediateYield.
    destruct (Z.eqb_spec (5 + Z.max ms 0) 3); [lia |].
    destruct (Z.eqb_spec (5 + Z.max ms 0) 4); [lia |]. f_equal. lia.
  - intros Hneg. unfold WaCoroSleep. rewrite !clamp_max. f_equal. f_equal. lia.
Qed.

(** ** [WaCoroInitNew] *)

Lemma ASM_malloc_result size s : fst (ASM_malloc size s) = hd 0 (malloc_oracle s).
Proof. unfold ASM_malloc. cbn [log malloc_oracle]. destruct (malloc_oracle s); reflexivity. Qed.

Lemma ASM_malloc_state size s :
  MU32 (snd (ASM_malloc size s)) = MU32 s /\
  main_data (snd (ASM_malloc size s)) = main_data s /\
  coro_current (snd (ASM_malloc size s)) = coro_current s /\
  coro_count (snd (ASM_malloc size s)) = coro_count s /\
  coro_nums (snd (ASM_malloc size s)) = coro_nums s /\
  coro_asms (snd (ASM_malloc size s)) = coro_asms s /\
  org_main (snd (ASM_malloc size s)) = org_main s /\
  asyncify (snd (ASM_malloc size s)) = asyncify s /\
  saved (snd (ASM_malloc size s)) = saved s /\
  trace (snd (ASM_malloc size s)) = trace s ++ [EvMalloc size] /\
  malloc_oracle (snd (ASM_malloc size s)) = tl (malloc_oracle s).
Proof.
  unfold ASM_malloc. cbn [log malloc_oracle].
  destruct (malloc_oracle s) as [| p rest] eqn:Ho; cbn; rewrite ?Ho;
    repeat split; reflexivity.
Qed.

(** What a call of [WaCoroInitNew] leaves behind, whatever [malloc] answers. *)
Lemma WaCoroInitNew_effect e u sz s :
  let res := hd 0 (malloc_oracle s) in
  let ptr := JS.sar (Some res) 2 in
  let s' := snd (WaCoroInitNew e u sz s) in
  fst (WaCoroInitNew e u sz s) = res /\
  trace s' = trace s ++ [EvMalloc (20 + stack_size_of sz)] /\
  MU32 s' =
    MU32_set (MU32_set (MU32_set (MU32_set (MU32_set (MU32 s)
      (ptr + 0) (res + 20)) (ptr + 1) (res + 20 + stack_size_of sz))
      (ptr + 2) (fn_index_of e s)) (ptr + 3) u) (ptr + 4) 1 /\
  coro_current s' = coro_current s /\ main_data s' = main_data s /\
  asyncify s' = asyncify s /\ saved s' = saved s /\ org_main s' = org_main s /\
  coro_asms s' =
    (if JS.truthy (coro_nums s !! e) then coro_asms s
     else <[ coro_count s + 1 := AsmExport e ]> (coro_asms s)) /\
  coro_nums s' =
    (if JS.truthy (coro_nums s !! e) then coro_nums s
     else <[ e := coro_count s + 1 ]> (coro_nums s)) /\
  coro_count s' =
    (if JS.truthy (coro_nums s !! e) then coro_count s else coro_count s + 1) /\
  malloc_oracle s' = tl (malloc_oracle s).
Proof.
  intros res ptr s'. subst s'. unfold WaCoroInitNew, fn_index_of, stack_size_of.
  set (stack := if sz =? 0 then WASM_STACK_SIZE else sz).
  destruct (JS.truthy (coro_nums s !! e)) eqn:Ht.
  - pose proof (ASM_malloc_result (20 + stack) s) as Hr.
    pose proof (ASM_malloc_state (20 + stack) s) as Hs.
    destruct (ASM_malloc (20 + stack) s) as [r s1]. cbn [fst snd] in *.
    destruct Hs as (Hm & Hd & Hc & Hn & Hnum & Hasm & Ho & Ha & Hsv & Htr & Hor).
    subst r ptr res. cbn [fst snd store MU32 main_data coro_current coro_count
      coro_nums coro_asms org_main asyncify saved trace malloc_oracle].
    rewrite Hm, Hd, Hc, Hn, Hnum, Hasm, Ho, Ha, Hsv, Htr, Hor. repeat split; reflexivity.
  - pose proof (ASM_malloc_result (20 + stack) (register e s)) as Hr.
    pose proof (ASM_malloc_state (20 + stack) (register e s)) as Hs.
    destruct (ASM_malloc (20 + stack) (register e s)) as [r s1]. cbn [fst snd] in *.
    destruct Hs as (Hm & Hd & Hc & Hn & Hnum & Hasm & Ho & Ha & Hsv & Htr & Hor).
    subst r ptr res. cbn [fst snd store MU32 main_data coro_current coro_count
      coro_nums coro_asms org_main asyncify saved trace malloc_oracle].
    rewrite Hm, Hd, Hc, Hn, Hnum, Hasm, Ho, Ha, Hsv, Htr, Hor. repeat split; reflexivity.
Qed.

(** C5 (amended). When the allocation fails, that is when [malloc] answers
    null, [WaCoroInitNew] returns that null handle, so the caller can see
    the failure; the call is not without other effect, though: a name seen
    for the first time has been registered before the allocation, and the
    five words of a control block are stored at address 0. *)
Theorem init_new_allocation_failure (e u sz : Z) (s : State) :
  hd 0 (malloc_oracle s) = 0 ->
  fst (WaCoroInitNew e u sz s) = 0 /\
  trace (snd (WaCoroInitNew e u sz s)) = trace s ++ [EvMalloc (20 + stack_size_of sz)] /\
  MU32 (snd (WaCoroInitNew e u sz s)) =
    MU32_set (MU32_set (MU32_set (MU32_set (MU32_set (MU32 s)
      0 20) 1 (20 + stack_size_of sz)) 2 (fn_index_of e s)) 3 u) 4 1 /\
  coro_current (snd (WaCoroInitNew e u sz s)) = coro_current s /\
  main_data (snd (WaCoroInitNew e u sz s)) = main_data s /\
  asyncify (snd (WaCoroInitNew e u sz s)) = asyncify s /\
  (coro_nums s !! e = None ->
     coro_count (snd (WaCoroInitNew e u sz s)) = coro_count s + 1 /\
     coro_nums (snd (WaCoroInitNew e u sz s)) !! e = Some (coro_count s + 1) /\
     coro_asms (snd (WaCoroInitNew e u sz s)) !! (coro_count s + 1) = Some (AsmExport e)).
Proof.
  intros Hfail. pose proof (WaCoroInitNew_effect e u sz s) as H. cbv zeta in H.
  rewrite Hfail in H. destruct H as (Hr & Ht & Hm & Hc & Hd & Ha & _ & _ & Hasm & Hnum & Hcnt & _).
  repeat split; try assumption.
  - rewrite Hcnt, H. reflexivity.
  - rewrite Hnum, H. cbn. apply lookup_insert_eq.
  - rewrite Hasm, H. cbn. apply lookup_insert_eq.
Qed.

(** ** Running on after a rewind *)

Lemma allocator_avoids_tl idx s s' :
  malloc_oracle s' = tl (malloc_oracle s) ->
  allocator_avoids idx s -> allocator_avoids idx s'.
Proof.
  intros Ho Hav p [-> | Hin]; [apply Hav; left; reflexivity |].
  apply Hav. right. rewrite Ho in Hin. destruct (malloc_oracle s); [destruct Hin |].
  right. exact Hin.
Qed.

(** Code without suspension point runs to its return; it leaves the
    scheduler alone, and every word of the memory that the allocator
    avoids. *)
Lemma run_quiet k idx : forall s,
  quiet k -> asyncify s = Normal -> allocator_avoids idx s ->
  MU32_get (MU32 (run k s)) idx = MU32_get (MU32 s) idx /\
  coro_current (run k s) = coro_current s /\
  main_data (run k s) = main_data s /\ asyncify (run k s) = Normal /\
  saved (run k s) = saved s.
Proof.
  induction k as [| msg k IH | i k IH]; intros s Hq Hn Hav.
  - cbn. auto.
  - cbn [run]. cbn [quiet] in Hq.
    destruct (IH (log (EvPrint msg) s) Hq Hn Hav) as (? & ? & ? & ? & ?). auto.
  - cbn [quiet] in Hq. destruct Hq as [Hi Hq].
    destruct i as [e u sz | c | to | | | ms]; try discriminate Hi; cbn [run import].
    + destruct (WaCoroInitNew_effect e u sz s)
        as (_ & _ & Hm & Hc & Hd & Ha & Hsv & _ & _ & _ & _ & Ho). cbv zeta in *.
      destruct (WaCoroInitNew e u sz s) as [res s']. cbn [fst snd] in *.
      unfold after. rewrite Ha, Hn.
      assert (Hav' : allocator_avoids idx s') by (eapply allocator_avoids_tl; eassumption).
      destruct (IH res s' (Hq res) (eq_trans Ha Hn) Hav') as (Hm' & Hc' & Hd' & Hn' & Hsv').
      rewrite Hm', Hc', Hd', Hsv', Hm, Hc, Hd, Hsv.
      assert (Hp : idx < JS.sar (Some (hd 0 (malloc_oracle s))) 2 \/
                   JS.sar (Some (hd 0 (malloc_oracle s))) 2 + 4 < idx).
      { apply Hav. destruct (malloc_oracle s); [left; reflexivity | right; left; reflexivity]. }
      rewrite !MU32_get_set_ne by lia. auto.
    + unfold after, WaCoroFree, ASM_free. cbn [log asyncify]. rewrite Hn.
      destruct (IH 0 (log (EvFree c) s) (Hq 0) Hn Hav) as (? & ? & ? & ? & ?). auto.
Qed.

Lemma CoroHandler_Ended fuel s :
  MU32_get (MU32 s) (nptr s) = Some Ended -> CoroHandler (S fuel) s = (Returned, s).
Proof. intros H0. cbn [CoroHandler]. unfold CoroHandler_turn. rewrite H0. reflexivity. Qed.

(** The replayed suspend call that finds wake state 2, followed by code
    that does not suspend. *)
Lemma rewind_then_quiet (n : Z) (s : State) (k : Prog) (fuel : nat) :
  MU32_get (MU32 (materialize s)) (nptr (materialize s)) = Some 2 ->
  quiet k -> allocator_avoids (nptr (materialize s)) (materialize s) ->
  let s' := ASM_asyncify_stop_rewind (store (nptr (materialize s)) 0 (materialize s)) in
  CoroCtxSwitch n s = (false, s') /\
  MU32_get (MU32 s') (nptr s') = Some Ended /\
  MU32_get (MU32 (run k s')) (nptr (run k s')) = Some Ended /\
  asyncify (run k s') = Normal /\
  coro_current (run k s') = coro_current (materialize s) /\
  CoroHandler (S fuel) (run k s') = (Returned, run k s').
Proof.
  intros H2 Hq Hav. set (s0 := materialize s) in *. intros s'.
  assert (Hw : MU32_get (MU32 s') (nptr s') = Some Ended).
  { subst s'. unfold nptr in *.
    cbn [ASM_asyncify_stop_rewind set_asyncify log store MU32 coro_current].
    rewrite MU32_get_set_eq by (rewrite H2; eauto). reflexivity. }
  assert (Hav' : allocator_avoids (nptr s') s') by exact Hav.
  destruct (run_quiet k (nptr s') s' Hq eq_refl Hav') as (Hm & Hc & _ & Hn & _).
  assert (Hw' : MU32_get (MU32 (run k s')) (nptr (run k s')) = Some Ended).
  { unfold nptr at 1. rewrite Hc. fold (nptr s'). rewrite Hm. exact Hw. }
  split; [apply CoroCtxSwitch_rewind; exact H2 |].
  repeat split; try assumption.
  apply CoroHandler_Ended. exact Hw'.
Qed.

(** C9. When the replayed suspend call finds wake state 2, [CoroCtxSwitch]
    writes 0 there, stops the rewind and returns false, and the coroutine
    goes on with wake state 0, the value of an ended coroutine: it keeps it
    for as long as it runs without suspending (the allocator not handing
    out its control block again), and a dispatcher that looks at it takes
    the exit meant for a function that has ended. *)
Theorem rewind_leaves_wake_state_Ended (n : Z) (s : State) (k : Prog) (fuel : nat) :
  MU32_get (MU32 (materialize s)) (nptr (materialize s)) = Some ResumingAfterSwitch ->
  quiet k ->
  allocator_avoids (nptr (materialize s)) (materialize s) ->
  exists s',
    CoroCtxSwitch n s = (false, s') /\
    trace s' = trace (materialize s) ++ [EvStopRewind] /\
    asyncify s' = Normal /\
    coro_current s' = coro_current (materialize s) /\
    MU32_get (MU32 s') (nptr s') = Some Ended /\
    MU32_get (MU32 (run k s')) (nptr (run k s')) = Some Ended /\
    CoroHandler (S fuel) (run k s') = (Returned, run k s').
Proof.
  intros H2 Hq Hav.
  destruct (rewind_then_quiet n s k fuel H2 Hq Hav) as (Hsw & Hw & Hw' & _ & _ & Hd).
  eexists. split; [exact Hsw |]. repeat split; try reflexivity; assumption.
Qed.

(** ** The dispatcher on a coroutine that is to run *)

Lemma ToInt32_ToUint32 x : JS.ToInt32 (JS.ToUint32 x) = JS.ToInt32 x.
Proof. unfold JS.ToInt32, JS.ToUint32. rewrite Zplus_mod_idemp_l. reflexivity. Qed.

(** Wake state 1 or 2 on a control block that names an export. *)
Lemma CoroHandler_turn_export s n fn e body u :
  MU32_get (MU32 s) (nptr s) = Some n -> n = 1 \/ n = 2 ->
  MU32_get (MU32 s) (nptr s - 2) = Some fn -> fn <> 0 ->
  coro_asms s !! fn = Some (AsmExport e) -> ASM_export e = Some body ->
  MU32_get (MU32 s) (nptr s - 1) = Some u ->
  CoroHandler_turn s =
    Loops (call_wasm (body (JS.ToInt32 u))
             (log (EvCallExport fn (JS.ToInt32 u))
                (if n =? 2
                 then ASM_asyncify_start_rewind (coro_current s) (ASM_asyncify_stop_unwind s)
                 else ASM_asyncify_stop_unwind s))).
Proof.
  intros Hn Hn12 Hfn Hfn0 Hasm Hexp Hu. unfold CoroHandler_turn. rewrite Hn.
  assert (Hfz : (fn =? 0) = false) by lia.
  destruct Hn12 as [-> | ->]; cbn [JS.truthy JS.eqn JS.gtn Z.eqb Z.ltb Z.compare negb
    Pos.compare Pos.compare_cont Pos.eqb];
    unfold nptr in *;
    cbn [ASM_asyncify_start_rewind ASM_asyncify_stop_unwind set_asyncify log MU32
         coro_current coro_asms];
    rewrite Hfn; cbn [JS.truthy JS.num]; rewrite Hfz; cbn [negb];
    rewrite Hasm, Hexp, Hu; reflexivity.
Qed.

(** Wake state 1 or 2 on a control block without entry function:
    MainContext. *)
Lemma CoroHandler_turn_main s n body :
  MU32_get (MU32 s) (nptr s) = Some n -> n = 1 \/ n = 2 ->
  MU32_get (MU32 s) (nptr s - 2) = Some 0 -> org_main s = Some body ->
  CoroHandler_turn s =
    Loops (call_wasm body
             (log EvCallMain
                (if n =? 2
                 then ASM_asyncify_start_rewind (coro_current s) (ASM_asyncify_stop_unwind s)
                 else ASM_asyncify_stop_unwind s))).
Proof.
  intros Hn Hn12 Hfn Hmain. unfold CoroHandler_turn. rewrite Hn.
  destruct Hn12 as [-> | ->]; cbn [JS.truthy JS.eqn JS.gtn Z.eqb Z.ltb Z.compare negb
    Pos.compare Pos.compare_cont Pos.eqb];
    unfold nptr in *;
    cbn [ASM_asyncify_start_rewind ASM_asyncify_stop_unwind set_asyncify log MU32
         coro_current coro_asms org_main];
    rewrite Hfn; cbn [JS.truthy Z.eqb negb]; rewrite Hmain; reflexivity.
Qed.

(** The control block that [WaCoroInitNew] writes, when it lies in the
    memory, and the registry entry its [fn] word points to. *)
Lemma WaCoroInitNew_block e u sz s :
  let res := hd 0 (malloc_oracle s) in
  let ptr := JS.sar (Some res) 2 in
  let s' := snd (WaCoroInitNew e u sz s) in
  0 <= ptr -> is_Some (MU32_get (MU32 s) (ptr + 4)) ->
  registry_ok s -> coro_count s < 2 ^ 32 - 1 ->
  MU32_get (MU32 s') (ptr + 4) = Some 1 /\
  MU32_get (MU32 s') (ptr + 3) = Some (JS.ToUint32 u) /\
  MU32_get (MU32 s') (ptr + 2) = Some (fn_index_of e s) /\
  0 < fn_index_of e s /\
  coro_asms s' !! fn_index_of e s = Some (AsmExport e).
Proof.
  intros res ptr s' Hptr Hmem [Hcnt Hreg] Hlt.
  destruct (WaCoroInitNew_effect e u sz s) as (_ & _ & Hm & _ & _ & _ & _ & _ & Hasm & _).
  fold res ptr s' in Hm, Hasm. apply MU32_get_is_Some in Hmem.
  assert (Hfn : 0 < fn_index_of e s < 2 ^ 32 /\
                coro_asms s' !! fn_index_of e s = Some (AsmExport e)).
  { rewrite Hasm. unfold fn_index_of. destruct (coro_nums s !! e) as [v |] eqn:Hv; cbn.
    - destruct (Hreg e v Hv) as [Hv1 Hv2]. destruct (Z.eqb_spec v 0); [lia |]. cbn.
      split; [lia | exact Hv2].
    - split; [lia | apply lookup_insert_eq]. }
  destruct Hfn as [Hfn1 Hfn2].
  rewrite Hm. repeat split; try lia; try exact Hfn2.
  - rewrite MU32_get_set_eq.
    + rewrite ToUint32_small; [reflexivity | lia].
    + rewrite MU32_get_is_Some, !MU32_set_length. lia.
  - rewrite MU32_get_set_ne by lia. rewrite MU32_get_set_eq; [reflexivity |].
    rewrite MU32_get_is_Some, !MU32_set_length. lia.
  - rewrite !MU32_get_set_ne by lia. rewrite MU32_get_set_eq.
    + rewrite ToUint32_small; [reflexivity | lia].
    + rewrite MU32_get_is_Some, !MU32_set_length. lia.
Qed.

(** C3. A handle made by [WaCoroInitNew] (its control block lying in the
    memory) has wake state 1 when the call returns.  When the dispatcher
    finds the cursor on that control block as it was written, it stops the
    unwind and calls the entry function with the user data as a fresh run
    of its body, and calls no [asyncify_start_rewind]; when the same
    control block has wake state 2, the dispatcher starts a rewind on the
    handle before the call, and the call replays the captured chain. *)
Theorem first_entry_is_fresh_call (e u sz : Z) (s s2 : State) (body : Z -> Prog) :
  let res := fst (WaCoroInitNew e u sz s) in
  let s1 := snd (WaCoroInitNew e u sz s) in
  let ptr := JS.sar (Some res) 2 in
  let fn := fn_index_of e s in
  0 <= ptr -> is_Some (MU32_get (MU32 s) (ptr + 4)) ->
  registry_ok s -> coro_count s < 2 ^ 32 - 1 ->
  - 2 ^ 31 <= u < 2 ^ 31 ->
  ASM_export e = Some body ->
  (* a later state with the cursor on the handle and its block untouched *)
  coro_current s2 = Some res ->
  MU32_get (MU32 s2) (ptr + 2) = MU32_get (MU32 s1) (ptr + 2) ->
  MU32_get (MU32 s2) (ptr + 3) = MU32_get (MU32 s1) (ptr + 3) ->
  MU32_get (MU32 s2) (ptr + 4) = MU32_get (MU32 s1) (ptr + 4) ->
  coro_asms s2 !! fn = coro_asms s1 !! fn ->
  wake_state res s1 = Some Entering /\
  (let enter := log (EvCallExport fn u) (ASM_asyncify_stop_unwind s2) in
   CoroHandler_turn s2 = Loops (run (body u) enter) /\
   trace enter = trace s2 ++ [EvStopUnwind; EvCallExport fn u]) /\
  (let s3 := store (ptr + 4) ResumingAfterSwitch s2 in
   let resume :=
     log (EvCallExport fn u)
       (ASM_asyncify_start_rewind (Some res) (ASM_asyncify_stop_unwind s3)) in
   CoroHandler_turn s3 =
     Loops (match saved s2 !! JS.ToInt32 res with
            | Some captured => run captured resume
            | None => resume
            end) /\
   trace resume =
     trace s2 ++ [EvStopUnwind; EvStartRewind (JS.ToInt32 res); EvCallExport fn u]).
Proof.
  intros res s1 ptr fn Hptr Hmem Hreg Hcnt Hu Hexp Hcur H2 H3 H4 Hasm.
  destruct (WaCoroInitNew_effect e u sz s) as (Hres & _).
  cbv zeta in Hres. fold res in Hres.
  pose proof (WaCoroInitNew_block e u sz s) as Hb. cbv zeta in Hb.
  rewrite <- Hres in Hb. fold ptr s1 fn in Hb.
  destruct (Hb Hptr Hmem Hreg Hcnt) as (B4 & B3 & B2 & Hfn & Hasm1).
  rewrite B2 in H2. rewrite B3 in H3. rewrite B4 in H4. rewrite Hasm1 in Hasm.
  assert (Hn : nptr s2 = ptr + 4) by (unfold nptr; rewrite Hcur; reflexivity).
  split; [exact B4 |]. split.
  - cbv zeta. split; [| cbn; rewrite <- app_assoc; reflexivity].
    rewrite (CoroHandler_turn_export s2 1 fn e body (JS.ToUint32 u)).
    + rewrite ToInt32_ToUint32, ToInt32_small by exact Hu. reflexivity.
    + rewrite Hn. exact H4.
    + left; reflexivity.
    + rewrite Hn. replace (ptr + 4 - 2) with (ptr + 2) by lia. exact H2.
    + lia.
    + exact Hasm.
    + exact Hexp.
    + rewrite Hn. replace (ptr + 4 - 1) with (ptr + 3) by lia. exact H3.
  - cbv zeta. split; [| cbn; rewrite <- !app_assoc; reflexivity].
    set (s3 := store (ptr + 4) ResumingAfterSwitch s2).
    assert (Hn3 : nptr s3 = ptr + 4) by exact Hn.
    assert (Hin : is_Some (MU32_get (MU32 s2) (ptr + 4))) by (rewrite H4; eauto).
    rewrite (CoroHandler_turn_export s3 2 fn e body (JS.ToUint32 u)).
    + rewrite ToInt32_ToUint32, ToInt32_small by exact Hu.
      unfold call_wasm. cbn [asyncify log ASM_asyncify_start_rewind set_asyncify saved
        ASM_asyncify_stop_unwind store Z.eqb Pos.eqb coro_current].
      change (coro_current s3) with (coro_current s2).
      change (saved s3) with (saved s2). rewrite Hcur. reflexivity.
    + rewrite Hn3. subst s3. cbn [store MU32]. rewrite MU32_get_set_eq by exact Hin.
      reflexivity.
    + right; reflexivity.
    + rewrite Hn3. subst s3. cbn [store MU32]. rewrite MU32_get_set_ne by lia.
      replace (ptr + 4 - 2) with (ptr + 2) by lia. exact H2.
    + lia.
    + exact Hasm.
    + exact Hexp.
    + rewrite Hn3. subst s3. cbn [store MU32]. rewrite MU32_get_set_ne by lia.
      replace (ptr + 4 - 1) with (ptr + 3) by lia. exact H3.
Qed.

(** ** MainContext and [WaCoroSwitch] *)

(** The first materialization: one call of [malloc], whose answer becomes
    both [main_data] and the cursor. *)
Lemma materialize_first s :
  JS.truthy (main_data s) = false ->
  main_data (materialize s) = Some (hd 0 (malloc_oracle s)) /\
  coro_current (materialize s) = Some (hd 0 (malloc_oracle s)) /\
  org_main (materialize s) = ASM_main /\
  trace (materialize s) = trace s ++ [EvMalloc (20 + WASM_STACK_SIZE)] /\
  asyncify (materialize s) = asyncify s /\ saved (materialize s) = saved s.
Proof.
  intros Hm. unfold materialize. rewrite Hm. cbn [negb].
  pose proof (ASM_malloc_result (20 + WASM_STACK_SIZE) (set_org_main ASM_main s)) as Hr.
  pose proof (ASM_malloc_state (20 + WASM_STACK_SIZE) (set_org_main ASM_main s)) as Hs.
  destruct (ASM_malloc (20 + WASM_STACK_SIZE) (set_org_main ASM_main s)) as [r s1].
  cbn [fst snd] in *.
  destruct Hs as (_ & _ & _ & _ & _ & _ & Ho & Ha & Hsv & Htr & _). subst r.
  cbn [store set_main_data main_data coro_current org_main trace asyncify saved].
  rewrite Ho, Ha, Hsv, Htr. repeat split; reflexivity.
Qed.

Lemma materialize_cases s :
  (JS.truthy (main_data s) = true /\ materialize s = s) \/
  (JS.truthy (main_data s) = false /\
   main_data (materialize s) = Some (hd 0 (malloc_oracle s)) /\
   coro_current (materialize s) = Some (hd 0 (malloc_oracle s)) /\
   org_main (materialize s) = ASM_main /\
   trace (materialize s) = trace s ++ [EvMalloc (20 + WASM_STACK_SIZE)] /\
   asyncify (materialize s) = asyncify s /\ saved (materialize s) = saved s).
Proof.
  destruct (JS.truthy (main_data s)) eqn:Hm.
  - left. split; [reflexivity | apply materialize_done; exact Hm].
  - right. split; [reflexivity | apply materialize_first; exact Hm].
Qed.

Lemma WaCoroSwitch_unwind to s :
  MU32_get (MU32 (materialize s)) (nptr (materialize s)) <> Some 2 ->
  WaCoroSwitch to s =
    set_coro_current (JS.or (Some to) (main_data (materialize s)))
      (ASM_asyncify_start_unwind (coro_current (materialize s))
         (store (nptr (materialize s)) 2 (materialize s))).
Proof. intros Hne. unfold WaCoroSwitch. rewrite (CoroCtxSwitch_unwind 2 s Hne). reflexivity. Qed.

Lemma WaCoroSwitch_rewind to s :
  MU32_get (MU32 (materialize s)) (nptr (materialize s)) = Some 2 ->
  WaCoroSwitch to s =
    ASM_asyncify_stop_rewind (store (nptr (materialize s)) 0 (materialize s)).
Proof. intros H2. unfold WaCoroSwitch. rewrite (CoroCtxSwitch_rewind 2 s H2). reflexivity. Qed.

(** What each import does to [main_data] and to the cursor once MainContext
    exists. *)
Lemma CoroCtxSwitch_cursor n s :
  main_data (snd (CoroCtxSwitch n s)) = main_data (materialize s) /\
  coro_current (snd (CoroCtxSwitch n s)) = coro_current (materialize s).
Proof.
  unfold CoroCtxSwitch.
  destruct (JS.eqn (MU32_get (MU32 (materialize s)) (nptr (materialize s))) 2);
    split; reflexivity.
Qed.

Lemma import_cursor i s :
  JS.truthy (main_data s) = true ->
  main_data (snd (import i s)) = main_data s /\
  (coro_current (snd (import i s)) = coro_current s \/
   exists to,
     i = Switch to /\
     MU32_get (MU32 s) (nptr s) <> Some ResumingAfterSwitch /\
     asyncify (snd (import i s)) = Unwinding (JS.ToInt32 (JS.num (coro_current s))) /\
     coro_current (snd (import i s)) = JS.or (Some to) (main_data s)).
Proof.
  intros Hm. pose proof (materialize_done s Hm) as Hmat.
  destruct i as [e u sz | c | to | | | ms]; cbn [import snd].
  - destruct (WaCoroInitNew_effect e u sz s) as (_ & _ & _ & Hc & Hd & _).
    cbv zeta in Hc, Hd. auto.
  - split; [reflexivity | left; reflexivity].
  - destruct (MU32_get (MU32 s) (nptr s)) as [w |] eqn:Hw.
    + destruct (Z.eq_dec w 2) as [-> | Hne].
      * rewrite WaCoroSwitch_rewind by (rewrite Hmat; exact Hw). rewrite Hmat.
        split; [reflexivity | left; reflexivity].
      * rewrite WaCoroSwitch_unwind by (rewrite Hmat, Hw; congruence). rewrite Hmat.
        split; [reflexivity |]. right. exists to.
        unfold ResumingAfterSwitch. repeat split; congruence.
    + rewrite WaCoroSwitch_unwind by (rewrite Hmat, Hw; congruence). rewrite Hmat.
      split; [reflexivity |]. right. exists to.
      unfold ResumingAfterSwitch. repeat split; congruence.
  - unfold WaCoroWaitAnimFrame. destruct (CoroCtxSwitch_cursor 3 s) as [-> ->].
    rewrite Hmat. auto.
  - unfold WaCoroYield. destruct (CoroCtxSwitch_cursor 4 s) as [-> ->].
    rewrite Hmat. auto.
  - unfold WaCoroSleep. destruct (CoroCtxSwitch_cursor (5 + (if ms <? 0 then 0 else ms)) s) as [-> ->].
    rewrite Hmat. auto.
Qed.

(** C7 (amended). A call [WaCoroSwitch(NULL)] that suspends marks the
    caller with wake state 2, starts the unwind and puts the cursor on
    MainContext, which the dispatcher then rewinds by calling the main
    export.  MainContext is the one control block [main_data]; it is made by
    the first suspending call, with a region of [20 + WASM_STACK_SIZE] bytes
    of its own taken from [malloc]; once [main_data] is a non-null address
    no import allocates it again or changes it. *)
Theorem switch_to_null_resumes_MainContext (s : State) (body : Prog) (i : Import) :
  let s0 := materialize s in
  let s1 := WaCoroSwitch 0 s in
  let caller := JS.ToInt32 (JS.num (coro_current s0)) in
  MU32_get (MU32 s0) (nptr s0) <> Some ResumingAfterSwitch ->
  MU32_get (MU32 s1) (nptr s1) = Some ResumingAfterSwitch ->
  MU32_get (MU32 s1) (nptr s1 - 2) = Some 0 ->
  org_main s0 = Some body ->
  JS.truthy (main_data s0) = true ->
  coro_current s1 = main_data s1 /\
  asyncify s1 = Unwinding caller /\
  MU32 s1 = MU32_set (MU32 s0) (nptr s0) ResumingAfterSwitch /\
  (JS.truthy (main_data s) = true ->
     main_data s1 = main_data s /\ trace s1 = trace s ++ [EvStartUnwind caller]) /\
  (JS.truthy (main_data s) = false ->
     main_data s1 = Some (hd 0 (malloc_oracle s)) /\
     trace s1 = trace s ++ [EvMalloc (20 + WASM_STACK_SIZE); EvStartUnwind caller]) /\
  CoroHandler_turn s1 =
    Loops (call_wasm body
             (log EvCallMain
                (ASM_asyncify_start_rewind (main_data s1) (ASM_asyncify_stop_unwind s1)))) /\
  main_data (snd (import i s1)) = main_data s1 /\ materialize s1 = s1.
Proof.
  intros s0 s1 caller Hne Hw Hfn Hmain Hmd.
  assert (Hs1 : s1 = set_coro_current (JS.or (Some 0) (main_data s0))
                  (ASM_asyncify_start_unwind (coro_current s0) (store (nptr s0) 2 s0)))
    by (apply WaCoroSwitch_unwind; exact Hne).
  assert (Hcur : coro_current s1 = main_data s1) by (rewrite Hs1; reflexivity).
  assert (Hmd1 : main_data s1 = main_data s0) by (rewrite Hs1; reflexivity).
  split; [exact Hcur |]. split; [rewrite Hs1; reflexivity |].
  split; [rewrite Hs1; reflexivity |].
  assert (Htr : trace s1 = trace s0 ++ [EvStartUnwind caller]) by (rewrite Hs1; reflexivity).
  split; [| split; [| split; [| split]]].
  - intros Ht. subst s0. rewrite (materialize_done s Ht) in *. auto.
  - intros Hf. destruct (materialize_first s Hf) as (Hd & _ & _ & Ht & _).
    fold s0 in Hd, Ht. rewrite Hmd1, Htr, Ht, <- app_assoc. auto.
  - rewrite (CoroHandler_turn_main s1 2 body Hw (or_intror eq_refl) Hfn).
    + rewrite Hcur. reflexivity.
    + rewrite Hs1. exact Hmain.
  - apply import_cursor. rewrite Hmd1. exact Hmd.
  - apply materialize_done. rewrite Hmd1. exact Hmd.
Qed.

(** ** Ended coroutines *)

(** The replay of a suspension point that finds wake state 2 ends the
    rewind, whichever import it is. *)
Lemma import_replay i s :
  suspends i = true ->
  MU32_get (MU32 (materialize s)) (nptr (materialize s)) = Some 2 ->
  import i s =
    (0, ASM_asyncify_stop_rewind (store (nptr (materialize s)) 0 (materialize s))).
Proof.
  intros Hi H2. destruct i; try discriminate Hi; cbn [import].
  - rewrite WaCoroSwitch_rewind by exact H2. reflexivity.
  - unfold WaCoroWaitAnimFrame. rewrite CoroCtxSwitch_rewind by exact H2. reflexivity.
  - unfold WaCoroYield. rewrite CoroCtxSwitch_rewind by exact H2. reflexivity.
  - unfold WaCoroSleep. rewrite CoroCtxSwitch_rewind by exact H2. reflexivity.
Qed.

(** C6 (amended). A coroutine that is resumed at its suspension point [i]
    and then runs to the return of its entry function without suspending
    again has wake state 0 when it returns; the cursor stays on it and the
    dispatcher returns on seeing it.  A later [WaCoroSwitch] into it (in a
    state [s] where it is still the cursor, with wake state 0) is neither
    rejected nor asserted: the call stores wake state 2 in its control
    block, starts an unwind on it and leaves the cursor there, and the next
    turn of the dispatcher starts a rewind on the handle and calls its
    entry export again. *)
Theorem switch_into_Ended_is_accepted
    (r : State) (i : Import) (k : Z -> Prog)
    (s : State) (h fn e u : Z) (body : Z -> Prog) (fuel : nat) :
  let s1 := WaCoroSwitch h s in
  suspends i = true ->
  MU32_get (MU32 (materialize r)) (nptr (materialize r)) = Some ResumingAfterSwitch ->
  quiet (k 0) ->
  allocator_avoids (nptr (materialize r)) (materialize r) ->
  JS.truthy (main_data s) = true ->
  coro_current s = Some h -> h <> 0 ->
  MU32_get (MU32 s) (nptr s) = Some Ended ->
  MU32_get (MU32 s) (nptr s - 2) = Some fn -> fn <> 0 ->
  coro_asms s !! fn = Some (AsmExport e) -> ASM_export e = Some body ->
  MU32_get (MU32 s) (nptr s - 1) = Some u ->
  (asyncify (run (Call i k) r) = Normal /\
   MU32_get (MU32 (run (Call i k) r)) (nptr (run (Call i k) r)) = Some Ended /\
   coro_current (run (Call i k) r) = coro_current (materialize r) /\
   CoroHandler (S fuel) (run (Call i k) r) = (Returned, run (Call i k) r)) /\
  CoroHandler (S fuel) s = (Returned, s) /\
  (coro_current s1 = Some h /\
   asyncify s1 = Unwinding (JS.ToInt32 h) /\
   trace s1 = trace s ++ [EvStartUnwind (JS.ToInt32 h)] /\
   MU32_get (MU32 s1) (nptr s1) = Some ResumingAfterSwitch /\
   CoroHandler_turn s1 =
     Loops (call_wasm (body (JS.ToInt32 u))
              (log (EvCallExport fn (JS.ToInt32 u))
                 (ASM_asyncify_start_rewind (Some h) (ASM_asyncify_stop_unwind s1))))).
Proof.
  intros s1 Hi Hr Hq Hav Hmd Hcur Hh Hended Hfn Hfn0 Hasm Hexp Hu.
  split; [| split].
  - destruct (rewind_then_quiet 0 r (k 0) fuel Hr Hq Hav) as (_ & _ & Hw & Hn & Hc & Hd).
    assert (Hrun : run (Call i k) r =
              run (k 0) (ASM_asyncify_stop_rewind
                           (store (nptr (materialize r)) 0 (materialize r)))).
    { cbn [run]. rewrite (import_replay i r Hi Hr). reflexivity. }
    rewrite Hrun. repeat split; assumption.
  - apply CoroHandler_Ended. exact Hended.
  - pose proof (materialize_done s Hmd) as Hmat.
    assert (Hne : MU32_get (MU32 (materialize s)) (nptr (materialize s)) <> Some 2)
      by (rewrite Hmat, Hended; discriminate).
    assert (Hs1 : s1 = set_coro_current (Some h)
                    (ASM_asyncify_start_unwind (Some h) (store (nptr s) 2 s))).
    { unfold s1. rewrite (WaCoroSwitch_unwind h s Hne), Hmat, Hcur. f_equal.
      unfold JS.or. cbn [JS.truthy].
      destruct (Z.eqb_spec h 0); [contradiction | reflexivity]. }
    assert (Hn1 : nptr s1 = nptr s) by (rewrite Hs1; unfold nptr; rewrite Hcur; reflexivity).
    assert (Hm1 : MU32 s1 = MU32_set (MU32 s) (nptr s) 2) by (rewrite Hs1; reflexivity).
    assert (Hin : is_Some (MU32_get (MU32 s) (nptr s))) by (rewrite Hended; eauto).
    assert (Hw1 : MU32_get (MU32 s1) (nptr s1) = Some 2).
    { rewrite Hn1, Hm1, MU32_get_set_eq by exact Hin. reflexivity. }
    split; [rewrite Hs1; reflexivity |]. split; [rewrite Hs1; reflexivity |].
    split; [rewrite Hs1; reflexivity |]. split; [exact Hw1 |].
    rewrite (CoroHandler_turn_export s1 2 fn e body u Hw1 (or_intror eq_refl)).
    + cbn [Z.eqb Pos.eqb]. replace (coro_current s1) with (Some h) by (rewrite Hs1; reflexivity).
      reflexivity.
    + rewrite Hn1, Hm1, MU32_get_set_ne by lia. exact Hfn.
    + exact Hfn0.
    + rewrite Hs1. exact Hasm.
    + exact Hexp.
    + rewrite Hn1, Hm1, MU32_get_set_ne by lia. exact Hu.
Qed.

(** ** The scheduler cursor *)

Lemma cursor_known_mono G G' s :
  cursor_known G s -> (forall h, In h G -> In h G') -> cursor_known G' s.
Proof.
  intros [Hm | (h & Hh & Hc)] Hsub; [left; exact Hm | right].
  exists h. split; [apply Hsub; exact Hh | exact Hc].
Qed.

(** [cursor_known] looks at two variables only. *)
Lemma cursor_known_fields G s s' :
  coro_current s' = coro_current s -> main_data s' = main_data s ->
  cursor_known G s -> cursor_known G s'.
Proof. intros Hc Hm Hk. unfold cursor_known. rewrite Hc, Hm. exact Hk. Qed.

Lemma materialize_known G s : cursor_known G s -> cursor_known G (materialize s).
Proof.
  intros Hk. destruct (materialize_cases s) as [[_ ->] | (_ & Hm & Hc & _)]; [exact Hk |].
  left. congruence.
Qed.

Lemma CoroCtxSwitch_fields n s :
  coro_current (snd (CoroCtxSwitch n s)) = coro_current (materialize s) /\
  main_data (snd (CoroCtxSwitch n s)) = main_data (materialize s) /\
  saved (snd (CoroCtxSwitch n s)) = saved (materialize s) /\
  org_main (snd (CoroCtxSwitch n s)) = org_main (materialize s).
Proof.
  unfold CoroCtxSwitch.
  destruct (JS.eqn (MU32_get (MU32 (materialize s)) (nptr (materialize s))) 2);
    repeat split; reflexivity.
Qed.

Lemma CoroCtxSwitch_known G n s :
  cursor_known G s -> cursor_known G (snd (CoroCtxSwitch n s)).
Proof.
  intros Hk. destruct (CoroCtxSwitch_fields n s) as (Hc & Hm & _).
  eapply cursor_known_fields; [exact Hc | exact Hm |]. apply materialize_known. exact Hk.
Qed.

(** One import call: the cursor stays where it was, or goes to the target
    of a switch. *)
Lemma import_known G i s :
  cursor_known G s -> target_known G i = true ->
  cursor_known (learn i (fst (import i s)) G) (snd (import i s)).
Proof.
  intros Hk Ht. destruct i as [e u sz | c | to | | | ms]; cbn [import fst snd learn].
  - destruct (WaCoroInitNew_effect e u sz s) as (_ & _ & _ & Hc & Hm & _).
    cbv zeta in Hc, Hm.
    eapply cursor_known_fields; [exact Hc | exact Hm |].
    eapply cursor_known_mono; [exact Hk |]. intros h Hh. right. exact Hh.
  - eapply cursor_known_fields; [| | exact Hk]; reflexivity.
  - unfold WaCoroSwitch. pose proof (CoroCtxSwitch_known G 2 s Hk) as Hk'.
    destruct (CoroCtxSwitch 2 s) as [unwind s']. cbn [snd] in Hk'.
    destruct unwind; [| exact Hk'].
    unfold cursor_known, JS.or. cbn [set_coro_current coro_current main_data JS.truthy].
    cbn [target_known] in Ht.
    destruct (Z.eqb_spec to 0) as [-> | Hnz]; cbn [negb orb] in *; [left; reflexivity |].
    right. exists to. split; [| reflexivity].
    apply existsb_exists in Ht. destruct Ht as (h & Hh & Heq).
    apply Z.eqb_eq in Heq. subst h. exact Hh.
  - apply CoroCtxSwitch_known. exact Hk.
  - apply CoroCtxSwitch_known. exact Hk.
  - apply CoroCtxSwitch_known. exact Hk.
Qed.

(** A run that passes to [WaCoroSwitch] only null or handles it has got
    leaves the cursor on MainContext or on one of them. *)
Lemma run_known_cursor p :
  forall G s G', cursor_known G s -> run_known G p s = Some G' ->
  cursor_known G' (run p s).
Proof.
  induction p as [| msg k IH | i k IH]; intros G s G' Hk Hr.
  - injection Hr as <-. exact Hk.
  - cbn [run run_known] in *. apply (IH G); [| exact Hr].
    eapply cursor_known_fields; [| | exact Hk]; reflexivity.
  - cbn [run run_known] in *. destruct (target_known G i) eqn:Ht; [| discriminate].
    pose proof (import_known G i s Hk Ht) as Hk1.
    destruct (import i s) as [res s']. cbn [fst snd] in Hk1. unfold after.
    destruct (asyncify s') as [| d | d].
    + apply (IH res _ _ _ Hk1 Hr).
    + injection Hr as <-. eapply cursor_known_fields; [| | exact Hk1]; reflexivity.
    + apply (IH res _ _ _ Hk1 Hr).
Qed.

Lemma call_known_cursor G body s G' :
  cursor_known G s -> call_known G body s = Some G' -> cursor_known G' (call_wasm body s).
Proof.
  unfold call_known, call_wasm. intros Hk Hr. destruct (asyncify s) as [| d | d].
  - eapply run_known_cursor; eassumption.
  - eapply run_known_cursor; eassumption.
  - destruct (saved s !! d) as [p |].
    + eapply run_known_cursor; eassumption.
    + injection Hr as <-. exact Hk.
Qed.

(** The statements of the dispatcher do not assign the cursor: a turn that
    returns or throws leaves it, and a turn that calls an export (one of
    the module's, or the main export) hands it over as it found it. *)
Lemma CoroHandler_turn_shape s :
  match CoroHandler_turn s with
  | Returns s' | Throws s' =>
      coro_current s' = coro_current s /\ main_data s' = main_data s /\
      saved s' = saved s /\ org_main s' = org_main s
  | Loops s' =>
      exists body pre, s' = call_wasm body pre /\
        (coro_current pre = coro_current s /\ main_data pre = main_data s /\
         saved pre = saved s /\ org_main pre = org_main s) /\
        ((exists e b arg, ASM_export e = Some b /\ body = b arg) \/
         org_main s = Some body)
  end.
Proof.
  unfold CoroHandler_turn. set (n := MU32_get (MU32 s) (nptr s)).
  destruct (negb (JS.truthy n)); [repeat split; reflexivity |].
  destruct (JS.eqn n 3), (JS.eqn n 4), (JS.gtn n 4), (JS.gtn n 2), (JS.eqn n 2);
    try (repeat split; reflexivity);
    (match goal with |- context [JS.truthy ?f] => destruct (JS.truthy f) end;
     [ match goal with
       | |- context [coro_asms ?x !! ?i] => destruct (coro_asms x !! i) as [[| e] |]
       end; try (repeat split; reflexivity);
       destruct (ASM_export e) as [b |] eqn:Hb; try (repeat split; reflexivity);
       do 2 eexists; (split; [reflexivity | split; [repeat split; reflexivity |]]);
       left; do 3 eexists; split; [exact Hb | reflexivity]
     | match goal with
       | |- context [org_main ?x] => destruct (org_main x) as [b |] eqn:Hb
       end; try (repeat split; reflexivity);
       do 2 eexists; (split; [reflexivity | split; [repeat split; reflexivity |]]);
       right; exact Hb ]).
Qed.

(** A turn that reaches the end of the loop body has made the call of
    [turn_call], with the cursor as the turn found it. *)
Lemma CoroHandler_turn_call s s' :
  CoroHandler_turn s = Loops s' ->
  exists body pre,
    turn_call s = Some (body, pre) /\ s' = call_wasm body pre /\
    coro_current pre = coro_current s /\ main_data pre = main_data s.
Proof.
  unfold CoroHandler_turn, turn_call, dispatch_target.
  destruct (MU32_get (MU32 s) (nptr s)) as [z |] eqn:Hn;
    cbn [JS.truthy JS.eqn JS.gtn JS.num negb]; [| discriminate].
  destruct (Z.eqb_spec z 0) as [| Hz]; cbn [negb]; [discriminate |].
  destruct (Z.ltb_spec 2 z) as [| H2].
  - destruct (z =? 3), (z =? 4), (4 <? z); discriminate.
  - assert (H3 : (z =? 3) = false) by lia. assert (H4 : (z =? 4) = false) by lia.
    assert (H5 : (4 <? z) = false) by lia. rewrite H3, H4, H5.
    destruct (z =? 2);
      cbn [ASM_asyncify_stop_unwind ASM_asyncify_start_rewind set_asyncify log
           MU32 coro_asms org_main coro_current];
      (destruct (JS.truthy (MU32_get (MU32 s) (nptr s - 2)));
       [ destruct (coro_asms s !! JS.num (MU32_get (MU32 s) (nptr s - 2))) as [[| e] |];
           try discriminate;
         destruct (ASM_export e) as [b |]; try discriminate
       | destruct (org_main s) as [b |]; try discriminate ];
       intros [= <-]; do 2 eexists; repeat split; reflexivity).
Qed.

(** Invocations of the dispatcher whose exports pass to [WaCoroSwitch]
    only null or handles they have got leave the cursor on MainContext or
    on one of them. *)
Lemma CoroHandler_known_cursor fuel :
  forall G s G', cursor_known G s -> CoroHandler_known fuel G s = Some G' ->
  cursor_known G' (snd (CoroHandler fuel s)).
Proof.
  induction fuel as [| fuel IH]; intros G s G' Hk Hr.
  - injection Hr as <-. exact Hk.
  - cbn [CoroHandler CoroHandler_known] in *.
    pose proof (CoroHandler_turn_shape s) as Hshape.
    pose proof (CoroHandler_turn_call s) as Hcall.
    destruct (CoroHandler_turn s) as [s' | s' | s'].
    + injection Hr as <-. destruct Hshape as (Hc & Hm & _).
      eapply cursor_known_fields; eassumption.
    + injection Hr as <-. destruct Hshape as (Hc & Hm & _).
      eapply cursor_known_fields; eassumption.
    + destruct (Hcall s' eq_refl) as (body & pre & Ht & -> & Hc & Hm).
      rewrite Ht in Hr. destruct (call_known G body pre) as [G1 |] eqn:H1; [| discriminate].
      apply (IH G1); [| exact Hr].
      eapply call_known_cursor; [| exact H1]. eapply cursor_known_fields; eassumption.
Qed.

(** The first suspension point, when it is not a switch, leaves the cursor
    on the MainContext it has just made. *)
Lemma first_suspension_materializes i s :
  JS.truthy (main_data s) = false ->
  suspends i = true -> (forall to, i <> Switch to) ->
  coro_current (snd (import i s)) = Some (hd 0 (malloc_oracle s)) /\
  main_data (snd (import i s)) = Some (hd 0 (malloc_oracle s)).
Proof.
  intros Hm Hi Hns. destruct (materialize_first s Hm) as (Hd & Hc & _).
  destruct i as [e u sz | c | to | | | ms]; try discriminate Hi; cbn [import snd].
  - exact (False_ind _ (Hns to eq_refl)).
  - unfold WaCoroWaitAnimFrame. destruct (CoroCtxSwitch_cursor 3 s) as [-> ->]. auto.
  - unfold WaCoroYield. destruct (CoroCtxSwitch_cursor 4 s) as [-> ->]. auto.
  - unfold WaCoroSleep.
    destruct (CoroCtxSwitch_cursor (5 + (if ms <? 0 then 0 else ms)) s) as [-> ->]. auto.
Qed.

(** C1 (amended). [coro_current] is one variable, so the cursor is on at
    most one control block.  While there is no MainContext yet, a first
    suspension point that is not a switch assigns the cursor: it puts it
    on the MainContext it makes.  Once MainContext exists ([main_data] is a
    non-null address) no import changes [main_data], and the only import
    that changes the cursor is a [WaCoroSwitch] that suspends, which sets it
    to the target, or to MainContext for a null target; the dispatcher's own
    statements never assign it.  So from a state whose cursor is MainContext
    or one of the handles [G], when every [WaCoroSwitch] of a run, or of the
    exports that an invocation of the dispatcher calls, is passed null, one
    of [G] or a handle that [WaCoroInitNew] has returned before in it
    ([run_known] and [CoroHandler_known] give the handles [G'] at the end),
    the cursor is MainContext or one of [G'] afterwards. *)
Theorem cursor_moves_only_by_switch
    (G : list Z) (s : State) (i : Import) (p : Prog) (fuel : nat) :
  cursor_known G s ->
  (JS.truthy (main_data s) = false ->
   suspends i = true -> (forall to, i <> Switch to) ->
   coro_current (snd (import i s)) = Some (hd 0 (malloc_oracle s)) /\
   main_data (snd (import i s)) = Some (hd 0 (malloc_oracle s))) /\
  (JS.truthy (main_data s) = true ->
   main_data (snd (import i s)) = main_data s /\
   (coro_current (snd (import i s)) = coro_current s \/
    exists to,
      i = Switch to /\
      MU32_get (MU32 s) (nptr s) <> Some ResumingAfterSwitch /\
      asyncify (snd (import i s)) = Unwinding (JS.ToInt32 (JS.num (coro_current s))) /\
      coro_current (snd (import i s)) = JS.or (Some to) (main_data s))) /\
  match CoroHandler_turn s with
  | Returns s' | Throws s' => coro_current s' = coro_current s
  | Loops s' =>
      exists body pre, s' = call_wasm body pre /\ coro_current pre = coro_current s
  end /\
  (forall G', run_known G p s = Some G' -> cursor_known G' (run p s)) /\
  (forall G', CoroHandler_known fuel G s = Some G' ->
     cursor_known G' (snd (CoroHandler fuel s))).
Proof.
  intros Hk.
  split; [apply first_suspension_materializes |].
  split; [apply import_cursor |]. split; [| split].
  - pose proof (CoroHandler_turn_shape s) as Hshape.
    destruct (CoroHandler_turn s) as [s' | s' | s'].
    + apply Hshape.
    + apply Hshape.
    + destruct Hshape as (body & pre & Hs' & (Hc & _) & _). exists body, pre. auto.
  - intros G'. apply run_known_cursor. exact Hk.
  - intros G'. apply CoroHandler_known_cursor. exact Hk.
Qed.

(** ** Suspending and resuming *)

(** A turn on wake state 1 or 2 ends in the call of [dispatch_target], or
    throws when there is none. *)
Lemma CoroHandler_turn_dispatch s n :
  MU32_get (MU32 s) (nptr s) = Some n -> n = 1 \/ n = 2 ->
  CoroHandler_turn s =
    let pre := if n =? 2
               then ASM_asyncify_start_rewind (coro_current s) (ASM_asyncify_stop_unwind s)
               else ASM_asyncify_stop_unwind s in
    match dispatch_target s with
    | Some (body, ev) => Loops (call_wasm body (log ev pre))
    | None => Throws pre
    end.
Proof.
  intros Hn Hn12. unfold CoroHandler_turn, dispatch_target. rewrite Hn.
  destruct Hn12 as [-> | ->]; cbn [JS.truthy JS.eqn JS.gtn Z.eqb Z.ltb Z.compare negb
    Pos.compare Pos.compare_cont Pos.eqb];
    cbv zeta;
    cbn [ASM_asyncify_start_rewind ASM_asyncify_stop_unwind set_asyncify log MU32
         coro_current coro_asms org_main];
    destruct (JS.truthy (MU32_get (MU32 s) (nptr s - 2)));
    [ destruct (coro_asms s !! JS.num (MU32_get (MU32 s) (nptr s - 2))) as [[| e] |];
      try reflexivity; destruct (ASM_export e); reflexivity
    | destruct (org_main s); reflexivity
    | destruct (coro_asms s !! JS.num (MU32_get (MU32 s) (nptr s - 2))) as [[| e] |];
      try reflexivity; destruct (ASM_export e); reflexivity
    | destruct (org_main s); reflexivity ].
Qed.

(** A suspension point that does not end a rewind. *)
Lemma import_suspend i s :
  suspends i = true ->
  MU32_get (MU32 (materialize s)) (nptr (materialize s)) <> Some 2 ->
  import i s =
    (0, set_coro_current (cursor_after i (materialize s))
          (ASM_asyncify_start_unwind (coro_current (materialize s))
             (store (nptr (materialize s))
                (match i with
                 | Sleep ms => 5 + (if ms <? 0 then 0 else ms)
                 | _ => wake_code i
                 end) (materialize s)))).
Proof.
  intros Hi Hne. destruct i as [e u sz | c | to | | | ms]; try discriminate Hi;
    cbn [import cursor_after wake_code].
  - rewrite WaCoroSwitch_unwind by exact Hne. reflexivity.
  - unfold WaCoroWaitAnimFrame. rewrite CoroCtxSwitch_unwind by exact Hne. reflexivity.
  - unfold WaCoroYield. rewrite CoroCtxSwitch_unwind by exact Hne. reflexivity.
  - unfold WaCoroSleep. rewrite CoroCtxSwitch_unwind by exact Hne. reflexivity.
Qed.

(** X1. A suspension point that suspends ends the run of the export on the
    spot: the call chain is captured under the handle of the caller, the
    unwind is the only call made (after the allocation of MainContext, if
    this is the first suspension), the caller's wake state is the code of
    the suspension point, and nothing of what follows it is run. *)
Theorem suspension_point_unwinds (i : Import) (k : Z -> Prog) (s : State) :
  let s0 := materialize s in
  let d := JS.ToInt32 (JS.num (coro_current s0)) in
  suspends i = true ->
  (forall ms, i = Sleep ms -> - 2 ^ 31 <= ms < 2 ^ 31) ->
  is_Some (MU32_get (MU32 s0) (nptr s0)) ->
  MU32_get (MU32 s0) (nptr s0) <> Some ResumingAfterSwitch ->
  run (Call i k) s = save d (Call i k) (snd (import i s)) /\
  asyncify (run (Call i k) s) = Unwinding d /\
  saved (run (Call i k) s) = <[ d := Call i k ]> (saved s0) /\
  trace (run (Call i k) s) = trace s0 ++ [EvStartUnwind d] /\
  MU32_get (MU32 (run (Call i k) s)) (nptr s0) = Some (wake_code i) /\
  coro_current (run (Call i k) s) = cursor_after i s0.
Proof.
  intros s0 d Hi Hms Hmem Hne.
  pose proof (import_suspend i s Hi Hne) as Himp. fold s0 in Himp.
  assert (Hrun : run (Call i k) s = save d (Call i k) (snd (import i s))).
  { cbn [run]. rewrite Himp. reflexivity. }
  rewrite Hrun, Himp. cbn [snd]. repeat split.
  cbn [save set_coro_current ASM_asyncify_start_unwind set_asyncify log store MU32].
  rewrite MU32_get_set_eq by exact Hmem. f_equal.
  destruct i as [e u sz | c | to | | | ms]; try discriminate Hi; cbn [wake_code];
    try reflexivity.
  specialize (Hms ms eq_refl). rewrite clamp_max. unfold SleepingFor.
  apply ToUint32_small. lia.
Qed.

(** The dispatcher on a suspended coroutine whose wake has come. *)
Lemma CoroHandler_resume fuel s h i k body ev :
  JS.truthy (main_data s) = true ->
  coro_current s = Some h ->
  MU32_get (MU32 s) (nptr s) = Some 2 ->
  dispatch_target s = Some (body, ev) ->
  saved s !! JS.ToInt32 h = Some (Call i k) ->
  suspends i = true ->
  CoroHandler (S fuel) s = CoroHandler fuel (run (k 0) (resumed ev s)).
Proof.
  intros Hmd Hcur Hw Ht Hsv Hi. cbn [CoroHandler].
  rewrite (CoroHandler_turn_dispatch s 2 Hw (or_intror eq_refl)), Ht. cbv zeta.
  cbn [Z.eqb Pos.eqb].
  set (pre := log ev (ASM_asyncify_start_rewind (coro_current s) (ASM_asyncify_stop_unwind s))).
  assert (Hpre : materialize pre = pre) by (apply materialize_done; exact Hmd).
  assert (Hw' : MU32_get (MU32 (materialize pre)) (nptr (materialize pre)) = Some 2)
    by (rewrite Hpre; exact Hw).
  unfold call_wasm.
  replace (asyncify pre) with (Rewinding (JS.ToInt32 h))
    by (unfold pre; cbn; rewrite Hcur; reflexivity).
  change (saved pre) with (saved s). rewrite Hsv. cbn [run].
  rewrite (import_replay i pre Hi Hw'), Hpre. reflexivity.
Qed.

(** X2. When the dispatcher finds the cursor on a suspended coroutine
    (wake state 2) whose call chain was captured at a suspension point, it
    stops the unwind, starts the rewind on the handle and calls the export;
    the replayed suspension point stores wake state 0, stops the rewind and
    returns, so the coroutine goes on right behind it, in the same
    invocation of the dispatcher, with the cursor still on it. *)
Theorem dispatcher_resumes_behind_suspension_point
    (fuel : nat) (s : State) (h : Z) (i : Import) (k : Z -> Prog)
    (body : Prog) (ev : Event) :
  JS.truthy (main_data s) = true ->
  coro_current s = Some h ->
  MU32_get (MU32 s) (nptr s) = Some ResumingAfterSwitch ->
  dispatch_target s = Some (body, ev) ->
  saved s !! JS.ToInt32 h = Some (Call i k) ->
  suspends i = true ->
  CoroHandler (S fuel) s = CoroHandler fuel (run (k 0) (resumed ev s)) /\
  trace (resumed ev s) =
    trace s ++ [EvStopUnwind; EvStartRewind (JS.ToInt32 h); ev; EvStopRewind] /\
  asyncify (resumed ev s) = Normal /\
  coro_current (resumed ev s) = Some h /\
  MU32_get (MU32 (resumed ev s)) (nptr (resumed ev s)) = Some Ended /\
  saved (resumed ev s) = saved s.
Proof.
  intros Hmd Hcur Hw Ht Hsv Hi.
  split; [eapply CoroHandler_resume; eassumption |].
  unfold resumed, nptr in *. cbn [ASM_asyncify_stop_rewind ASM_asyncify_start_rewind
    ASM_asyncify_stop_unwind set_asyncify log store trace asyncify coro_current MU32 saved].
  rewrite Hcur in *. cbn [JS.num].
  repeat split.
  - rewrite <- !app_assoc. reflexivity.
  - rewrite MU32_get_set_eq; [reflexivity |]. rewrite Hw. eauto.
Qed.

(** [dispatch_target] reads the cursor, the two words before the wake
    state, [coro_asms] and [org_main], and nothing else. *)
Lemma dispatch_target_fields s s' :
  coro_current s' = coro_current s ->
  MU32_get (MU32 s') (nptr s - 2) = MU32_get (MU32 s) (nptr s - 2) ->
  MU32_get (MU32 s') (nptr s - 1) = MU32_get (MU32 s) (nptr s - 1) ->
  coro_asms s' = coro_asms s -> org_main s' = org_main s ->
  dispatch_target s' = dispatch_target s.
Proof.
  intros Hc H2 H1 Ha Ho. unfold dispatch_target, nptr. rewrite Hc.
  unfold nptr in H2, H1. rewrite H2, H1, Ha, Ho. reflexivity.
Qed.

(** The wake state that a suspension point stores, as the array keeps it. *)
Lemma wake_code_raw i :
  match i with
  | Sleep ms => 5 + (if ms <? 0 then 0 else ms)
  | _ => wake_code i
  end = wake_code i.
Proof. destruct i; try reflexivity. cbn [wake_code]. rewrite clamp_max. reflexivity. Qed.

Lemma wake_code_stored i :
  suspends i = true -> (forall ms, i = Sleep ms -> - 2 ^ 31 <= ms < 2 ^ 31) ->
  JS.ToUint32 (wake_code i) = wake_code i.
Proof.
  intros Hi Hms. destruct i as [e u sz | c | to | | | ms]; try discriminate Hi;
    cbn [wake_code]; try reflexivity.
  specialize (Hms ms eq_refl). unfold SleepingFor. apply ToUint32_small. lia.
Qed.

(** A suspension point called by the coroutine under the cursor, once
    MainContext exists. *)
Lemma run_suspend i k s h :
  suspends i = true -> (forall ms, i = Sleep ms -> - 2 ^ 31 <= ms < 2 ^ 31) ->
  JS.truthy (main_data s) = true -> coro_current s = Some h ->
  is_Some (MU32_get (MU32 s) (nptr s)) -> MU32_get (MU32 s) (nptr s) <> Some 2 ->
  let s1 := run (Call i k) s in
  coro_current s1 = cursor_after i s /\ main_data s1 = main_data s /\
  MU32 s1 = MU32_set (MU32 s) (nptr s) (wake_code i) /\
  MU32_get (MU32 s1) (nptr s) = Some (wake_code i) /\
  asyncify s1 = Unwinding (JS.ToInt32 h) /\
  saved s1 = <[ JS.ToInt32 h := Call i k ]> (saved s) /\
  trace s1 = trace s ++ [EvStartUnwind (JS.ToInt32 h)] /\
  coro_asms s1 = coro_asms s /\ org_main s1 = org_main s.
Proof.
  intros Hi Hms Hmd Hcur Hmem Hne s1.
  pose proof (materialize_done s Hmd) as Hmat.
  assert (Hne' : MU32_get (MU32 (materialize s)) (nptr (materialize s)) <> Some 2)
    by (rewrite Hmat; exact Hne).
  pose proof (import_suspend i s Hi Hne') as Himp. rewrite Hmat in Himp.
  rewrite wake_code_raw in Himp.
  pose proof (wake_code_stored i Hi Hms) as Hcode.
  assert (Hs1 : s1 = save (JS.ToInt32 h) (Call i k) (snd (import i s))).
  { unfold s1. cbn [run]. rewrite Himp. unfold after.
    cbn [asyncify set_coro_current ASM_asyncify_start_unwind set_asyncify snd].
    rewrite Hcur. reflexivity. }
  rewrite Hs1, Himp. cbn [snd save set_coro_current ASM_asyncify_start_unwind
    set_asyncify log store MU32 coro_current main_data asyncify saved trace coro_asms
    org_main]. rewrite Hcur. cbn [JS.num]. repeat split.
  rewrite MU32_get_set_eq by exact Hmem. rewrite Hcode. reflexivity.
Qed.

(** A wait, its wake source and the resumption. *)
Lemma wait_round_trip i k s h body ev f1 f2 :
  suspends i = true -> (forall to, i <> Switch to) ->
  (forall ms, i = Sleep ms -> - 2 ^ 31 <= ms < 2 ^ 31) ->
  JS.truthy (main_data s) = true -> coro_current s = Some h ->
  is_Some (MU32_get (MU32 s) (nptr s)) -> MU32_get (MU32 s) (nptr s) <> Some 2 ->
  dispatch_target s = Some (body, ev) ->
  let s1 := run (Call i k) s in
  let s2 := store (nptr s) 2 (log (wake_source (wake_code i)) s1) in
  CoroHandler (S f1) s1 = (Returned, s2) /\
  trace s2 = trace s ++ [EvStartUnwind (JS.ToInt32 h); wake_source (wake_code i)] /\
  CoroHandler (S f2) s2 = CoroHandler f2 (run (k 0) (resumed ev s2)) /\
  trace (resumed ev s2) =
    trace s2 ++ [EvStopUnwind; EvStartRewind (JS.ToInt32 h); ev; EvStopRewind].
Proof.
  intros Hi Hns Hms Hmd Hcur Hmem Hne Ht s1 s2.
  destruct (run_suspend i k s h Hi Hms Hmd Hcur Hmem Hne)
    as (Hc1 & Hd1 & Hm1 & Hw1 & Ha1 & Hsv1 & Htr1 & Hasm1 & Ho1). fold s1 in Hc1, Hd1, Hm1,
    Hw1, Ha1, Hsv1, Htr1, Hasm1, Ho1.
  assert (Hc1' : coro_current s1 = coro_current s).
  { rewrite Hc1. destruct i; try reflexivity. exfalso. eapply Hns. reflexivity. }
  assert (Hn1 : nptr s1 = nptr s) by (unfold nptr; rewrite Hc1'; reflexivity).
  assert (Hgt : 2 < wake_code i).
  { destruct i as [e u sz | c | to | | | ms]; try discriminate Hi; cbn [wake_code];
      unfold WaitingForFrame, WaitingForImmediateYield, SleepingFor; try lia.
    exfalso. eapply Hns. reflexivity. }
  assert (Hturn : CoroHandler (S f1) s1 = (Returned, s2)).
  { cbn [CoroHandler]. rewrite (CoroHandler_turn_pending s1 (wake_code i)); [| | exact Hgt].
    - rewrite Hn1. reflexivity.
    - rewrite Hn1. exact Hw1. }
  assert (Hc2 : coro_current s2 = Some h)
    by (change (coro_current s2) with (coro_current s1); congruence).
  assert (Hn2 : nptr s2 = nptr s) by (unfold nptr; rewrite Hc2, Hcur; reflexivity).
  assert (Hm2 : MU32 s2 = MU32_set (MU32 s1) (nptr s) 2) by reflexivity.
  assert (Hw2 : MU32_get (MU32 s2) (nptr s2) = Some 2).
  { rewrite Hn2, Hm2, MU32_get_set_eq; [reflexivity | rewrite Hw1; eauto]. }
  assert (Ht2 : dispatch_target s2 = Some (body, ev)).
  { rewrite <- Ht. apply dispatch_target_fields.
    - congruence.
    - rewrite Hm2, Hm1, !MU32_get_set_ne by lia. reflexivity.
    - rewrite Hm2, Hm1, !MU32_get_set_ne by lia. reflexivity.
    - exact Hasm1.
    - exact Ho1. }
  assert (Hsv2 : saved s2 !! JS.ToInt32 h = Some (Call i k)).
  { change (saved s2) with (saved s1). rewrite Hsv1. apply lookup_insert_eq. }
  assert (Hmd2 : JS.truthy (main_data s2) = true).
  { change (main_data s2) with (main_data s1). rewrite Hd1. exact Hmd. }
  split; [exact Hturn |]. split.
  - unfold s2. cbn [store log trace]. rewrite Htr1, <- app_assoc. reflexivity.
  - split; [eapply CoroHandler_resume; eassumption |].
    unfold resumed. cbn [ASM_asyncify_stop_rewind ASM_asyncify_start_rewind
      ASM_asyncify_stop_unwind set_asyncify log store trace].
    rewrite Hc2. cbn [JS.num]. rewrite <- !app_assoc. reflexivity.
Qed.

(** X3. A coroutine that calls [WaCoroWaitAnimFrame], [WaCoroYield] or
    [WaCoroSleep] is parked for exactly one wake source: the dispatcher
    that runs when the export has unwound arms the source of that wait
    (animation frame, posted message, timer of [max(ms,0)] ms) and returns,
    and the next invocation of the dispatcher rewinds the coroutine, which
    goes on right behind the call. *)
Theorem wait_parks_until_wake_source
    (i : Import) (k : Z -> Prog) (s : State) (h : Z) (body : Prog) (ev : Event)
    (f1 f2 : nat) :
  let s1 := run (Call i k) s in
  let s2 := store (nptr s) 2 (log (wake_source (wake_code i)) s1) in
  i = WaitAnimFrame \/ i = Yield \/ (exists ms, i = Sleep ms /\ - 2 ^ 31 <= ms < 2 ^ 31) ->
  JS.truthy (main_data s) = true -> coro_current s = Some h ->
  is_Some (MU32_get (MU32 s) (nptr s)) ->
  MU32_get (MU32 s) (nptr s) <> Some ResumingAfterSwitch ->
  dispatch_target s = Some (body, ev) ->
  CoroHandler (S f1) s1 = (Returned, s2) /\
  trace s2 = trace s ++ [EvStartUnwind (JS.ToInt32 h); wake_source (wake_code i)] /\
  CoroHandler (S f2) s2 = CoroHandler f2 (run (k 0) (resumed ev s2)) /\
  trace (resumed ev s2) =
    trace s2 ++ [EvStopUnwind; EvStartRewind (JS.ToInt32 h); ev; EvStopRewind].
Proof.
  intros s1 s2 Hi Hmd Hcur Hmem Hne Ht.
  apply (wait_round_trip i k s h body ev f1 f2); try assumption.
  - destruct Hi as [-> | [-> | (ms & -> & _)]]; reflexivity.
  - intros to. destruct Hi as [-> | [-> | (ms & -> & _)]]; discriminate.
  - intros ms Hms. destruct Hi as [-> | [-> | (ms' & -> & Hr)]]; try discriminate.
    injection Hms as <-. exact Hr.
Qed.

(** X4. The message listener resumes a coroutine parked by [WaCoroYield]
    when the message posted for it (the number 9) arrives, and any other
    message leaves the scheduler as it is. *)
Theorem posted_message_resumes_yield
    (k : Z -> Prog) (s : State) (h : Z) (body : Prog) (ev : Event)
    (data : JS.val) (f1 f2 : nat) :
  let s1 := run (Call Yield k) s in
  let s2 := store (nptr s) 2 (log EvPostMessage s1) in
  JS.truthy (main_data s) = true -> coro_current s = Some h ->
  is_Some (MU32_get (MU32 s) (nptr s)) ->
  MU32_get (MU32 s) (nptr s) <> Some ResumingAfterSwitch ->
  dispatch_target s = Some (body, ev) ->
  data <> Some 9 ->
  CoroHandler (S f1) s1 = (Returned, s2) /\
  on_message data (S f2) s2 = (Returned, s2) /\
  on_message (Some 9) (S f2) s2 = CoroHandler f2 (run (k 0) (resumed ev s2)).
Proof.
  intros s1 s2 Hmd Hcur Hmem Hne Ht Hdata.
  destruct (wait_round_trip Yield k s h body ev f1 f2 eq_refl
              ltac:(discriminate) ltac:(discriminate) Hmd Hcur Hmem Hne Ht)
    as (H1 & _ & H2 & _).
  split; [exact H1 |]. split; [| exact H2].
  unfold on_message. destruct data as [z |]; cbn [JS.eqn]; [| reflexivity].
  destruct (Z.eqb_spec z 9) as [-> | Hz]; [congruence | reflexivity].
Qed.

(** X5. A [WaCoroSwitch] whose target is the caller itself (its own
    handle, or null when the caller is MainContext) is a round trip within
    one invocation of the dispatcher: the caller is unwound, found again
    with wake state 2, rewound, and goes on right behind the call. *)
Theorem switch_to_self_resumes_at_once
    (to : Z) (k : Z -> Prog) (s : State) (h : Z) (body : Prog) (ev : Event)
    (fuel : nat) :
  let s1 := run (Call (Switch to) k) s in
  JS.truthy (main_data s) = true -> coro_current s = Some h ->
  JS.or (Some to) (main_data s) = Some h ->
  is_Some (MU32_get (MU32 s) (nptr s)) ->
  MU32_get (MU32 s) (nptr s) <> Some ResumingAfterSwitch ->
  dispatch_target s = Some (body, ev) ->
  CoroHandler (S fuel) s1 = CoroHandler fuel (run (k 0) (resumed ev s1)) /\
  trace (resumed ev s1) =
    trace s ++ [EvStartUnwind (JS.ToInt32 h); EvStopUnwind;
                EvStartRewind (JS.ToInt32 h); ev; EvStopRewind] /\
  coro_current (resumed ev s1) = Some h /\
  MU32_get (MU32 (resumed ev s1)) (nptr s) = Some Ended.
Proof.
  intros s1 Hmd Hcur Hto Hmem Hne Ht.
  destruct (run_suspend (Switch to) k s h eq_refl ltac:(discriminate) Hmd Hcur Hmem Hne)
    as (Hc1 & Hd1 & Hm1 & Hw1 & Ha1 & Hsv1 & Htr1 & Hasm1 & Ho1). fold s1 in Hc1, Hd1, Hm1,
    Hw1, Ha1, Hsv1, Htr1, Hasm1, Ho1.
  cbn [cursor_after] in Hc1. rewrite Hto in Hc1.
  assert (Hn1 : nptr s1 = nptr s) by (unfold nptr; rewrite Hc1, Hcur; reflexivity).
  assert (Ht1 : dispatch_target s1 = Some (body, ev)).
  { rewrite <- Ht. apply dispatch_target_fields.
    - congruence.
    - rewrite Hm1, MU32_get_set_ne by lia. reflexivity.
    - rewrite Hm1, MU32_get_set_ne by lia. reflexivity.
    - exact Hasm1.
    - exact Ho1. }
  split.
  - eapply CoroHandler_resume.
    + rewrite Hd1. exact Hmd.
    + exact Hc1.
    + rewrite Hn1. exact Hw1.
    + exact Ht1.
    + rewrite Hsv1. apply lookup_insert_eq.
    + reflexivity.
  - unfold resumed. cbn [ASM_asyncify_stop_rewind ASM_asyncify_start_rewind
      ASM_asyncify_stop_unwind set_asyncify log store trace coro_current MU32].
    unfold nptr. cbn [log ASM_asyncify_start_rewind ASM_asyncify_stop_unwind set_asyncify
      coro_current]. rewrite Hc1, Htr1. cbn [JS.num]. rewrite <- !app_assoc.
    split; [reflexivity |]. split; [reflexivity |].
    unfold nptr. rewrite Hcur. rewrite MU32_get_set_eq; [reflexivity |].
    unfold nptr in Hw1. rewrite Hcur in Hw1. rewrite Hw1. eauto.
Qed.

(** ** Handles that cannot run *)

(** X6. A [WaCoroSwitch] to a handle whose wake state reads 0 or
    [undefined] (a control block outside the memory, or zeroed memory)
    parks the caller for good: the caller is unwound and marked as
    resuming, the cursor is on the dead handle, and this and every later
    invocation of the dispatcher returns at once without a call. *)
Theorem switch_to_dead_handle_halts
    (to : Z) (k : Z -> Prog) (s : State) (h : Z) (fuel : nat) :
  let s1 := run (Call (Switch to) k) s in
  JS.truthy (main_data s) = true -> coro_current s = Some h ->
  is_Some (MU32_get (MU32 s) (nptr s)) ->
  MU32_get (MU32 s) (nptr s) <> Some ResumingAfterSwitch ->
  to <> 0 -> nptr s <> JS.sar (Some to) 2 + 4 ->
  JS.truthy (wake_state to s) = false ->
  coro_current s1 = Some to /\
  MU32_get (MU32 s1) (nptr s) = Some ResumingAfterSwitch /\
  trace s1 = trace s ++ [EvStartUnwind (JS.ToInt32 h)] /\
  CoroHandler (S fuel) s1 = (Returned, s1).
Proof.
  intros s1 Hmd Hcur Hmem Hne Hto Hother Hdead.
  destruct (run_suspend (Switch to) k s h eq_refl ltac:(discriminate) Hmd Hcur Hmem Hne)
    as (Hc1 & _ & Hm1 & Hw1 & _ & _ & Htr1 & _). fold s1 in Hc1, Hm1, Hw1, Htr1.
  cbn [cursor_after] in Hc1.
  assert (Hor : JS.or (Some to) (main_data s) = Some to).
  { unfold JS.or. cbn [JS.truthy]. destruct (Z.eqb_spec to 0); [contradiction | reflexivity]. }
  rewrite Hor in Hc1.
  split; [exact Hc1 |]. split; [exact Hw1 |]. split; [exact Htr1 |].
  cbn [CoroHandler]. unfold CoroHandler_turn.
  assert (Hn : MU32_get (MU32 s1) (nptr s1) = wake_state to s).
  { unfold nptr, wake_state. rewrite Hc1, Hm1. apply MU32_get_set_ne. exact Hother. }
  rewrite Hn, Hdead. reflexivity.
Qed.

(** X7. [WaCoroInitNew] accepts a name that the module does not export:
    it registers the name and returns a handle with wake state 1 all the
    same.  The failure shows only when the dispatcher comes to that handle:
    it stops the unwind and then throws on the call, without having called
    anything. *)
Theorem missing_export_throws_at_dispatch (e u sz : Z) (s s2 : State) (fuel : nat) :
  let res := fst (WaCoroInitNew e u sz s) in
  let s1 := snd (WaCoroInitNew e u sz s) in
  let ptr := JS.sar (Some res) 2 in
  let fn := fn_index_of e s in
  0 <= ptr -> is_Some (MU32_get (MU32 s) (ptr + 4)) ->
  registry_ok s -> coro_count s < 2 ^ 32 - 1 ->
  ASM_export e = None ->
  coro_current s2 = Some res ->
  MU32_get (MU32 s2) (ptr + 2) = MU32_get (MU32 s1) (ptr + 2) ->
  MU32_get (MU32 s2) (ptr + 4) = MU32_get (MU32 s1) (ptr + 4) ->
  coro_asms s2 !! fn = coro_asms s1 !! fn ->
  wake_state res s1 = Some Entering /\
  coro_asms s1 !! fn = Some (AsmExport e) /\
  CoroHandler (S fuel) s2 = (Threw, ASM_asyncify_stop_unwind s2) /\
  trace (ASM_asyncify_stop_unwind s2) = trace s2 ++ [EvStopUnwind].
Proof.
  intros res s1 ptr fn Hptr Hmem Hreg Hcnt Hexp Hcur H2 H4 Hasm.
  destruct (WaCoroInitNew_effect e u sz s) as (Hres & _).
  cbv zeta in Hres. fold res in Hres.
  pose proof (WaCoroInitNew_block e u sz s) as Hb. cbv zeta in Hb.
  rewrite <- Hres in Hb. fold ptr s1 fn in Hb.
  destruct (Hb Hptr Hmem Hreg Hcnt) as (B4 & _ & B2 & Hfn & Hasm1).
  rewrite B2 in H2. rewrite B4 in H4. rewrite Hasm1 in Hasm.
  assert (Hn : nptr s2 = ptr + 4) by (unfold nptr; rewrite Hcur; reflexivity).
  split; [exact B4 |]. split; [exact Hasm1 |]. split; [| reflexivity].
  cbn [CoroHandler].
  rewrite (CoroHandler_turn_dispatch s2 1) by (rewrite ?Hn; auto).
  unfold dispatch_target. rewrite Hn. replace (ptr + 4 - 2) with (ptr + 2) by lia.
  rewrite H2. cbn [JS.truthy JS.num]. destruct (Z.eqb_spec fn 0); [lia |]. cbn [negb].
  rewrite Hasm, Hexp. reflexivity.
Qed.

(** ** The registry of entry functions *)

Lemma registry_extends_refl s : registry_ok s -> registry_extends s s.
Proof.
  intros Hok. split; [exact Hok |]. split; [lia |].
  intros p v Hp. split; [exact Hp | apply (proj2 Hok p v Hp)].
Qed.

Lemma registry_extends_trans s s' s'' :
  registry_extends s s' -> registry_extends s' s'' -> registry_extends s s''.
Proof.
  intros (_ & Hc & Hk) (Hok & Hc' & Hk'). split; [exact Hok |]. split; [lia |].
  intros p v Hp. destruct (Hk p v Hp) as [Hp' _]. apply Hk'. exact Hp'.
Qed.

(** Only the registry matters. *)
Lemma registry_extends_fields s s' :
  coro_count s' = coro_count s -> coro_nums s' = coro_nums s ->
  coro_asms s' = coro_asms s -> registry_ok s -> registry_extends s s'.
Proof.
  intros Hc Hn Ha Hok.
  assert (Hok' : registry_ok s') by (unfold registry_ok; rewrite Hc, Hn, Ha; exact Hok).
  split; [exact Hok' |]. split; [lia |].
  intros p v Hp. rewrite Hn, Ha. split; [exact Hp | apply (proj2 Hok p v Hp)].
Qed.

Lemma register_extends e s :
  registry_ok s -> coro_nums s !! e = None -> registry_extends s (register e s).
Proof.
  intros [Hcnt Hreg] Hnone. split; [| split].
  - split; [cbn; lia |]. intros p v. cbn [register coro_nums coro_asms coro_count].
    rewrite lookup_insert. destruct (decide (e = p)) as [-> | Hne].
    + intros [= <-]. split; [lia | apply lookup_insert_eq].
    + intros Hp. destruct (Hreg p v Hp) as [Hv Ha]. split; [lia |].
      rewrite lookup_insert_ne by lia. exact Ha.
  - cbn; lia.
  - intros p v Hp. destruct (Hreg p v Hp) as [Hv Ha].
    cbn [register coro_nums coro_asms]. split.
    + rewrite lookup_insert_ne; [exact Hp | congruence].
    + rewrite lookup_insert_ne by lia. exact Ha.
Qed.

Lemma CoroCtxSwitch_registry n s :
  coro_count (snd (CoroCtxSwitch n s)) = coro_count s /\
  coro_nums (snd (CoroCtxSwitch n s)) = coro_nums s /\
  coro_asms (snd (CoroCtxSwitch n s)) = coro_asms s.
Proof.
  assert (Hm : coro_count (materialize s) = coro_count s /\
               coro_nums (materialize s) = coro_nums s /\
               coro_asms (materialize s) = coro_asms s).
  { unfold materialize. destruct (negb (JS.truthy (main_data s))); [| auto].
    destruct (ASM_malloc_state (20 + WASM_STACK_SIZE) (set_org_main ASM_main s))
      as (_ & _ & _ & Hc & Hn & Ha & _).
    destruct (ASM_malloc (20 + WASM_STACK_SIZE) (set_org_main ASM_main s)) as [p s1].
    cbn [snd] in *. cbn. auto. }
  unfold CoroCtxSwitch.
  destruct (JS.eqn (MU32_get (MU32 (materialize s)) (nptr (materialize s))) 2);
    cbn; exact Hm.
Qed.

Lemma WaCoroInitNew_registry e u sz s :
  registry_ok s -> registry_extends s (snd (WaCoroInitNew e u sz s)).
Proof.
  intros Hok.
  destruct (WaCoroInitNew_effect e u sz s)
    as (_ & _ & _ & _ & _ & _ & _ & _ & Ha & Hn & Hc & _). cbv zeta in Ha, Hn, Hc.
  destruct (coro_nums s !! e) as [v |] eqn:Hv.
  - destruct (proj2 Hok e v Hv) as [Hpos _].
    assert (Ht : JS.truthy (Some v) = true)
      by (cbn; destruct (Z.eqb_spec v 0); [lia | reflexivity]).
    rewrite Ht in Ha, Hn, Hc. apply registry_extends_fields; assumption.
  - cbn [JS.truthy] in Ha, Hn, Hc.
    pose proof (register_extends e s Hok Hv) as (Hok' & Hc' & Hk').
    split; [| split].
    + unfold registry_ok. rewrite Hc, Hn, Ha. exact Hok'.
    + rewrite Hc. lia.
    + intros p v Hp. rewrite Hn, Ha. apply Hk'. exact Hp.
Qed.

Lemma import_registry i s : registry_ok s -> registry_extends s (snd (import i s)).
Proof.
  intros Hok. destruct i as [e u sz | c | to | | | ms]; cbn [import snd].
  - apply WaCoroInitNew_registry. exact Hok.
  - apply registry_extends_fields; try reflexivity. exact Hok.
  - unfold WaCoroSwitch. destruct (CoroCtxSwitch_registry 2 s) as (Hc & Hn & Ha).
    destruct (CoroCtxSwitch 2 s) as [b s']. cbn [snd] in *.
    destruct b; apply registry_extends_fields; assumption.
  - destruct (CoroCtxSwitch_registry 3 s) as (Hc & Hn & Ha).
    apply registry_extends_fields; assumption.
  - destruct (CoroCtxSwitch_registry 4 s) as (Hc & Hn & Ha).
    apply registry_extends_fields; assumption.
  - destruct (CoroCtxSwitch_registry (5 + (if ms <? 0 then 0 else ms)) s) as (Hc & Hn & Ha).
    apply registry_extends_fields; assumption.
Qed.

Lemma run_registry p : forall s, registry_ok s -> registry_extends s (run p s).
Proof.
  induction p as [| msg k IH | i k IH]; intros s Hok.
  - apply registry_extends_refl. exact Hok.
  - cbn [run]. eapply registry_extends_trans; [| apply IH].
    + apply registry_extends_fields; try reflexivity. exact Hok.
    + exact Hok.
  - cbn [run]. pose proof (import_registry i s Hok) as Himp.
    destruct (import i s) as [res s']. cbn [snd] in Himp. unfold after.
    destruct (asyncify s') as [| d | d].
    + eapply registry_extends_trans; [exact Himp | apply IH; apply Himp].
    + eapply registry_extends_trans; [exact Himp |].
      apply registry_extends_fields; try reflexivity. apply Himp.
    + eapply registry_extends_trans; [exact Himp | apply IH; apply Himp].
Qed.

Lemma call_wasm_registry body s : registry_ok s -> registry_extends s (call_wasm body s).
Proof.
  intros Hok. unfold call_wasm. destruct (asyncify s) as [| d | d];
    try (apply run_registry; exact Hok).
  destruct (saved s !! d); [apply run_registry; exact Hok | apply registry_extends_refl; exact Hok].
Qed.

Lemma CoroHandler_turn_registry s :
  registry_ok s ->
  match CoroHandler_turn s with
  | Returns s' | Throws s' | Loops s' => registry_extends s s'
  end.
Proof.
  intros Hok. unfold CoroHandler_turn. set (n := MU32_get (MU32 s) (nptr s)).
  destruct (negb (JS.truthy n)); [apply registry_extends_refl; exact Hok |].
  destruct (JS.eqn n 3), (JS.eqn n 4), (JS.gtn n 4), (JS.gtn n 2), (JS.eqn n 2);
    try (apply registry_extends_fields; [reflexivity | reflexivity | reflexivity | exact Hok]);
    (match goal with |- context [JS.truthy ?f] => destruct (JS.truthy f) end;
     [ match goal with
       | |- context [coro_asms ?x !! ?i] => destruct (coro_asms x !! i) as [[| e] |]
       end;
       try (apply registry_extends_fields; [reflexivity | reflexivity | reflexivity | exact Hok]);
       destruct (ASM_export e) as [b |];
       try (apply registry_extends_fields; [reflexivity | reflexivity | reflexivity | exact Hok])
     | match goal with
       | |- context [org_main ?x] => destruct (org_main x) as [b |]
       end;
       try (apply registry_extends_fields; [reflexivity | reflexivity | reflexivity | exact Hok])
     ]);
    (eapply registry_extends_trans;
     [| apply call_wasm_registry ];
     [ apply registry_extends_fields; [reflexivity | reflexivity | reflexivity | exact Hok]
     | unfold registry_ok; exact Hok ]).
Qed.

Lemma CoroHandler_registry fuel : forall s,
  registry_ok s -> registry_extends s (snd (CoroHandler fuel s)).
Proof.
  induction fuel as [| fuel IH]; intros s Hok.
  - apply registry_extends_refl. exact Hok.
  - cbn [CoroHandler]. pose proof (CoroHandler_turn_registry s Hok) as Ht.
    destruct (CoroHandler_turn s) as [s' | s' | s']; try exact Ht.
    eapply registry_extends_trans; [exact Ht | apply IH; apply Ht].
Qed.

(** X8. The registry of entry functions only grows, and stays in order:
    whatever import is called, whatever code runs and however long the
    dispatcher loops, [coro_count] does not go down, every registered name
    keeps its index, and under that index [coro_asms] keeps its export (no
    entry is overwritten or removed, not even by [WaCoroFree]). *)
Theorem registry_only_grows (s : State) (i : Import) (p : Prog) (fuel : nat) :
  registry_ok s ->
  registry_extends s (snd (import i s)) /\
  registry_extends s (run p s) /\
  registry_extends s (snd (CoroHandler fuel s)).
Proof.
  intros Hok. split; [apply import_registry; exact Hok |].
  split; [apply run_registry; exact Hok | apply CoroHandler_registry; exact Hok].
Qed.


(** ** MainContext when the allocation fails *)

(** X10. When [malloc] answers null to the first suspension point, the
    control block of MainContext is written at address 0 and [main_data]
    stays falsy, so the next suspension point takes the same path again and
    asks [malloc] once more. *)
Theorem MainContext_allocation_is_retried (i : Import) (s : State) :
  let s1 := snd (import i s) in
  suspends i = true ->
  (forall ms, i = Sleep ms -> - 2 ^ 31 <= ms < 2 ^ 31) ->
  JS.truthy (main_data s) = false ->
  hd 0 (malloc_oracle s) = 0 ->
  is_Some (MU32_get (MU32 s) 4) ->
  main_data s1 = Some 0 /\
  JS.truthy (main_data s1) = false /\
  MU32_get (MU32 s1) 4 = Some (wake_code i) /\
  trace s1 = trace s ++ [EvMalloc (20 + WASM_STACK_SIZE); EvStartUnwind 0] /\
  trace (materialize s1) = trace s1 ++ [EvMalloc (20 + WASM_STACK_SIZE)].
Proof.
  intros s1 Hi Hms Hmd Hnull Hmem.
  destruct (materialize_first s Hmd) as (Hd & Hc & _ & Htr & _ & _).
  rewrite Hnull in Hd, Hc.
  assert (Hn0 : nptr (materialize s) = 4) by (unfold nptr; rewrite Hc; reflexivity).
  assert (Hlen : length (MU32 (materialize s)) = length (MU32 s)).
  { unfold materialize. rewrite Hmd. cbn [negb].
    destruct (ASM_malloc_state (20 + WASM_STACK_SIZE) (set_org_main ASM_main s))
      as (Hm & _).
    destruct (ASM_malloc (20 + WASM_STACK_SIZE) (set_org_main ASM_main s)) as [p s'].
    cbn [snd] in Hm. cbn [store set_main_data MU32]. rewrite !MU32_set_length, Hm.
    reflexivity. }
  assert (Hmem0 : is_Some (MU32_get (MU32 (materialize s)) 4)).
  { apply MU32_get_is_Some. rewrite Hlen. apply MU32_get_is_Some. exact Hmem. }
  assert (Hw0 : MU32_get (MU32 (materialize s)) 4 = Some 0).
  { unfold materialize. rewrite Hmd. cbn [negb].
    pose proof (ASM_malloc_result (20 + WASM_STACK_SIZE) (set_org_main ASM_main s)) as Hr.
    destruct (ASM_malloc_state (20 + WASM_STACK_SIZE) (set_org_main ASM_main s))
      as (Hm & _).
    destruct (ASM_malloc (20 + WASM_STACK_SIZE) (set_org_main ASM_main s)) as [p s'].
    cbn [fst snd] in Hr, Hm. cbn [malloc_oracle set_org_main] in Hr. rewrite Hnull in Hr.
    subst p. cbn [store set_main_data MU32 main_data].
    change (JS.sar (Some 0) 2 + 4) with 4. rewrite MU32_get_set_eq; [reflexivity |].
    apply MU32_get_is_Some. rewrite !MU32_set_length, Hm. apply MU32_get_is_Some.
    exact Hmem. }
  assert (Hne : MU32_get (MU32 (materialize s)) (nptr (materialize s)) <> Some 2)
    by (rewrite Hn0, Hw0; discriminate).
  assert (Hs1 : s1 = set_coro_current (cursor_after i (materialize s))
                  (ASM_asyncify_start_unwind (coro_current (materialize s))
                     (store 4 (wake_code i) (materialize s)))).
  { unfold s1. rewrite (import_suspend i s Hi Hne), wake_code_raw, Hn0. reflexivity. }
  assert (Hd1 : main_data s1 = Some 0) by (rewrite Hs1; exact Hd).
  split; [exact Hd1 |]. split; [rewrite Hd1; reflexivity |]. split; [| split].
  - rewrite Hs1. cbn [set_coro_current ASM_asyncify_start_unwind set_asyncify log store MU32].
    rewrite MU32_get_set_eq by exact Hmem0. f_equal.
    apply wake_code_stored; assumption.
  - rewrite Hs1. cbn [set_coro_current ASM_asyncify_start_unwind set_asyncify log store trace].
    rewrite Hc, Htr, <- app_assoc. reflexivity.
  - apply materialize_first. rewrite Hd1. reflexivity.
Qed.

(** ** The first wait of the main function *)

(** The control block that the first suspension point writes for
    MainContext, when it lies in the memory. *)
Lemma materialize_block s :
  let p := hd 0 (malloc_oracle s) in
  let ptr := JS.sar (Some p) 2 in
  JS.truthy (main_data s) = false ->
  0 <= ptr -> is_Some (MU32_get (MU32 s) (ptr + 4)) ->
  MU32_get (MU32 (materialize s)) (ptr + 2) = Some 0 /\
  MU32_get (MU32 (materialize s)) (ptr + 3) = Some 0 /\
  MU32_get (MU32 (materialize s)) (ptr + 4) = Some 0 /\
  coro_asms (materialize s) = coro_asms s.
Proof.
  intros p ptr Hmd Hptr Hmem. unfold materialize. rewrite Hmd. cbn [negb].
  pose proof (ASM_malloc_result (20 + WASM_STACK_SIZE) (set_org_main ASM_main s)) as Hr.
  destruct (ASM_malloc_state (20 + WASM_STACK_SIZE) (set_org_main ASM_main s))
    as (Hm & _ & _ & _ & _ & Ha & _).
  destruct (ASM_malloc (20 + WASM_STACK_SIZE) (set_org_main ASM_main s)) as [r s'].
  cbn [fst snd] in Hr, Hm, Ha. cbn [malloc_oracle set_org_main] in Hr. fold p in Hr. subst r.
  cbn [store set_main_data MU32 main_data coro_asms]. fold ptr. rewrite Hm.
  cbn [set_org_main MU32 coro_asms] in *. apply MU32_get_is_Some in Hmem.
  repeat split; try exact Ha.
  - rewrite !MU32_get_set_ne by lia. rewrite MU32_get_set_eq; [reflexivity |].
    rewrite MU32_get_is_Some, !MU32_set_length. lia.
  - rewrite MU32_get_set_ne by lia. rewrite MU32_get_set_eq; [reflexivity |].
    rewrite MU32_get_is_Some, !MU32_set_length. lia.
  - rewrite MU32_get_set_eq; [reflexivity |].
    rewrite MU32_get_is_Some, !MU32_set_length. lia.
Qed.

(** A suspension point does the same on a state and on the state with
    MainContext already made. *)
Lemma import_materialized i s :
  suspends i = true ->
  JS.truthy (main_data (materialize s)) = true ->
  import i s = import i (materialize s).
Proof.
  intros Hi Hmd. pose proof (materialize_done _ Hmd) as Hidem.
  assert (Hsw : forall n, CoroCtxSwitch n s = CoroCtxSwitch n (materialize s))
    by (intros n; unfold CoroCtxSwitch; rewrite Hidem; reflexivity).
  destruct i as [e u sz | c | to | | | ms]; try discriminate Hi; cbn [import];
    unfold WaCoroSwitch, WaCoroWaitAnimFrame, WaCoroYield, WaCoroSleep;
    rewrite Hsw; reflexivity.
Qed.

(** X15. The first wait of a program, called by the main function while
    no MainContext exists yet (the usual main loop): the control block of
    MainContext is allocated, the main function is unwound, the dispatcher
    arms the wake source of the wait and returns, and its next invocation
    rewinds the main function through [org_main], which goes on right
    behind the call. *)
Theorem first_wait_of_main
    (i : Import) (k : Z -> Prog) (s : State) (body : Prog) (f1 f2 : nat) :
  let p := hd 0 (malloc_oracle s) in
  let s1 := run (Call i k) s in
  let s2 := store (JS.sar (Some p) 2 + 4) 2 (log (wake_source (wake_code i)) s1) in
  i = WaitAnimFrame \/ i = Yield \/ (exists ms, i = Sleep ms /\ - 2 ^ 31 <= ms < 2 ^ 31) ->
  JS.truthy (main_data s) = false ->
  p <> 0 -> 0 <= JS.sar (Some p) 2 ->
  is_Some (MU32_get (MU32 s) (JS.sar (Some p) 2 + 4)) ->
  ASM_main = Some body ->
  CoroHandler (S f1) s1 = (Returned, s2) /\
  trace s2 =
    trace s ++ [EvMalloc (20 + WASM_STACK_SIZE); EvStartUnwind (JS.ToInt32 p);
                wake_source (wake_code i)] /\
  main_data s2 = Some p /\ coro_current s2 = Some p /\
  CoroHandler (S f2) s2 = CoroHandler f2 (run (k 0) (resumed EvCallMain s2)) /\
  trace (resumed EvCallMain s2) =
    trace s2 ++ [EvStopUnwind; EvStartRewind (JS.ToInt32 p); EvCallMain; EvStopRewind].
Proof.
  intros p s1 s2 Hi Hmd Hp Hptr Hmem Hmain.
  destruct (materialize_first s Hmd) as (Hd0 & Hc0 & Ho0 & Htr0 & _ & _).
  fold p in Hd0, Hc0.
  destruct (materialize_block s Hmd Hptr Hmem) as (B2 & _ & B4 & _).
  fold p in B2, B4. set (s0 := materialize s) in *.
  assert (Hmd0 : JS.truthy (main_data s0) = true).
  { rewrite Hd0. cbn. destruct (Z.eqb_spec p 0); [contradiction | reflexivity]. }
  assert (Hn0 : nptr s0 = JS.sar (Some p) 2 + 4) by (unfold nptr; rewrite Hc0; reflexivity).
  assert (Hsus : suspends i = true)
    by (destruct Hi as [-> | [-> | (ms & -> & _)]]; reflexivity).
  assert (Hrun : s1 = run (Call i k) s0).
  { unfold s1. cbn [run]. rewrite (import_materialized i s Hsus Hmd0). reflexivity. }
  assert (Ht0 : dispatch_target s0 = Some (body, EvCallMain)).
  { unfold dispatch_target. rewrite Hn0.
    replace (JS.sar (Some p) 2 + 4 - 2) with (JS.sar (Some p) 2 + 2) by lia.
    rewrite B2. cbn [JS.truthy Z.eqb negb]. rewrite Ho0, Hmain. reflexivity. }
  assert (Hmem0 : is_Some (MU32_get (MU32 s0) (nptr s0))) by (rewrite Hn0, B4; eauto).
  assert (Hne0 : MU32_get (MU32 s0) (nptr s0) <> Some 2) by (rewrite Hn0, B4; discriminate).
  assert (Hns : forall to, i <> Switch to).
  { intros to. destruct Hi as [-> | [-> | (ms & -> & _)]]; discriminate. }
  assert (Hms : forall ms, i = Sleep ms -> - 2 ^ 31 <= ms < 2 ^ 31).
  { intros ms Hms. destruct Hi as [-> | [-> | (ms' & -> & Hr)]]; try discriminate.
    injection Hms as <-. exact Hr. }
  pose proof (wait_round_trip i k s0 p body EvCallMain f1 f2 Hsus Hns Hms Hmd0 Hc0
                Hmem0 Hne0 Ht0) as Hrt.
  cbv zeta in Hrt. rewrite <- Hrun, Hn0 in Hrt. fold s2 in Hrt.
  destruct Hrt as (H1 & Ht & H2 & Ht2).
  destruct (run_suspend i k s0 p Hsus Hms Hmd0 Hc0 Hmem0 Hne0) as (Hc1 & Hd1 & _).
  rewrite <- Hrun in Hc1, Hd1.
  split; [exact H1 |]. split; [rewrite Ht, Htr0, <- app_assoc; reflexivity |].
  split; [change (main_data s2) with (main_data s1); congruence |].
  split; [| split; [exact H2 | exact Ht2]].
  change (coro_current s2) with (coro_current s1). rewrite Hc1.
  destruct Hi as [-> | [-> | (ms & -> & _)]]; exact Hc0.
Qed.

(** ** A switch into a new coroutine and back *)

Lemma log_all_fields evs : forall s,
  MU32 (log_all evs s) = MU32 s /\ main_data (log_all evs s) = main_data s /\
  coro_current (log_all evs s) = coro_current s /\
  coro_asms (log_all evs s) = coro_asms s /\ org_main (log_all evs s) = org_main s /\
  asyncify (log_all evs s) = asyncify s /\ saved (log_all evs s) = saved s /\
  trace (log_all evs s) = trace s ++ evs.
Proof.
  induction evs as [| e evs IH]; intros s.
  - cbn. rewrite app_nil_r. repeat split; reflexivity.
  - change (log_all (e :: evs) s) with (log_all evs (log e s)).
    destruct (IH (log e s)) as (-> & -> & -> & -> & -> & -> & -> & ->).
    cbn [log MU32 main_data coro_current coro_asms org_main asyncify saved trace].
    rewrite <- app_assoc. repeat split; reflexivity.
Qed.

Lemma run_printing msgs p : forall s,
  run (printing msgs p) s = run p (log_all (map EvPrint msgs) s).
Proof.
  induction msgs as [| msg msgs IH]; intros s; [reflexivity |].
  change (run (printing (msg :: msgs) p) s) with (run (printing msgs p) (log (EvPrint msg) s)).
  rewrite IH. reflexivity.
Qed.

(** X16. A switch from MainContext into a coroutine that has not run yet
    and whose entry function, after printing, switches back to null: in
    one invocation the dispatcher enters the coroutine with a fresh call,
    the coroutine is parked at its switch with wake state 2, and
    MainContext is rewound and goes on right behind its own switch, with
    the cursor back on it. *)
Theorem switch_into_new_coroutine_and_back
    (h : Z) (k k2 : Z -> Prog) (msgs : list string) (s : State)
    (m fn e u : Z) (b : Z -> Prog) (mbody : Prog) (fuel : nat) :
  let hp := JS.sar (Some h) 2 + 4 in
  let s1 := run (Call (Switch h) k) s in
  let entered := log (EvCallExport fn (JS.ToInt32 u)) (ASM_asyncify_stop_unwind s1) in
  let s3 := run (b (JS.ToInt32 u)) entered in
  main_data s = Some m -> coro_current s = Some m -> m <> 0 ->
  is_Some (MU32_get (MU32 s) (nptr s)) ->
  MU32_get (MU32 s) (nptr s) <> Some ResumingAfterSwitch ->
  MU32_get (MU32 s) (nptr s - 2) = Some 0 -> org_main s = Some mbody ->
  h <> 0 -> JS.ToInt32 h <> JS.ToInt32 m ->
  nptr s + 2 < hp \/ hp + 2 < nptr s ->
  MU32_get (MU32 s) hp = Some Entering ->
  MU32_get (MU32 s) (hp - 2) = Some fn -> fn <> 0 ->
  coro_asms s !! fn = Some (AsmExport e) -> ASM_export e = Some b ->
  MU32_get (MU32 s) (hp - 1) = Some u ->
  b (JS.ToInt32 u) = printing msgs (Call (Switch 0) k2) ->
  CoroHandler (S (S fuel)) s1 = CoroHandler fuel (run (k 0) (resumed EvCallMain s3)) /\
  trace (resumed EvCallMain s3) =
    trace s ++ [EvStartUnwind (JS.ToInt32 m); EvStopUnwind; EvCallExport fn (JS.ToInt32 u)]
            ++ map EvPrint msgs
            ++ [EvStartUnwind (JS.ToInt32 h); EvStopUnwind;
                EvStartRewind (JS.ToInt32 m); EvCallMain; EvStopRewind] /\
  coro_current (resumed EvCallMain s3) = Some m /\
  MU32_get (MU32 (resumed EvCallMain s3)) hp = Some ResumingAfterSwitch /\
  saved (resumed EvCallMain s3) !! JS.ToInt32 h = Some (Call (Switch 0) k2).
Proof.
  intros hp s1 entered s3 Hmd Hcur Hm0 Hmem Hne Hfn0 Hmain Hh Hhm Hsep
    Hw Hfn Hfnz Hasm Hexp Hu Hb.
  assert (Hmdt : JS.truthy (main_data s) = true).
  { rewrite Hmd. cbn. destruct (Z.eqb_spec m 0); [contradiction | reflexivity]. }
  (* MainContext switches away *)
  destruct (run_suspend (Switch h) k s m eq_refl ltac:(discriminate) Hmdt Hcur Hmem Hne)
    as (Hc1 & Hd1 & Hm1 & Hw1 & Ha1 & Hsv1 & Htr1 & Hasm1 & Ho1).
  fold s1 in Hc1, Hd1, Hm1, Hw1, Ha1, Hsv1, Htr1, Hasm1, Ho1.
  cbn [cursor_after] in Hc1.
  assert (Hor : JS.or (Some h) (main_data s) = Some h).
  { unfold JS.or. cbn [JS.truthy]. destruct (Z.eqb_spec h 0); [contradiction | reflexivity]. }
  rewrite Hor in Hc1.
  assert (Hn1 : nptr s1 = hp) by (unfold nptr; rewrite Hc1; reflexivity).
  assert (Hg1 : forall j, j <> nptr s -> MU32_get (MU32 s1) j = MU32_get (MU32 s) j).
  { intros j Hj. rewrite Hm1. apply MU32_get_set_ne. congruence. }
  assert (Hwh1 : MU32_get (MU32 s1) (nptr s1) = Some 1) by (rewrite Hn1, Hg1 by lia; exact Hw).
  assert (Ht1 : dispatch_target s1 = Some (b (JS.ToInt32 u), EvCallExport fn (JS.ToInt32 u))).
  { unfold dispatch_target. rewrite Hn1, !Hg1 by lia. rewrite Hfn. cbn [JS.truthy JS.num].
    destruct (Z.eqb_spec fn 0); [contradiction |]. cbn [negb].
    rewrite Hasm1, Hasm, Hexp, Hu. reflexivity. }
  (* the coroutine is entered, prints and switches back *)
  set (e2 := log_all (map EvPrint msgs) entered).
  destruct (log_all_fields (map EvPrint msgs) entered)
    as (Lm & Ld & Lc & La & Lo & Lasy & Lsv & Ltr). fold e2 in Lm, Ld, Lc, La, Lo, Lasy, Lsv, Ltr.
  assert (Hs3 : s3 = run (Call (Switch 0) k2) e2)
    by (unfold s3; rewrite Hb; apply run_printing).
  assert (Hce : coro_current e2 = Some h) by (rewrite Lc; exact Hc1).
  assert (Hne2 : nptr e2 = hp) by (unfold nptr; rewrite Hce; reflexivity).
  assert (Hme : MU32 e2 = MU32 s1) by (rewrite Lm; reflexivity).
  assert (Hmde : JS.truthy (main_data e2) = true).
  { rewrite Ld. change (main_data entered) with (main_data s1). rewrite Hd1. exact Hmdt. }
  assert (Hwe : MU32_get (MU32 e2) (nptr e2) = Some 1) by (rewrite Hne2, Hme, <- Hn1; exact Hwh1).
  destruct (run_suspend (Switch 0) k2 e2 h eq_refl ltac:(discriminate) Hmde Hce
              ltac:(rewrite Hwe; eauto) ltac:(rewrite Hwe; discriminate))
    as (Hc3 & Hd3 & Hm3 & Hw3 & Ha3 & Hsv3 & Htr3 & Hasm3 & Ho3).
  rewrite <- Hs3 in Hc3, Hd3, Hm3, Hw3, Ha3, Hsv3, Htr3, Hasm3, Ho3.
  cbn [cursor_after] in Hc3. rewrite Ld in Hc3, Hd3.
  change (main_data entered) with (main_data s1) in Hc3, Hd3. rewrite Hd1, Hmd in Hc3, Hd3.
  change (JS.or (Some 0) (Some m)) with (Some m) in Hc3.
  rewrite Hne2, Hme in Hm3. rewrite Hne2 in Hw3.
  assert (Hn3 : nptr s3 = nptr s) by (unfold nptr; rewrite Hc3, Hcur; reflexivity).
  assert (Hg3 : forall j, j <> nptr s -> j <> hp -> MU32_get (MU32 s3) j = MU32_get (MU32 s) j).
  { intros j Hj Hj'. rewrite Hm3, MU32_get_set_ne by congruence. apply Hg1. exact Hj. }
  assert (Hwm3 : MU32_get (MU32 s3) (nptr s3) = Some 2).
  { rewrite Hn3, Hm3, MU32_get_set_ne by lia. exact Hw1. }
  assert (Ht3 : dispatch_target s3 = Some (mbody, EvCallMain)).
  { unfold dispatch_target. rewrite Hn3, Hg3 by lia. rewrite Hfn0. cbn [JS.truthy Z.eqb negb].
    rewrite Ho3, Lo. change (org_main entered) with (org_main s1). rewrite Ho1, Hmain.
    reflexivity. }
  assert (Hsvm : saved s3 !! JS.ToInt32 m = Some (Call (Switch h) k)).
  { rewrite Hsv3, lookup_insert_ne by exact Hhm. rewrite Lsv.
    change (saved entered) with (saved s1). rewrite Hsv1. apply lookup_insert_eq. }
  assert (Hmd3 : JS.truthy (main_data s3) = true).
  { rewrite Hd3. cbn. destruct (Z.eqb_spec m 0); [contradiction | reflexivity]. }
  split.
  - change (CoroHandler (S (S fuel)) s1) with
      (match CoroHandler_turn s1 with
       | Returns s' => (Returned, s')
       | Throws s' => (Threw, s')
       | Loops s' => CoroHandler (S fuel) s'
       end).
    rewrite (CoroHandler_turn_dispatch s1 1 Hwh1 (or_introl eq_refl)), Ht1. cbv zeta.
    cbn [Z.eqb Pos.eqb]. fold entered.
    assert (Hcall : call_wasm (b (JS.ToInt32 u)) entered = s3) by reflexivity.
    rewrite Hcall.
    apply (CoroHandler_resume fuel s3 m (Switch h) k mbody EvCallMain Hmd3 Hc3 Hwm3 Ht3 Hsvm
             eq_refl).
  - unfold resumed. cbn [ASM_asyncify_stop_rewind ASM_asyncify_start_rewind
      ASM_asyncify_stop_unwind set_asyncify log store trace coro_current MU32 saved].
    unfold nptr. cbn [log ASM_asyncify_start_rewind ASM_asyncify_stop_unwind set_asyncify
      coro_current]. rewrite Hc3. cbn [JS.num].
    split; [| split; [reflexivity | split]].
    + rewrite Htr3, Ltr. unfold entered.
      cbn [log ASM_asyncify_stop_unwind set_asyncify trace]. rewrite Htr1.
      rewrite <- !app_assoc. reflexivity.
    + rewrite MU32_get_set_ne.
      * exact Hw3.
      * unfold nptr in Hsep. rewrite Hcur in Hsep. cbn [JS.num] in Hsep. fold hp. lia.
    + rewrite Hsv3. apply lookup_insert_eq.
Qed.

(** ** The wake sources in the event loop *)

Lemma arms_nothing_refl s : arms_nothing s s.
Proof. exists []. split; [symmetry; apply app_nil_r | reflexivity]. Qed.

Lemma arms_nothing_trans s1 s2 s3 :
  arms_nothing s1 s2 -> arms_nothing s2 s3 -> arms_nothing s1 s3.
Proof.
  intros (e1 & H1 & Q1) (e2 & H2 & Q2). exists (e1 ++ e2). split.
  - rewrite H2, H1, <- app_assoc. reflexivity.
  - intros t. rewrite omap_app, Q1, Q2. reflexivity.
Qed.

Lemma arms_nothing_same s s' : trace s' = trace s -> arms_nothing s s'.
Proof. intros H. exists []. split; [rewrite H; symmetry; apply app_nil_r | reflexivity]. Qed.

Lemma arms_nothing_one s s' e :
  trace s' = trace s ++ [e] -> (forall t, task_of t e = None) -> arms_nothing s s'.
Proof. intros H He. exists [e]. split; [exact H |]. intros t. cbn. rewrite He. reflexivity. Qed.

Lemma materialize_arms_nothing s : arms_nothing s (materialize s).
Proof.
  destruct (materialize_cases s) as [[_ ->] | (_ & _ & _ & _ & Ht & _)].
  - apply arms_nothing_refl.
  - eapply arms_nothing_one; [exact Ht | reflexivity].
Qed.

Lemma CoroCtxSwitch_arms_nothing n s : arms_nothing s (snd (CoroCtxSwitch n s)).
Proof.
  eapply arms_nothing_trans; [apply materialize_arms_nothing |]. unfold CoroCtxSwitch.
  destruct (JS.eqn (MU32_get (MU32 (materialize s)) (nptr (materialize s))) 2); cbn [snd].
  - eapply arms_nothing_one; [reflexivity | reflexivity].
  - eapply arms_nothing_one; [reflexivity | reflexivity].
Qed.

Lemma import_arms_nothing i s : arms_nothing s (snd (import i s)).
Proof.
  destruct i as [e u sz | c | to | | | ms]; cbn [import snd].
  - destruct (WaCoroInitNew_effect e u sz s) as (_ & Ht & _). cbv zeta in Ht.
    eapply arms_nothing_one; [exact Ht | reflexivity].
  - eapply arms_nothing_one; [reflexivity | reflexivity].
  - unfold WaCoroSwitch. pose proof (CoroCtxSwitch_arms_nothing 2 s) as H.
    destruct (CoroCtxSwitch 2 s) as [unwind s']. cbn [snd] in H.
    destruct unwind; [| exact H].
    eapply arms_nothing_trans; [exact H | apply arms_nothing_same; reflexivity].
  - apply CoroCtxSwitch_arms_nothing.
  - apply CoroCtxSwitch_arms_nothing.
  - apply CoroCtxSwitch_arms_nothing.
Qed.

(** The code of the module calls no wake source: only the dispatcher
    does. *)
Lemma run_arms_nothing p : forall s, arms_nothing s (run p s).
Proof.
  induction p as [| msg k IH | i k IH]; intros s.
  - apply arms_nothing_refl.
  - cbn [run]. eapply arms_nothing_trans; [| apply IH].
    eapply arms_nothing_one; [reflexivity | reflexivity].
  - cbn [run]. pose proof (import_arms_nothing i s) as H.
    destruct (import i s) as [res s']. cbn [snd] in H. unfold after.
    destruct (asyncify s') as [| d | d].
    + eapply arms_nothing_trans; [exact H | apply IH].
    + eapply arms_nothing_trans; [exact H | apply arms_nothing_same; reflexivity].
    + eapply arms_nothing_trans; [exact H | apply IH].
Qed.

Lemma call_wasm_arms_nothing body s : arms_nothing s (call_wasm body s).
Proof.
  unfold call_wasm. destruct (asyncify s) as [| d | d]; try apply run_arms_nothing.
  destruct (saved s !! d) as [p |]; [apply run_arms_nothing | apply arms_nothing_refl].
Qed.

(** A turn of the dispatcher calls at most one wake source, and none when
    it does not return. *)
Lemma CoroHandler_turn_trace s :
  match CoroHandler_turn s with
  | Returns s' =>
      exists evs, trace s' = trace s ++ evs /\
                  forall t, (length (omap (task_of t) evs) <= 1)%nat
  | Throws s' | Loops s' => arms_nothing s s'
  end.
Proof.
  destruct (MU32_get (MU32 s) (nptr s)) as [z |] eqn:Hn.
  - destruct (Z.ltb_spec 2 z) as [H2 | H2].
    + rewrite (CoroHandler_turn_pending s z Hn H2).
      exists [wake_source z]. split; [reflexivity |]. intros t. cbn.
      destruct (task_of t (wake_source z)); cbn; lia.
    + unfold CoroHandler_turn. rewrite Hn. cbn [JS.truthy JS.eqn JS.gtn JS.num].
      destruct (Z.eqb_spec z 0) as [| Hz]; cbn [negb].
      { exists []. split; [symmetry; apply app_nil_r | intros t; cbn; lia]. }
      assert (H3 : (z =? 3) = false) by lia. assert (H4 : (z =? 4) = false) by lia.
      assert (H5 : (4 <? z) = false) by lia. assert (H6 : (2 <? z) = false) by lia.
      rewrite H3, H4, H5, H6.
      destruct (z =? 2);
        cbn [ASM_asyncify_stop_unwind ASM_asyncify_start_rewind set_asyncify log
             MU32 coro_asms org_main coro_current];
        (destruct (JS.truthy (MU32_get (MU32 s) (nptr s - 2)));
         [ destruct (coro_asms s !! JS.num (MU32_get (MU32 s) (nptr s - 2))) as [[| e] |];
           [| destruct (ASM_export e) as [b |] |]
         | destruct (org_main s) as [b |] ]);
        try (eapply arms_nothing_trans; [| apply call_wasm_arms_nothing]);
        (eexists; split;
         [ cbn [trace log set_asyncify ASM_asyncify_stop_unwind ASM_asyncify_start_rewind];
           rewrite <- ?app_assoc; reflexivity
         | intros t; reflexivity ]).
  - unfold CoroHandler_turn. rewrite Hn. cbn [JS.truthy negb].
    exists []. split; [symmetry; apply app_nil_r | intros t; cbn; lia].
Qed.

(** So does an invocation of the dispatcher, however many exports it
    calls. *)
Lemma CoroHandler_trace fuel : forall s,
  exists evs, trace (snd (CoroHandler fuel s)) = trace s ++ evs /\
              forall t, (length (omap (task_of t) evs) <= 1)%nat.
Proof.
  induction fuel as [| fuel IH]; intros s.
  - exists []. split; [symmetry; apply app_nil_r | intros t; cbn; lia].
  - cbn [CoroHandler]. pose proof (CoroHandler_turn_trace s) as Ht.
    destruct (CoroHandler_turn s) as [s' | s' | s'].
    + exact Ht.
    + destruct Ht as (evs & He & Hq). exists evs. split; [exact He |].
      intros t. rewrite Hq. cbn. lia.
    + destruct Ht as (e1 & H1 & Q1). destruct (IH s') as (e2 & H2 & Q2).
      exists (e1 ++ e2). split; [rewrite H2, H1, <- app_assoc; reflexivity |].
      intros t. rewrite omap_app, Q1. apply Q2.
Qed.

Lemma posted_trace t s s' evs :
  trace s' = trace s ++ evs -> posted t s s' = omap (task_of t) evs.
Proof. intros H. unfold posted. rewrite H, drop_app_length. reflexivity. Qed.

Lemma task_of_calls_dispatcher t e task :
  task_of t e = Some task -> calls_dispatcher task = true.
Proof. destruct e; intros [= <-]; reflexivity. Qed.

Lemma wakes_app q1 q2 : wakes (q1 ++ q2) = (wakes q1 + wakes q2)%nat.
Proof. unfold wakes. rewrite List.filter_app, length_app. reflexivity. Qed.

Lemma wakes_le q : (wakes q <= length q)%nat.
Proof. unfold wakes. apply List.filter_length_le. Qed.

Lemma wakes_delete q : forall n task,
  q !! n = Some task ->
  wakes q = (wakes (delete n q) + if calls_dispatcher task then 1 else 0)%nat.
Proof.
  induction q as [| x q IH]; intros n task Hn; [discriminate |].
  destruct n as [| n].
  - injection Hn as ->. unfold wakes. cbn. destruct (calls_dispatcher task); cbn; lia.
  - change (delete (S n) (x :: q)) with (x :: delete n q).
    specialize (IH n task Hn). unfold wakes in *. cbn.
    destruct (calls_dispatcher x); cbn; lia.
Qed.

Lemma wakes_none q :
  Forall (fun task => calls_dispatcher task = false) q -> wakes q = 0%nat.
Proof.
  induction 1 as [| x q Hx _ IH]; [reflexivity |].
  unfold wakes in *. cbn. rewrite Hx. exact IH.
Qed.

(** A task that does not call the dispatcher leaves the page as it is. *)
Lemma listener_ignores fuel task s :
  calls_dispatcher task = false -> listener fuel task s = (Returned, s).
Proof.
  destruct task as [due | | data]; try discriminate.
  cbn [calls_dispatcher listener]. unfold on_message. intros ->. reflexivity.
Qed.

Lemma listener_trace fuel task s :
  exists evs, trace (snd (listener fuel task s)) = trace s ++ evs /\
              forall t, (length (omap (task_of t) evs) <= 1)%nat.
Proof.
  destruct task as [due | | data]; cbn [listener]; try apply CoroHandler_trace.
  unfold on_message. destruct (JS.eqn data 9); [apply CoroHandler_trace |].
  exists []. split; [symmetry; apply app_nil_r | intros t; cbn; lia].
Qed.

(** A queue that holds at most one task that calls the dispatcher keeps
    that, whatever task of it runs. *)
Lemma host_run_wakes fuel t n h h' :
  (wakes (tasks h) <= 1)%nat -> host_run fuel t n h = Some h' ->
  (wakes (tasks h') <= 1)%nat.
Proof.
  unfold host_run. intros Hq Hr. destruct (tasks h !! n) as [task |] eqn:Hn; [| discriminate].
  destruct ((now h <=? t) && ready t task); [| discriminate]. injection Hr as <-.
  cbn [tasks]. rewrite wakes_app. pose proof (wakes_delete _ _ _ Hn) as Hd.
  destruct (calls_dispatcher task) eqn:Hc.
  - destruct (listener_trace fuel task (page h)) as (evs & He & Hl).
    rewrite (posted_trace t _ _ _ He). pose proof (wakes_le (omap (task_of t) evs)).
    specialize (Hl t). lia.
  - rewrite (listener_ignores fuel task _ Hc). cbn [snd].
    rewrite (posted_trace t _ _ [] (eq_sym (app_nil_r _))). cbn. change (wakes []) with 0%nat.
    lia.
Qed.

Lemma delete_app_l {A} (l k : list A) n :
  (n < length l)%nat -> delete n (l ++ k) = delete n l ++ k.
Proof.
  revert n. induction l as [| x l IH]; intros n Hn; [cbn in Hn; lia |].
  destruct n as [| n]; [reflexivity |].
  change (x :: delete n (l ++ k) = x :: delete n l ++ k). rewrite IH by (cbn in Hn; lia).
  reflexivity.
Qed.

(** While only a timer can call the dispatcher, the page stays as it is
    until the timer is due. *)
Lemma host_run_waits fuel t n h h' s due :
  waits_for_timer s due h \/ due <= now h ->
  host_run fuel t n h = Some h' ->
  waits_for_timer s due h' \/ due <= now h'.
Proof.
  unfold host_run. intros Hw Hr. destruct (tasks h !! n) as [task |] eqn:Hn; [| discriminate].
  destruct (Z.leb_spec (now h) t) as [Hle |]; [| discriminate]. cbn [andb] in Hr.
  destruct (ready t task) eqn:Hrdy; [| discriminate]. injection Hr as <-. cbn [now].
  destruct Hw as [(Hp & Q & Hq & Hnd) | Hdue]; [| right; lia].
  rewrite Hq in Hn. destruct (Nat.lt_ge_cases n (length Q)) as [Hlt | Hge].
  - left. rewrite lookup_app_l in Hn by exact Hlt.
    pose proof (Forall_lookup_1 _ _ _ _ Hnd Hn) as Hc. cbn beta in Hc.
    rewrite (listener_ignores fuel task _ Hc). cbn [snd]. split; [exact Hp |].
    exists (delete n Q). split; [| apply Forall_delete; exact Hnd]. cbn [tasks].
    rewrite (posted_trace t _ _ [] (eq_sym (app_nil_r _))), Hq, delete_app_l by exact Hlt.
    cbn [omap]. apply app_nil_r.
  - right. rewrite lookup_app_r in Hn by exact Hge.
    apply list_lookup_singleton_Some in Hn as [_ <-]. cbn [ready] in Hrdy. lia.
Qed.

Lemma host_runs_waits fuel s due steps : forall h h',
  waits_for_timer s due h \/ due <= now h ->
  host_runs fuel steps h = Some h' ->
  waits_for_timer s due h' \/ due <= now h'.
Proof.
  induction steps as [| [t n] steps IH]; intros h h' Hw Hr.
  - injection Hr as <-. exact Hw.
  - cbn [host_runs] in Hr. destruct (host_run fuel t n h) as [h1 |] eqn:H1; [| discriminate].
    apply (IH h1); [| exact Hr]. eapply host_run_waits; eassumption.
Qed.


End Coro.

(** ** [nanosleep] *)

Lemma uint64_small x : 0 <= x < 2 ^ 64 -> uint64 x = x.
Proof. intros Hx. unfold uint64. apply Z.mod_small. exact Hx. Qed.

Lemma nanoseconds_range t : 0 <= nanoseconds t < 2 ^ 64.
Proof. unfold nanoseconds, uint64. apply Z.mod_pos_bound. lia. Qed.

(** Without wrap-around the conversion is the number of nanoseconds. *)
Lemma nanoseconds_exact t :
  0 <= tv_sec t -> 0 <= tv_nsec t -> tv_sec t * 1000000000 + tv_nsec t < 2 ^ 64 ->
  nanoseconds t = tv_sec t * 1000000000 + tv_nsec t.
Proof.
  intros Hs Hn Hlt. unfold nanoseconds.
  rewrite (uint64_small (tv_sec t)) by nia.
  rewrite (uint64_small (tv_sec t * 1000000000)) by nia.
  rewrite (uint64_small (tv_nsec t)) by nia.
  apply uint64_small. nia.
Qed.

(** Fields that fit 32-bit [time_t] and [long] cannot wrap the deadline. *)
Lemma deadline_fits_32bit_fields (now req : timespec) :
  0 <= tv_sec req < 2 ^ 31 -> 0 <= tv_nsec req < 2 ^ 31 ->
  0 <= tv_sec now < 2 ^ 31 -> 0 <= tv_nsec now < 2 ^ 31 ->
  nanoseconds now + (tv_sec req * 1000000000 + tv_nsec req) < 2 ^ 64.
Proof.
  intros Hs Hn Hs' Hn'. rewrite (nanoseconds_exact now) by lia. lia.
Qed.

Lemma nanosleep_wait_remain cur til :
  0 <= cur < til -> til < 2 ^ 64 -> nanosleep_wait cur til = wait_for (til - cur).
Proof.
  intros Hc Ht. unfold nanosleep_wait, wait_for. rewrite (uint64_small (til - cur)) by lia.
  destruct (Z.ltb_spec 4500000 (til - cur)); [| reflexivity].
  rewrite uint64_small by lia. reflexivity.
Qed.

Lemma nanosleep_loop_runs (clock : nat -> timespec) (til : Z) (n extra : nat) :
  til < 2 ^ 64 ->
  (forall j, (j < n)%nat -> nanoseconds (clock j) < til) ->
  til <= nanoseconds (clock n) ->
  forall m j calls, (j + m = n)%nat ->
  nanosleep_loop (S m + extra) clock (S j) (nanoseconds (clock j)) til calls =
    Some (S n, calls ++ map (fun i => wait_for (til - nanoseconds (clock i))) (seq j m)).
Proof.
  intros Htil Hbefore Hreach. induction m as [| m IH]; intros j calls Hj.
  - assert (j = n) by lia. subst j. cbn [nanosleep_loop Nat.add seq map].
    destruct (Z.ltb_spec (nanoseconds (clock n)) til); [lia |].
    rewrite app_nil_r. reflexivity.
  - assert (Hlt : (j < n)%nat) by lia. specialize (Hbefore j Hlt) as Hcur.
    change (S (S m) + extra)%nat with (S (S m + extra)). cbn [nanosleep_loop].
    destruct (Z.ltb_spec (nanoseconds (clock j)) til); [| lia].
    rewrite (IH (S j)) by lia.
    rewrite nanosleep_wait_remain by (pose proof (nanoseconds_range (clock j)); lia).
    cbn [seq map]. rewrite <- app_assoc. reflexivity.
Qed.

(** C8 (amended). For a request with non-negative fields whose deadline
    (the first clock reading plus the requested duration, in nanoseconds)
    is below [2^64], the range of the [uint64_t] arithmetic of the
    function, and a clock whose reading number [n] is the first at or past
    the deadline: [nanosleep] returns right after that reading and not
    before, returns 0, and stores [{0,0}] in [*rem] when [rem] is not null;
    for each earlier reading, with [remain] nanoseconds left, it has called
    [WaCoroSleep((remain - 500000) / 1000000)] when [remain > 4500000] and
    [WaCoroYield()] otherwise. *)
Theorem nanosleep_blocks_until_deadline
    (clock : nat -> timespec) (req : timespec) (rem : option timespec) (n extra : nat) :
  let deadline :=
    nanoseconds (clock O) + (tv_sec req * 1000000000 + tv_nsec req) in
  0 <= tv_sec req -> 0 <= tv_nsec req -> deadline < 2 ^ 64 ->
  (forall j, (j < n)%nat -> nanoseconds (clock j) < deadline) ->
  deadline <= nanoseconds (clock n) ->
  nanosleep (S n + extra) clock req rem =
    Some (0,
          match rem with Some _ => Some {| tv_sec := 0; tv_nsec := 0 |} | None => None end,
          S n,
          map (fun j =>
                 let remain := deadline - nanoseconds (clock j) in
                 if 4500000 <? remain
                 then Sleep (to_int ((remain - 500000) / 1000000))
                 else Yield)
              (seq 0 n)).
Proof.
  intros deadline Hs Hn Hfit Hbefore Hreach. unfold nanosleep.
  pose proof (nanoseconds_range (clock O)) as Hstart.
  assert (Hreq : nanoseconds req = tv_sec req * 1000000000 + tv_nsec req)
    by (apply nanoseconds_exact; subst deadline; lia).
  assert (Htil : uint64 (nanoseconds (clock O) + nanoseconds req) = deadline)
    by (rewrite Hreq; apply uint64_small; subst deadline; nia).
  rewrite Htil.
  rewrite (nanosleep_loop_runs clock deadline n extra Hfit Hbefore Hreach n O [])
    by reflexivity.
  reflexivity.
Qed.

(** The loop, whatever the clock and the deadline: where it ends and what
    it has called. *)
Lemma nanosleep_loop_ends (clock : nat -> timespec) (til : Z) :
  forall fuel j calls reads out,
  nanosleep_loop fuel clock (S j) (nanoseconds (clock j)) til calls = Some (reads, out) ->
  exists m, reads = S (j + m)%nat /\
    til <= nanoseconds (clock (j + m)%nat) /\
    (forall a, (a < m)%nat -> nanoseconds (clock (j + a)%nat) < til) /\
    out = calls ++ map (fun a => nanosleep_wait (nanoseconds (clock a)) til) (seq j m).
Proof.
  induction fuel as [| fuel IH]; intros j calls reads out Hloop; [discriminate Hloop |].
  cbn [nanosleep_loop] in Hloop.
  destruct (Z.ltb_spec (nanoseconds (clock j)) til) as [Hlt | Hge].
  - apply IH in Hloop. destruct Hloop as (m & -> & Hreach & Hbefore & ->).
    exists (S m). replace (j + S m)%nat with (S j + m)%nat by lia.
    split; [reflexivity |]. split; [exact Hreach |]. split.
    + intros [| a] Ha.
      * rewrite Nat.add_0_r. exact Hlt.
      * replace (j + S a)%nat with (S j + a)%nat by lia. apply Hbefore. lia.
    + cbn [seq map]. rewrite <- app_assoc. reflexivity.
  - injection Hloop as <- <-. exists O. rewrite Nat.add_0_r.
    split; [reflexivity |]. split; [lia |]. split; [intros a Ha; lia |].
    cbn. rewrite app_nil_r. reflexivity.
Qed.

(** X11. Whenever [nanosleep] returns, whatever the request and the clock
    (wrap-around included), it returns 0, has zeroed [*rem] if [rem] is not
    null, and returns on the first clock reading that is not before [til],
    the deadline as the function computes it; before each earlier reading
    it has made exactly one call, the sleep or yield for what was left. *)
Theorem nanosleep_returns_on_first_late_reading
    (fuel : nat) (clock : nat -> timespec) (req : timespec) (rem : option timespec)
    (ret : Z) (rem' : option timespec) (reads : nat) (calls : list Import) :
  let til := uint64 (nanoseconds (clock O) + nanoseconds req) in
  nanosleep fuel clock req rem = Some (ret, rem', reads, calls) ->
  ret = 0 /\
  rem' = match rem with Some _ => Some {| tv_sec := 0; tv_nsec := 0 |} | None => None end /\
  exists n, reads = S n /\
    til <= nanoseconds (clock n) /\
    (forall j, (j < n)%nat -> nanoseconds (clock j) < til) /\
    calls = map (fun j => nanosleep_wait (nanoseconds (clock j)) til) (seq 0 n).
Proof.
  intros til Hret. unfold nanosleep in Hret. fold til in Hret.
  destruct (nanosleep_loop fuel clock 1 (nanoseconds (clock O)) til [])
    as [[reads0 calls0] |] eqn:Hloop; [| discriminate Hret].
  injection Hret as <- <- <- <-.
  apply nanosleep_loop_ends in Hloop. destruct Hloop as (m & -> & Hreach & Hbefore & ->).
  split; [reflexivity |]. split; [reflexivity |]. exists m. auto.
Qed.

(** X12. Above the guard threshold of 4.5 ms, and for waits that fit the
    [int] parameter, the sleep that is asked for is at least 4 ms and ends
    at least half a millisecond, and less than 1.5 ms, before the deadline:
    a timer that is not late by more than that never oversleeps. *)
Theorem nanosleep_sleeps_short_of_deadline (cur til : Z) :
  0 <= cur -> til < 2 ^ 64 ->
  4500000 < til - cur -> til - cur < 2 ^ 31 * 1000000 ->
  exists ms,
    nanosleep_wait cur til = Sleep ms /\ 4 <= ms < 2 ^ 31 /\
    ms * 1000000 + 500000 <= til - cur < ms * 1000000 + 1500000.
Proof.
  intros Hcur Htil Hgt Hfit. exists ((til - cur - 500000) / 1000000).
  assert (Hq := Z.div_mod (til - cur - 500000) 1000000 ltac:(lia)).
  assert (Hr := Z.mod_pos_bound (til - cur - 500000) 1000000 ltac:(lia)).
  assert (Hrange : 4 <= (til - cur - 500000) / 1000000 < 2 ^ 31) by lia.
  unfold nanosleep_wait. rewrite (uint64_small (til - cur)) by lia.
  destruct (Z.ltb_spec 4500000 (til - cur)); [| lia].
  rewrite uint64_small by lia. split; [| split; [exact Hrange | lia]].
  f_equal. unfold to_int. rewrite Z.mod_small by lia. lia.
Qed.

(** X13. A request of at most 4.5 ms never sleeps: if the clock never
    reads before the first reading, every call [nanosleep] makes before it
    returns is a [WaCoroYield]. *)
Theorem nanosleep_short_request_only_yields
    (fuel : nat) (clock : nat -> timespec) (req : timespec) (rem : option timespec)
    (ret : Z) (rem' : option timespec) (reads : nat) (calls : list Import) :
  0 <= tv_sec req -> 0 <= tv_nsec req ->
  tv_sec req * 1000000000 + tv_nsec req <= 4500000 ->
  nanoseconds (clock O) + 4500000 < 2 ^ 64 ->
  (forall j, nanoseconds (clock O) <= nanoseconds (clock j)) ->
  nanosleep fuel clock req rem = Some (ret, rem', reads, calls) ->
  calls = repeat Yield (reads - 1).
Proof.
  intros Hs Hn Hshort Hfit Hmono Hret. unfold nanosleep in Hret.
  pose proof (nanoseconds_range (clock O)) as Hstart.
  assert (Hreq : nanoseconds req = tv_sec req * 1000000000 + tv_nsec req)
    by (apply nanoseconds_exact; lia).
  assert (Htil : uint64 (nanoseconds (clock O) + nanoseconds req)
                 = nanoseconds (clock O) + nanoseconds req)
    by (apply uint64_small; lia).
  rewrite Htil in Hret.
  destruct (nanosleep_loop fuel clock 1 (nanoseconds (clock O))
              (nanoseconds (clock O) + nanoseconds req) [])
    as [[reads0 calls0] |] eqn:Hloop; [| discriminate Hret].
  injection Hret as <- <- <- <-.
  apply nanosleep_loop_ends in Hloop. destruct Hloop as (m & -> & _ & Hbefore & ->).
  cbn [app Nat.add]. replace (S m - 1)%nat with m by lia.
  assert (Hall : forall a, In a (seq 0 m) ->
            nanosleep_wait (nanoseconds (clock a))
              (nanoseconds (clock O) + nanoseconds req) = Yield).
  { intros a Ha. apply in_seq in Ha. specialize (Hbefore a ltac:(lia)).
    specialize (Hmono a). cbn [Nat.add] in Hbefore.
    rewrite nanosleep_wait_remain by lia. unfold wait_for.
    destruct (Z.ltb_spec 4500000 (nanoseconds (clock O) + nanoseconds req
                                  - nanoseconds (clock a))); [lia | reflexivity]. }
  replace (repeat Yield m) with (repeat Yield (length (seq 0 m)))
    by (rewrite length_seq; reflexivity).
  clear Hbefore. revert Hall.
  generalize (seq 0 m). intros l. induction l as [| a l IH]; intros Hall.
  - reflexivity.
  - cbn [map repeat length]. f_equal.
    + apply Hall. left. reflexivity.
    + apply IH. intros b Hb. apply Hall. right. exact Hb.
Qed.

(** X14. A wait too long for the [int] parameter: when the milliseconds
    left lie between [2^31] and [2^32], the conversion makes the argument
    negative, and [WaCoroSleep] then treats it like 0, so the coroutine is
    woken at once instead of after the time asked for. *)
Theorem nanosleep_long_wait_sleeps_zero
    (WASM_STACK_SIZE : Z) (ASM_main : option Prog) (cur til : Z) (s : State) :
  0 <= cur -> til < 2 ^ 64 ->
  2 ^ 31 * 1000000 + 500000 <= til - cur < 2 ^ 32 * 1000000 + 500000 ->
  exists ms,
    nanosleep_wait cur til = Sleep ms /\ ms < 0 /\
    ms = (til - cur - 500000) / 1000000 - 2 ^ 32 /\
    WaCoroSleep WASM_STACK_SIZE ASM_main ms s = WaCoroSleep WASM_STACK_SIZE ASM_main 0 s.
Proof.
  intros Hcur Htil Hlong. exists ((til - cur - 500000) / 1000000 - 2 ^ 32).
  assert (Hq := Z.div_mod (til - cur - 500000) 1000000 ltac:(lia)).
  assert (Hr := Z.mod_pos_bound (til - cur - 500000) 1000000 ltac:(lia)).
  assert (Hrange : 2 ^ 31 <= (til - cur - 500000) / 1000000 < 2 ^ 32) by lia.
  unfold nanosleep_wait. rewrite (uint64_small (til - cur)) by lia.
  destruct (Z.ltb_spec 4500000 (til - cur)); [| lia].
  rewrite uint64_small by lia. split; [| split; [lia | split; [reflexivity |]]].
  - f_equal. unfold to_int.
    replace ((til - cur - 500000) / 1000000 + 2 ^ 31)
      with ((til - cur - 500000) / 1000000 - 2 ^ 31 + 1 * 2 ^ 32) by lia.
    rewrite Z.mod_add by lia. rewrite Z.mod_small by lia. lia.
  - unfold WaCoroSleep.
    destruct (Z.ltb_spec ((til - cur - 500000) / 1000000 - 2 ^ 32) 0); [| lia].
    reflexivity.
Qed.

(** ** The sample [Coroutine.c] under the model *)

Lemma registry_ok_init mem mallocs : registry_ok (init mem mallocs).
Proof.
  split; [cbn; lia |]. intros p v Hp. cbn in Hp. rewrite lookup_empty in Hp. discriminate.
Qed.

(** Scenario A of the specification, on the sample: the lines come out in
    the order of the switches.  The program runs until both the coroutine
    and then the main function have slept, and two timers have fired. *)
Example sample_output :
  let boot := WA_started 65536 (Some sample_main) sample_export 100
                (run 65536 (Some sample_main) sample_main sample_start) in
  let timer1 := CoroHandler 65536 (Some sample_main) sample_export 100 (snd boot) in
  let timer2 := CoroHandler 65536 (Some sample_main) sample_export 100 (snd timer1) in
  fst boot = Returned /\ fst timer1 = Returned /\ fst timer2 = Returned /\
  output (trace (snd timer2)) =
    ["[MAIN] One"; "[CORO] One"; "[MAIN] Two"; "[CORO] Two Sleep ...";
     "[CORO] Two Done Sleeping"; "[MAIN] Three Sleep ..."; "[MAIN] Three Done Sleeping";
     "[CORO] Three"; "[MAIN] Four"]%string /\
  timers (trace (snd timer2)) = [1000; 1000].
Proof. vm_compute. repeat split; reflexivity. Qed.

(** Scenario C of the specification: main is resumed exactly once, and A
    and B stay parked where they switched away (wake state 2). *)
Example two_coroutines_output :
  let boot := WA_started 65536 (Some two_coroutines_main) two_coroutines_export 100
                (run 65536 (Some two_coroutines_main) two_coroutines_main
                   (init (replicate 64 0) [32; 64; 128])) in
  fst boot = Returned /\
  output (trace (snd boot)) = ["[MAIN] One"; "[A] One"; "[B] One"; "[MAIN] Two"]%string /\
  main_calls (trace (snd boot)) = 1%nat /\
  wake_state 64 (snd boot) = Some ResumingAfterSwitch /\
  wake_state 32 (snd boot) = Some ResumingAfterSwitch /\
  coro_current (snd boot) = Some 128 /\ wake_state 128 (snd boot) = Some Ended.
Proof. vm_compute. repeat split; reflexivity. Qed.

(** An entry function that returns without ever suspending keeps wake
    state 1, and the loop of the dispatcher enters it again and again: with
    six turns of fuel it has run six times and the dispatcher has not
    returned. *)
Example entry_return_without_suspending :
  let r := CoroHandler 65536 (Some returns_at_once_main) returns_at_once_export 6
             (run 65536 (Some returns_at_once_main) returns_at_once_main sample_start) in
  fst r = OutOfFuel /\ wake_state 32 (snd r) = Some Entering /\
  output (trace (snd r)) = ["once"; "once"; "once"; "once"; "once"; "once"]%string.
Proof. vm_compute. repeat split; reflexivity. Qed.

(** A switch to an address that is no handle is told apart: the check
    fails, and the cursor goes to that address. *)
Example switch_to_unknown_address :
  let p := Call (Switch 4096) (fun _ => Return) in
  run_known 65536 (Some sample_main) [32] p sample_in_coro = None /\
  coro_current (run 65536 (Some sample_main) p sample_in_coro) = Some 4096.
Proof. vm_compute. split; reflexivity. Qed.

Lemma sample_allocator_avoids cur main_wake coro_wake a idx :
  4 < idx -> allocator_avoids idx (sample_state cur main_wake coro_wake a).
Proof.
  intros Hidx p [-> | Hin]; [right; exact Hidx | destruct Hin].
Qed.

(** ** The theorems at work on the sample, and the inputs that refute the
    claims as they were first stated *)

(** C1, as stated, fails: before MainContext exists the cursor is
    [undefined], and the first suspension point, here [WaCoroYield], which
    is not a switch, assigns it. *)
Lemma yield_assigns_cursor_on_first_suspension :
  coro_current sample_start = JS.undefined /\
  coro_current (WaCoroYield 65536 (Some sample_main) sample_start) = Some 32 /\
  main_data (WaCoroYield 65536 (Some sample_main) sample_start) = Some 32 /\
  trace (WaCoroYield 65536 (Some sample_main) sample_start)
    = [EvMalloc 65556; EvStartUnwind 32].
Proof. vm_compute. repeat split; reflexivity. Qed.

(** Scenario C from the start: the main function creates B and A, A is
    handed the handle of B as user data and switches to it. *)
Lemma cursor_moves_only_by_switch_witness :
  let s0 := init (replicate 64 0) [32; 64; 128] in
  let s1 := run 65536 (Some two_coroutines_main) two_coroutines_main s0 in
  cursor_known [] s0 /\
  run_known 65536 (Some two_coroutines_main) [] two_coroutines_main s0 = Some [64; 32] /\
  cursor_known [64; 32] s1 /\
  CoroHandler_known 65536 (Some two_coroutines_main) two_coroutines_export 100 [64; 32] s1
    = Some [64; 32] /\
  cursor_known [64; 32]
    (snd (CoroHandler 65536 (Some two_coroutines_main) two_coroutines_export 100 s1)).
Proof.
  intros s0 s1.
  assert (Hk0 : cursor_known [] s0) by (left; reflexivity).
  assert (Hr : run_known 65536 (Some two_coroutines_main) [] two_coroutines_main s0
               = Some [64; 32]) by (vm_compute; reflexivity).
  assert (Hd : CoroHandler_known 65536 (Some two_coroutines_main) two_coroutines_export
                 100 [64; 32] s1 = Some [64; 32]) by (vm_compute; reflexivity).
  destruct (cursor_moves_only_by_switch 65536 (Some two_coroutines_main)
              two_coroutines_export [] s0 Yield two_coroutines_main 0 Hk0)
    as (_ & _ & _ & Hrun & _).
  pose proof (Hrun _ Hr) as Hk1. fold s1 in Hk1.
  destruct (cursor_moves_only_by_switch 65536 (Some two_coroutines_main)
              two_coroutines_export [64; 32] s1 Yield Return 100 Hk1)
    as (_ & _ & _ & _ & Hdisp).
  split; [exact Hk0 |]. split; [exact Hr |]. split; [exact Hk1 |].
  split; [exact Hd | exact (Hdisp _ Hd)].
Defined.

Lemma dispatcher_pending_wait_witness :
  MU32_get (MU32 sample_asleep) (nptr sample_asleep) = Some (SleepingFor 1000) /\
  exists s',
    CoroHandler 65536 (Some sample_main) sample_export 1 sample_asleep = (Returned, s') /\
    trace s' = [EvSetTimeout 1000] /\ asyncify s' = Unwinding 32.
Proof.
  split; [reflexivity |].
  destruct (dispatcher_pending_wait 65536 (Some sample_main) sample_export 0
              sample_asleep 1005 eq_refl) as (s' & Hr & Ht & _ & _ & _ & Ha & _).
  - right. right. exists 1000. split; [lia | reflexivity].
  - exists s'. split; [exact Hr |]. split; [exact Ht | exact Ha].
Defined.

Lemma first_entry_is_fresh_call_witness :
  let s1 := snd (WaCoroInitNew 65536 1024 0 0 sample_start) in
  let s2 := WaCoroSwitch 65536 (Some sample_main) 32 s1 in
  fst (WaCoroInitNew 65536 1024 0 0 sample_start) = 32 /\
  coro_current s2 = Some 32 /\
  wake_state 32 s1 = Some Entering /\
  CoroHandler_turn 65536 (Some sample_main) sample_export s2 =
    Loops (run 65536 (Some sample_main) (FuncCoro 0)
             (log (EvCallExport 1 0) (ASM_asyncify_stop_unwind s2))).
Proof.
  intros s1 s2.
  assert (Hptr : 0 <= JS.sar (Some (fst (WaCoroInitNew 65536 1024 0 0 sample_start))) 2)
    by (vm_compute; discriminate).
  assert (Hmem : is_Some (MU32_get (MU32 sample_start)
            (JS.sar (Some (fst (WaCoroInitNew 65536 1024 0 0 sample_start))) 2 + 4)))
    by (vm_compute; eexists; reflexivity).
  assert (Hcnt : coro_count sample_start < 2 ^ 32 - 1) by (vm_compute; reflexivity).
  assert (Hu : - 2 ^ 31 <= 0 < 2 ^ 31) by lia.
  destruct (first_entry_is_fresh_call 65536 (Some sample_main) sample_export
              1024 0 0 sample_start s2 FuncCoro Hptr Hmem
              (registry_ok_init _ _) Hcnt Hu eq_refl eq_refl eq_refl eq_refl eq_refl eq_refl)
    as (Hw & (Hturn & _) & _).
  split; [reflexivity |]. split; [reflexivity |]. split; [exact Hw | exact Hturn].
Defined.



(** C5, as stated, fails: with the allocator exhausted the call returns
    null, yet it has registered the name and overwritten the first five
    words of the memory. *)
Lemma init_new_failure_has_effects :
  fst (WaCoroInitNew 65536 1024 0 0 sample_exhausted) = 0 /\
  MU32 sample_exhausted = [7; 7; 7; 7; 7; 7; 7; 7] /\
  MU32 (snd (WaCoroInitNew 65536 1024 0 0 sample_exhausted))
    = [20; 65556; 1; 0; 1; 7; 7; 7] /\
  coro_count sample_exhausted = 0 /\
  coro_count (snd (WaCoroInitNew 65536 1024 0 0 sample_exhausted)) = 1.
Proof. vm_compute. repeat split; reflexivity. Qed.

Lemma init_new_allocation_failure_witness :
  hd 0 (malloc_oracle sample_exhausted) = 0 /\
  fst (WaCoroInitNew 65536 1024 0 0 sample_exhausted) = 0 /\
  trace (snd (WaCoroInitNew 65536 1024 0 0 sample_exhausted)) = [EvMalloc 65556] /\
  coro_count (snd (WaCoroInitNew 65536 1024 0 0 sample_exhausted)) = 1.
Proof.
  destruct (init_new_allocation_failure 65536 1024 0 0 sample_exhausted eq_refl)
    as (Hr & Ht & _ & _ & _ & _ & Hreg).
  destruct (Hreg eq_refl) as (Hc & _).
  split; [reflexivity |]. split; [exact Hr |]. split; [exact Ht | exact Hc].
Defined.

(** C6, as stated, fails: when the coroutine of the sample has returned
    (the dispatcher returns on its wake state 0), a switch into it is
    carried out like any other, its wake state becomes 2, and the
    dispatcher that runs next starts a rewind on it and calls its entry
    export again. *)
Lemma switch_into_Ended_calls_entry_again :
  let s1 := run 65536 (Some sample_main) sample_callback sample_coro_returned in
  let d := CoroHandler 65536 (Some sample_main) sample_export 2 s1 in
  wake_state 32 sample_coro_returned = Some Ended /\
  CoroHandler 65536 (Some sample_main) sample_export 1 sample_coro_returned
    = (Returned, sample_coro_returned) /\
  coro_current s1 = Some 32 /\
  asyncify s1 = Unwinding 32 /\
  wake_state 32 s1 = Some ResumingAfterSwitch /\
  fst d = Returned /\
  trace (snd d) =
    [EvStartUnwind 32; EvStopUnwind; EvStartRewind 32; EvCallExport 1 0;
     EvStopRewind; EvPrint "callback goes on"].
Proof. vm_compute. repeat split; reflexivity. Qed.

Lemma switch_into_Ended_is_accepted_witness :
  let s1 := WaCoroSwitch 65536 (Some sample_main) 32 sample_coro_returned in
  let e := run 65536 (Some sample_main)
             (Call (Switch 0) (fun _ => Print "[CORO] Should never arrive here" Return))
             sample_resuming_coro in
  (asyncify e = Normal /\ MU32_get (MU32 e) (nptr e) = Some Ended) /\
  coro_current sample_coro_returned = Some 32 /\
  MU32_get (MU32 sample_coro_returned) (nptr sample_coro_returned) = Some Ended /\
  coro_current s1 = Some 32 /\
  MU32_get (MU32 s1) (nptr s1) = Some ResumingAfterSwitch /\
  CoroHandler_turn 65536 (Some sample_main) sample_export s1 =
    Loops (call_wasm 65536 (Some sample_main) (FuncCoro 0)
             (log (EvCallExport 1 0)
                (ASM_asyncify_start_rewind (Some 32) (ASM_asyncify_stop_unwind s1)))).
Proof.
  intros s1 e.
  assert (Hr : MU32_get (MU32 (materialize 65536 (Some sample_main) sample_resuming_coro))
                 (nptr (materialize 65536 (Some sample_main) sample_resuming_coro))
               = Some ResumingAfterSwitch) by reflexivity.
  assert (Hh : 32 <> 0) by discriminate.
  assert (Hfn : 1 <> 0) by discriminate.
  destruct (switch_into_Ended_is_accepted 65536 (Some sample_main) sample_export
              sample_resuming_coro (Switch 0)
              (fun _ => Print "[CORO] Should never arrive here" Return)
              sample_coro_returned 32 1 1024 0 FuncCoro 0 eq_refl Hr I
              (sample_allocator_avoids 32 2 2 (Rewinding 32) 12 ltac:(lia))
              eq_refl eq_refl Hh eq_refl eq_refl Hfn eq_refl eq_refl eq_refl)
    as ((Ha & Hw & _) & _ & (Hc & _ & _ & Hw1 & Hturn)).
  split; [split; [exact Ha | exact Hw] |].
  split; [reflexivity |]. split; [reflexivity |].
  split; [exact Hc |]. split; [exact Hw1 | exact Hturn].
Defined.

(** C7, as stated, fails: the first switch takes a region of its own for
    MainContext from [malloc], 20 bytes and a stack of [WASM_STACK_SIZE],
    and writes the bounds of that stack into the control block. *)
Lemma MainContext_is_allocated :
  let s1 := WaCoroSwitch 65536 (Some sample_main) 0 (init (replicate 64 0) [128]) in
  trace s1 = [EvMalloc (20 + 65536); EvStartUnwind 128] /\
  main_data s1 = Some 128 /\
  MU32_get (MU32 s1) 32 = Some (128 + 20) /\
  MU32_get (MU32 s1) 33 = Some (128 + 20 + 65536).
Proof. vm_compute. repeat split; reflexivity. Qed.

Lemma switch_to_null_resumes_MainContext_witness :
  let s1 := WaCoroSwitch 65536 (Some sample_main) 0 sample_start in
  JS.truthy (main_data sample_start) = false /\
  coro_current s1 = main_data s1 /\ main_data s1 = Some 32 /\
  trace s1 = [EvMalloc (20 + 65536); EvStartUnwind 32] /\
  CoroHandler_turn 65536 (Some sample_main) sample_export s1 =
    Loops (call_wasm 65536 (Some sample_main) sample_main
             (log EvCallMain
                (ASM_asyncify_start_rewind (main_data s1) (ASM_asyncify_stop_unwind s1)))) /\
  materialize 65536 (Some sample_main) s1 = s1.
Proof.
  intros s1.
  assert (Hne : MU32_get (MU32 (materialize 65536 (Some sample_main) sample_start))
                  (nptr (materialize 65536 (Some sample_main) sample_start))
                <> Some ResumingAfterSwitch) by (vm_compute; discriminate).
  destruct (switch_to_null_resumes_MainContext 65536 (Some sample_main) sample_export
              sample_start sample_main Yield Hne eq_refl eq_refl eq_refl eq_refl)
    as (Hc & _ & _ & _ & Hfirst & Hturn & _ & Hmat).
  destruct (Hfirst eq_refl) as (Hm & Ht).
  split; [reflexivity |]. split; [exact Hc |]. split; [exact Hm |].
  split; [exact Ht |]. split; [exact Hturn | exact Hmat].
Defined.

(** C8 as stated fails for a request whose nanoseconds do not fit 64 bits:
    the fields of [long_request] are non-negative, the deadline is more
    than 18 billion seconds away, and [nanosleep] returns 0 after the
    second clock reading, 0.3 s after the first, since the [uint64_t]
    product wraps to 290448384 ns. *)
Lemma nanosleep_long_request_returns_early :
  0 <= tv_sec long_request /\ 0 <= tv_nsec long_request /\
  nanosleep 2 slow_clock long_request None = Some (0, None, 2%nat, [Sleep 289]) /\
  nanoseconds (slow_clock 1) = 300000000 /\
  nanoseconds (slow_clock 1) <
    nanoseconds (slow_clock 0)
    + (tv_sec long_request * 1000000000 + tv_nsec long_request).
Proof.
  split; [vm_compute; discriminate |]. split; [vm_compute; discriminate |].
  split; [vm_compute; reflexivity |]. split; vm_compute; reflexivity.
Qed.

Lemma nanosleep_blocks_until_deadline_witness :
  0 <= tv_sec sample_request /\ 0 <= tv_nsec sample_request /\
  nanoseconds (sample_clock 1) < 10000000 <= nanoseconds (sample_clock 2) /\
  nanosleep 3 sample_clock sample_request (Some {| tv_sec := 5; tv_nsec := 5 |})
    = Some (0, Some {| tv_sec := 0; tv_nsec := 0 |}, 3%nat, [Sleep 9; Yield]).
Proof.
  assert (Hs : 0 <= tv_sec sample_request) by (vm_compute; discriminate).
  assert (Hn : 0 <= tv_nsec sample_request) by (vm_compute; discriminate).
  assert (Hfit : nanoseconds (sample_clock O)
                 + (tv_sec sample_request * 1000000000 + tv_nsec sample_request) < 2 ^ 64)
    by (vm_compute; reflexivity).
  assert (Hbefore : forall j, (j < 2)%nat ->
            nanoseconds (sample_clock j) <
            nanoseconds (sample_clock O)
            + (tv_sec sample_request * 1000000000 + tv_nsec sample_request)).
  { intros [| [| j]] Hj; [vm_compute; reflexivity | vm_compute; reflexivity | lia]. }
  assert (Hreach : nanoseconds (sample_clock O)
                   + (tv_sec sample_request * 1000000000 + tv_nsec sample_request)
                   <= nanoseconds (sample_clock 2)) by (vm_compute; discriminate).
  pose proof (nanosleep_blocks_until_deadline sample_clock sample_request
                (Some {| tv_sec := 5; tv_nsec := 5 |}) 2 0 Hs Hn Hfit Hbefore Hreach) as H.
  split; [exact Hs |]. split; [exact Hn |].
  split; [split; [vm_compute; reflexivity | vm_compute; discriminate] | exact H].
Defined.

Lemma rewind_leaves_wake_state_Ended_witness :
  MU32_get (MU32 sample_resuming_main) (nptr sample_resuming_main)
    = Some ResumingAfterSwitch /\
  exists s',
    CoroCtxSwitch 65536 (Some sample_main) 2 sample_resuming_main = (false, s') /\
    trace s' = [EvStopRewind] /\
    wake_state 128 s' = Some Ended /\
    CoroHandler 65536 (Some sample_main) sample_export 1
      (run 65536 (Some sample_main) (Print "[MAIN] Two" Return) s')
    = (Returned, run 65536 (Some sample_main) (Print "[MAIN] Two" Return) s').
Proof.
  split; [reflexivity |].
  destruct (rewind_leaves_wake_state_Ended 65536 (Some sample_main) sample_export 2
              sample_resuming_main (Print "[MAIN] Two" Return) 0 eq_refl I
              (sample_allocator_avoids 128 2 2 (Rewinding 128) 36 ltac:(lia)))
    as (s' & Hsw & Ht & _ & Hc & Hw & _ & Hd).
  exists s'. split; [exact Hsw |]. split; [exact Ht |]. split; [| exact Hd].
  unfold wake_state. unfold nptr in Hw. rewrite Hc in Hw. exact Hw.
Defined.

(** ** The further theorems at work on the sample *)

Lemma suspension_point_unwinds_witness :
  suspends (Sleep 1000) = true /\
  trace (run 65536 (Some sample_main) (Call (Sleep 1000) (fun _ => sample_chain))
           sample_in_coro) = [EvStartUnwind 32] /\
  MU32_get (MU32 (run 65536 (Some sample_main) (Call (Sleep 1000) (fun _ => sample_chain))
                    sample_in_coro)) 12 = Some 1005.
Proof.
  assert (Hms : forall ms, Sleep 1000 = Sleep ms -> - 2 ^ 31 <= ms < 2 ^ 31)
    by (intros ms [= <-]; lia).
  assert (Hmem : is_Some (MU32_get (MU32 (materialize 65536 (Some sample_main) sample_in_coro))
                            (nptr (materialize 65536 (Some sample_main) sample_in_coro))))
    by (vm_compute; eexists; reflexivity).
  assert (Hne : MU32_get (MU32 (materialize 65536 (Some sample_main) sample_in_coro))
                  (nptr (materialize 65536 (Some sample_main) sample_in_coro))
                <> Some ResumingAfterSwitch) by (vm_compute; discriminate).
  destruct (suspension_point_unwinds 65536 (Some sample_main) (Sleep 1000)
              (fun _ => sample_chain) sample_in_coro eq_refl Hms Hmem Hne)
    as (_ & _ & _ & Ht & Hw & _).
  split; [reflexivity |]. split; [exact Ht | exact Hw].
Defined.

Lemma dispatcher_resumes_behind_suspension_point_witness :
  MU32_get (MU32 sample_parked) (nptr sample_parked) = Some ResumingAfterSwitch /\
  saved sample_parked !! 32 = Some sample_chain /\
  CoroHandler 65536 (Some sample_main) sample_export 2 sample_parked =
    CoroHandler 65536 (Some sample_main) sample_export 1
      (run 65536 (Some sample_main) (Print "[CORO] Two Sleep ..." Return)
         (resumed (EvCallExport 1 0) sample_parked)) /\
  trace (resumed (EvCallExport 1 0) sample_parked) =
    [EvStopUnwind; EvStartRewind 32; EvCallExport 1 0; EvStopRewind].
Proof.
  destruct (dispatcher_resumes_behind_suspension_point 65536 (Some sample_main)
              sample_export 1 sample_parked 32 (Switch 0)
              (fun _ => Print "[CORO] Two Sleep ..." Return) (FuncCoro 0)
              (EvCallExport 1 0) eq_refl eq_refl eq_refl eq_refl eq_refl eq_refl)
    as (Hd & Ht & _).
  split; [reflexivity |]. split; [reflexivity |]. split; [exact Hd | exact Ht].
Defined.

Lemma wait_parks_until_wake_source_witness :
  let s1 := run 65536 (Some sample_main) (Call WaitAnimFrame (fun _ => Return))
              sample_in_coro in
  let s2 := store 12 2 (log EvRequestAnimationFrame s1) in
  dispatch_target sample_export sample_in_coro = Some (FuncCoro 0, EvCallExport 1 0) /\
  CoroHandler 65536 (Some sample_main) sample_export 1 s1 = (Returned, s2) /\
  trace s2 = [EvStartUnwind 32; EvRequestAnimationFrame] /\
  CoroHandler 65536 (Some sample_main) sample_export 2 s2 =
    CoroHandler 65536 (Some sample_main) sample_export 1
      (run 65536 (Some sample_main) Return (resumed (EvCallExport 1 0) s2)).
Proof.
  intros s1 s2.
  assert (Hmem : is_Some (MU32_get (MU32 sample_in_coro) (nptr sample_in_coro)))
    by (vm_compute; eexists; reflexivity).
  assert (Hne : MU32_get (MU32 sample_in_coro) (nptr sample_in_coro)
                <> Some ResumingAfterSwitch) by (vm_compute; discriminate).
  destruct (wait_parks_until_wake_source 65536 (Some sample_main) sample_export
              WaitAnimFrame (fun _ => Return) sample_in_coro 32 (FuncCoro 0)
              (EvCallExport 1 0) 0 1 (or_introl eq_refl) eq_refl eq_refl Hmem Hne eq_refl)
    as (H1 & Ht & H2 & _).
  split; [reflexivity |]. split; [exact H1 |]. split; [exact Ht | exact H2].
Defined.

Lemma posted_message_resumes_yield_witness :
  let s1 := run 65536 (Some sample_main) (Call Yield (fun _ => Return)) sample_in_coro in
  let s2 := store 12 2 (log EvPostMessage s1) in
  CoroHandler 65536 (Some sample_main) sample_export 1 s1 = (Returned, s2) /\
  on_message 65536 (Some sample_main) sample_export (Some 7) 2 s2 = (Returned, s2) /\
  on_message 65536 (Some sample_main) sample_export (Some 9) 2 s2 =
    CoroHandler 65536 (Some sample_main) sample_export 1
      (run 65536 (Some sample_main) Return (resumed (EvCallExport 1 0) s2)).
Proof.
  intros s1 s2.
  assert (Hmem : is_Some (MU32_get (MU32 sample_in_coro) (nptr sample_in_coro)))
    by (vm_compute; eexists; reflexivity).
  assert (Hne : MU32_get (MU32 sample_in_coro) (nptr sample_in_coro)
                <> Some ResumingAfterSwitch) by (vm_compute; discriminate).
  assert (Hdata : Some 7 <> Some 9) by discriminate.
  exact (posted_message_resumes_yield 65536 (Some sample_main) sample_export
           (fun _ => Return) sample_in_coro 32 (FuncCoro 0) (EvCallExport 1 0)
           (Some 7) 0 1 eq_refl eq_refl Hmem Hne eq_refl Hdata).
Defined.

Lemma switch_to_self_resumes_at_once_witness :
  let s1 := run 65536 (Some sample_main) (Call (Switch 32) (fun _ => Return))
              sample_in_coro in
  JS.or (Some 32) (main_data sample_in_coro) = coro_current sample_in_coro /\
  CoroHandler 65536 (Some sample_main) sample_export 2 s1 =
    CoroHandler 65536 (Some sample_main) sample_export 1
      (run 65536 (Some sample_main) Return (resumed (EvCallExport 1 0) s1)) /\
  trace (resumed (EvCallExport 1 0) s1) =
    [EvStartUnwind 32; EvStopUnwind; EvStartRewind 32; EvCallExport 1 0; EvStopRewind].
Proof.
  intros s1.
  assert (Hmem : is_Some (MU32_get (MU32 sample_in_coro) (nptr sample_in_coro)))
    by (vm_compute; eexists; reflexivity).
  assert (Hne : MU32_get (MU32 sample_in_coro) (nptr sample_in_coro)
                <> Some ResumingAfterSwitch) by (vm_compute; discriminate).
  destruct (switch_to_self_resumes_at_once 65536 (Some sample_main) sample_export
              32 (fun _ => Return) sample_in_coro 32 (FuncCoro 0) (EvCallExport 1 0) 1
              eq_refl eq_refl eq_refl Hmem Hne eq_refl) as (Hd & Ht & _).
  split; [reflexivity |]. split; [exact Hd | exact Ht].
Defined.

Lemma switch_to_dead_handle_halts_witness :
  let s1 := run 65536 (Some sample_main) (Call (Switch 4096) (fun _ => Return))
              sample_in_coro in
  wake_state 4096 sample_in_coro = JS.undefined /\
  coro_current s1 = Some 4096 /\
  CoroHandler 65536 (Some sample_main) sample_export 5 s1 = (Returned, s1).
Proof.
  intros s1.
  assert (Hmem : is_Some (MU32_get (MU32 sample_in_coro) (nptr sample_in_coro)))
    by (vm_compute; eexists; reflexivity).
  assert (Hne : MU32_get (MU32 sample_in_coro) (nptr sample_in_coro)
                <> Some ResumingAfterSwitch) by (vm_compute; discriminate).
  assert (Hto : 4096 <> 0) by discriminate.
  assert (Hother : nptr sample_in_coro <> JS.sar (Some 4096) 2 + 4)
    by (vm_compute; discriminate).
  destruct (switch_to_dead_handle_halts 65536 (Some sample_main) sample_export
              4096 (fun _ => Return) sample_in_coro 32 4
              eq_refl eq_refl Hmem Hne Hto Hother eq_refl) as (Hc & _ & _ & Hd).
  split; [reflexivity |]. split; [exact Hc | exact Hd].
Defined.

Lemma missing_export_throws_at_dispatch_witness :
  let s1 := snd (WaCoroInitNew 65536 2048 0 0 sample_start) in
  let s2 := WaCoroSwitch 65536 (Some sample_main) 32 s1 in
  sample_export 2048 = None /\
  fst (WaCoroInitNew 65536 2048 0 0 sample_start) = 32 /\
  wake_state 32 s1 = Some Entering /\
  CoroHandler 65536 (Some sample_main) sample_export 3 s2
    = (Threw, ASM_asyncify_stop_unwind s2).
Proof.
  intros s1 s2.
  assert (Hptr : 0 <= JS.sar (Some (fst (WaCoroInitNew 65536 2048 0 0 sample_start))) 2)
    by (vm_compute; discriminate).
  assert (Hmem : is_Some (MU32_get (MU32 sample_start)
            (JS.sar (Some (fst (WaCoroInitNew 65536 2048 0 0 sample_start))) 2 + 4)))
    by (vm_compute; eexists; reflexivity).
  assert (Hcnt : coro_count sample_start < 2 ^ 32 - 1) by (vm_compute; reflexivity).
  destruct (missing_export_throws_at_dispatch 65536 (Some sample_main) sample_export
              2048 0 0 sample_start s2 2 Hptr Hmem (registry_ok_init _ _) Hcnt
              eq_refl eq_refl eq_refl eq_refl eq_refl) as (Hw & _ & Hd & _).
  split; [reflexivity |]. split; [reflexivity |]. split; [exact Hw | exact Hd].
Defined.

Lemma registry_only_grows_witness :
  registry_ok sample_start /\
  registry_extends sample_start
    (snd (CoroHandler 65536 (Some sample_main) sample_export 100
            (run 65536 (Some sample_main) sample_main sample_start))).
Proof.
  pose proof (registry_ok_init (replicate 64 0) [32; 128]) as Hok.
  destruct (registry_only_grows 65536 (Some sample_main) sample_export sample_start
              Yield sample_main 0 Hok) as (_ & Hrun & _).
  destruct (registry_only_grows 65536 (Some sample_main) sample_export
              (run 65536 (Some sample_main) sample_main sample_start)
              Yield Return 100 (proj1 Hrun)) as (_ & _ & Hd).
  split; [exact Hok |].
  destruct Hrun as (_ & Hc & Hk). destruct Hd as (Hok' & Hc' & Hk').
  split; [exact Hok' |]. split; [lia |].
  intros p v Hp. destruct (Hk p v Hp) as [Hp' _]. apply Hk'. exact Hp'.
Defined.


Lemma MainContext_allocation_is_retried_witness :
  let s1 := snd (import 65536 (Some sample_main) Yield sample_exhausted) in
  hd 0 (malloc_oracle sample_exhausted) = 0 /\
  main_data s1 = Some 0 /\
  trace s1 = [EvMalloc (20 + 65536); EvStartUnwind 0] /\
  trace (materialize 65536 (Some sample_main) s1) = trace s1 ++ [EvMalloc (20 + 65536)].
Proof.
  intros s1.
  assert (Hms : forall ms, Yield = Sleep ms -> - 2 ^ 31 <= ms < 2 ^ 31)
    by (intros ms Hms; discriminate Hms).
  assert (Hmem : is_Some (MU32_get (MU32 sample_exhausted) 4))
    by (vm_compute; eexists; reflexivity).
  destruct (MainContext_allocation_is_retried 65536 (Some sample_main) Yield
              sample_exhausted eq_refl Hms eq_refl eq_refl Hmem)
    as (Hd & _ & _ & Ht & Hm).
  split; [reflexivity |]. split; [exact Hd |]. split; [exact Ht | exact Hm].
Defined.

Lemma nanosleep_returns_on_first_late_reading_witness :
  nanosleep 3 sample_clock sample_request None = Some (0, None, 3%nat, [Sleep 9; Yield]) /\
  exists n, 3%nat = S n /\ 10000000 <= nanoseconds (sample_clock n).
Proof.
  assert (Hret : nanosleep 3 sample_clock sample_request None
                 = Some (0, None, 3%nat, [Sleep 9; Yield])) by (vm_compute; reflexivity).
  destruct (nanosleep_returns_on_first_late_reading 3 sample_clock sample_request None
              0 None 3 [Sleep 9; Yield] Hret) as (_ & _ & n & Hn & Hreach & _).
  split; [exact Hret |]. exists n. split; [exact Hn | exact Hreach].
Defined.

Lemma nanosleep_sleeps_short_of_deadline_witness :
  4500000 < 10000000 - 0 /\
  exists ms, nanosleep_wait 0 10000000 = Sleep ms /\ 4 <= ms < 2 ^ 31 /\
    ms * 1000000 + 500000 <= 10000000 - 0 < ms * 1000000 + 1500000.
Proof.
  split; [lia |].
  apply (nanosleep_sleeps_short_of_deadline 0 10000000); lia.
Defined.

Lemma nanosleep_short_request_only_yields_witness :
  nanosleep 2 sample_clock sample_short_request None = Some (0, None, 2%nat, [Yield]) /\
  [Yield] = repeat Yield (2 - 1).
Proof.
  assert (Hret : nanosleep 2 sample_clock sample_short_request None
                 = Some (0, None, 2%nat, [Yield])) by (vm_compute; reflexivity).
  assert (Hs : 0 <= tv_sec sample_short_request) by (vm_compute; discriminate).
  assert (Hn : 0 <= tv_nsec sample_short_request) by (vm_compute; discriminate).
  assert (Hshort : tv_sec sample_short_request * 1000000000
                   + tv_nsec sample_short_request <= 4500000) by (vm_compute; discriminate).
  assert (Hfit : nanoseconds (sample_clock O) + 4500000 < 2 ^ 64) by (vm_compute; reflexivity).
  assert (Hmono : forall j, nanoseconds (sample_clock O) <= nanoseconds (sample_clock j)).
  { intros j. pose proof (nanoseconds_range (sample_clock j)) as Hj.
    change (nanoseconds (sample_clock O)) with 0. lia. }
  split; [exact Hret |].
  exact (nanosleep_short_request_only_yields 2 sample_clock sample_short_request None
           0 None 2 [Yield] Hs Hn Hshort Hfit Hmono Hret).
Defined.

Lemma nanosleep_long_wait_sleeps_zero_witness :
  exists ms,
    nanosleep_wait 0 (2 ^ 31 * 1000000 + 500000) = Sleep ms /\ ms < 0 /\
    ms = (2 ^ 31 * 1000000 + 500000 - 0 - 500000) / 1000000 - 2 ^ 32 /\
    WaCoroSleep 65536 (Some sample_main) ms sample_in_coro
      = WaCoroSleep 65536 (Some sample_main) 0 sample_in_coro.
Proof.
  apply (nanosleep_long_wait_sleeps_zero 65536 (Some sample_main) 0
           (2 ^ 31 * 1000000 + 500000) sample_in_coro); lia.
Defined.

Lemma first_wait_of_main_witness :
  let s1 := run 65536 (Some sample_main) (Call WaitAnimFrame (fun _ => Return))
              sample_start in
  let s2 := store 12 2 (log (wake_source (wake_code WaitAnimFrame)) s1) in
  JS.truthy (main_data sample_start) = false /\
  hd 0 (malloc_oracle sample_start) = 32 /\
  CoroHandler 65536 (Some sample_main) sample_export 1 s1 = (Returned, s2) /\
  main_data s2 = Some 32 /\ coro_current s2 = Some 32 /\
  CoroHandler 65536 (Some sample_main) sample_export 1 s2 =
    CoroHandler 65536 (Some sample_main) sample_export 0
      (run 65536 (Some sample_main) Return
         (resumed EvCallMain s2)).
Proof.
  intros s1 s2.
  assert (Hmem : is_Some (MU32_get (MU32 sample_start) 12))
    by (vm_compute; eexists; reflexivity).
  destruct (first_wait_of_main 65536 (Some sample_main) sample_export WaitAnimFrame
              (fun _ => Return) sample_start sample_main 0 0
              (or_introl eq_refl) eq_refl ltac:(vm_compute; discriminate)
              ltac:(vm_compute; discriminate) Hmem eq_refl)
    as (Hd & _ & Hm & Hc & Hr & _).
  split; [reflexivity |]. split; [reflexivity |].
  split; [exact Hd |]. split; [exact Hm |]. split; [exact Hc | exact Hr].
Defined.

Lemma switch_into_new_coroutine_and_back_witness :
  let s := sample_state 128 0 1 Normal in
  let k := fun _ : Z => Print "[MAIN] Two" Return in
  let s1 := run 65536 (Some sample_main) (Call (Switch 32) k) s in
  let s3 := run 65536 (Some sample_main) (FuncCoro 0)
              (log (EvCallExport 1 0) (ASM_asyncify_stop_unwind s1)) in
  MU32_get (MU32 s) 12 = Some Entering /\
  FuncCoro 0 =
    printing ["[CORO] One"%string]
      (Call (Switch 0) (fun _ =>
       Print "[CORO] Two Sleep ..." (Call (Sleep 1000) (fun _ =>
       Print "[CORO] Two Done Sleeping" (Call (Switch 0) (fun _ =>
       Print "[CORO] Three" (Call (Switch 0) (fun _ =>
       Print "[CORO] Should never arrive here" Return)))))))) /\
  CoroHandler 65536 (Some sample_main) sample_export 3 s1 =
    CoroHandler 65536 (Some sample_main) sample_export 1
      (run 65536 (Some sample_main) (k 0)
         (resumed EvCallMain s3)) /\
  output (trace (resumed EvCallMain s3)) = ["[CORO] One"%string] /\
  coro_current (resumed EvCallMain s3) = Some 128.
Proof.
  intros s k s1 s3.
  assert (Hmem : is_Some (MU32_get (MU32 s) (nptr s))) by (vm_compute; eexists; reflexivity).
  assert (Hne : MU32_get (MU32 s) (nptr s) <> Some ResumingAfterSwitch)
    by (vm_compute; discriminate).
  assert (Hsep : nptr s + 2 < JS.sar (Some 32) 2 + 4 \/ JS.sar (Some 32) 2 + 4 + 2 < nptr s)
    by (right; vm_compute; reflexivity).
  destruct (switch_into_new_coroutine_and_back 65536 (Some sample_main) sample_export
              32 k _ ["[CORO] One"%string] s 128 1 1024 0 FuncCoro sample_main 1
              eq_refl eq_refl ltac:(discriminate) Hmem Hne eq_refl eq_refl
              ltac:(discriminate) ltac:(vm_compute; discriminate) Hsep
              eq_refl eq_refl ltac:(discriminate) eq_refl eq_refl eq_refl eq_refl)
    as (Hd & Ht & Hc & _).
  split; [reflexivity |]. split; [reflexivity |]. split; [exact Hd |].
  split; [exact (f_equal output Ht) | exact Hc].
Defined.
